(** * Fused attention: custom-call dispatch and sharding-partition protocol

    A shallow embedding of [jax/_src/cudnn/fused_attention_stablehlo.py]:
    layout and shape validation, the backend configuration builder, the
    forward custom-call emitter, the forward batching rule, the sharding
    partitioner and the user-facing operator [dot_product_attention].

    Python exceptions are modelled by the error monad [result]; arrays are
    modelled the way the tracing runtime sees them, as a shape, a dtype and a
    symbolic term describing how the value was built. *)

From Stdlib Require Import ZArith List String Ascii Bool Lia QArith DecimalString.
From Stdlib Require Import DecimalZ.
Import ListNotations.

Open Scope string_scope.
Open Scope list_scope.
Open Scope Z_scope.

(** ** Exceptions and the error monad *)

(** The exception classes raised by the module (or by the Python runtime on
    its behalf).  The payload is the literal part of the message, without
    the interpolated [got ...] suffix of the f-strings. *)
Inductive exn : Type :=
| ValueError (msg : string)
| NotImplementedError (msg : string)
| RuntimeError (msg : string)
| TypeError (msg : string)
| KeyError (msg : string)
| AssertionError
| IndexError
| AttributeError
| NameError (msg : string).

Inductive result (A : Type) : Type :=
| Ok (a : A)
| Err (e : exn).

Arguments Ok {A} a.
Arguments Err {A} e.

Definition bind {A B : Type} (m : result A) (k : A -> result B) : result B :=
  match m with
  | Ok a => k a
  | Err e => Err e
  end.

Notation "x <- m ;; k" := (bind m (fun x => k))
  (at level 61, m at next level, right associativity).
Notation "' pat <- m ;; k" :=
  (bind m (fun x => match x with pat => k end))
  (at level 61, pat pattern, m at next level, right associativity).
Notation "m ;;; k" := (bind m (fun _ => k))
  (at level 61, right associativity).

(** [if c: raise e] *)
Definition raise_if (c : bool) (e : exn) : result unit :=
  if c then Err e else Ok tt.

Definition is_ok {A : Type} (r : result A) : bool :=
  match r with Ok _ => true | Err _ => false end.

(** ** Enumerations *)

Inductive AttentionLayout : Type := BTNH | BNTH.

(** [AttentionLayout.x.value] *)
Definition layout_value (l : AttentionLayout) : Z :=
  match l with BTNH => 0 | BNTH => 1 end.

Definition AttentionLayout_eqb (a b : AttentionLayout) : bool :=
  match a, b with
  | BTNH, BTNH | BNTH, BNTH => true
  | _, _ => false
  end.

(** The [layout] argument is passed around both as the enumeration member
    and as its integer [.value]; [enum.Enum] members never compare equal to
    integers, so the two must be kept apart. *)
Inductive layout_arg : Type :=
| LEnum (l : AttentionLayout)
| LInt (n : Z).

(** Python [==] on layout arguments. *)
Definition layout_arg_eqb (a b : layout_arg) : bool :=
  match a, b with
  | LEnum x, LEnum y => AttentionLayout_eqb x y
  | LInt x, LInt y => Z.eqb x y
  | _, _ => false
  end.

Inductive MaskType : Type :=
| NO_MASK | PADDING | CAUSAL | PADDING_CAUSAL | ALIBI.

Definition convert_mask_type_to_string (mask_type : MaskType) : string :=
  match mask_type with
  | NO_MASK => "NO_MASK"
  | PADDING => "PADDING"
  | CAUSAL => "CAUSAL"
  | PADDING_CAUSAL => "PADDING_CAUSAL"
  | ALIBI => "ALIBI"
  end.

Definition has_padding (mask_type : MaskType) : bool :=
  match mask_type with
  | PADDING | PADDING_CAUSAL => true
  | _ => false
  end.

(** Element types of arrays. *)
Inductive DType : Type :=
| bfloat16 | float16 | float32 | float64 | int32 | int64 | uint8 | bool_.

Definition DType_eqb (a b : DType) : bool :=
  match a, b with
  | bfloat16, bfloat16 | float16, float16 | float32, float32
  | float64, float64 | int32, int32 | int64, int64 | uint8, uint8
  | bool_, bool_ => true
  | _, _ => false
  end.

(** ** Small helpers *)

(** Tuple unpacking [a, b, c, d = shape]; fails unless there are exactly
    four components, with the runtime's message for too few components
    (less its [got ...] part) or its message for too many. *)
Definition unpack4 {A : Type} (l : list A) : result (A * A * A * A) :=
  match l with
  | [a; b; c; d] => Ok (a, b, c, d)
  | _ :: _ :: _ :: _ :: _ :: _ =>
      Err (ValueError "too many values to unpack (expected 4)")
  | _ => Err (ValueError "not enough values to unpack (expected 4)")
  end.

(** Starred unpacking [*front, a, b, c = l]; fails when fewer than three
    components are available. *)
Definition unpack_star3 {A : Type} (l : list A) : result (list A * A * A * A) :=
  match rev l with
  | c :: b :: a :: front => Ok (rev front, a, b, c)
  | _ => Err (ValueError "not enough values to unpack (expected at least 3)")
  end.

(** [shape[-3:]] *)
Definition last3 {A : Type} (l : list A) : list A :=
  skipn (List.length l - 3)%nat l.

(** [math.prod] *)
Definition prod (l : list Z) : Z := fold_right Z.mul 1 l.

(** [str(n)] for an integer. *)
Definition str (n : Z) : string := NilEmpty.string_of_int (Z.to_int n).

Fixpoint list_eqb {A : Type} (eqb : A -> A -> bool) (l1 l2 : list A) : bool :=
  match l1, l2 with
  | [], [] => true
  | x :: l1', y :: l2' => eqb x y && list_eqb eqb l1' l2'
  | _, _ => false
  end.

(** ** [should_export_dbias] *)

Definition should_export_dbias (bias_shape query_shape : list Z)
    (layout : layout_arg) : result bool :=
  '(b_B, b_N, _, _) <- unpack4 bias_shape ;;
  q_N <- (if layout_arg_eqb layout (LInt (layout_value BNTH))
          then '(_, q_N, _, _) <- unpack4 query_shape ;; Ok q_N
          else '(_, _, q_N, _) <- unpack4 query_shape ;; Ok q_N) ;;
  Ok ((b_B =? 1) && (b_N =? q_N)).

(** ** [get_large_negative_number] *)

(** A scalar built by [jnp.asarray(v, dtype=dt)] from a Python integer. *)
Record Scalar : Type := mkScalar { sval : Z; sdtype : DType }.

Definition get_large_negative_number (dtype : DType) : result Scalar :=
  match dtype with
  | bfloat16 => Ok (mkScalar (Z.shiftl (-2) 40) dtype)
  | float16 => Ok (mkScalar (Z.shiftl (-2) 14) dtype)
  | _ => Err (ValueError "Unsupported dtype for inputs.")
  end.

(** The integer payload of a [Scalar] is its value only if the conversion to
    the floating-point format is exact.  The two formats have 11 and 8
    significant bits and largest finite values 65504 and
    (2^8 - 1) * 2^120. *)
Fixpoint odd_part (p : positive) : positive :=
  match p with
  | xO q => odd_part q
  | _ => p
  end.

Definition exactly_representable (dt : DType) (z : Z) : bool :=
  match Z.abs z with
  | Zpos p =>
      match dt with
      | float16 => (Zpos (odd_part p) <? 2 ^ 11) && (Zpos p <=? 65504)
      | bfloat16 => (Zpos (odd_part p) <? 2 ^ 8) && (Zpos p <=? 255 * 2 ^ 120)
      | _ => false
      end
  | _ => true
  end.

(** ** [_normalize_layout] *)

(** [layout_upper.replace("S", "T")] *)
Fixpoint replace_S_T (s : string) : string :=
  match s with
  | EmptyString => EmptyString
  | String c s' =>
      String (if Ascii.eqb c "S"%char then "T"%char else c) (replace_S_T s')
  end.

(** [AttentionLayout[name]]: lookup of a member by name. *)
Definition AttentionLayout_of_name (name : string) : result AttentionLayout :=
  if String.eqb name "BTNH" then Ok BTNH
  else if String.eqb name "BNTH" then Ok BNTH
  else Err (KeyError name).

Definition string_in (s : string) (l : list string) : bool :=
  existsb (String.eqb s) l.

Section NormalizeLayout.

(** [str.upper], the Unicode-aware library function. *)
Variable upper : string -> string.

Definition _normalize_layout (layout : string) : result AttentionLayout :=
  let layout_upper := upper layout in
  if string_in layout_upper ["BSNH"; "BNSH"; "BTNH"; "BNTH"]
  then AttentionLayout_of_name (replace_S_T layout_upper)
  else Err (ValueError "Unsupported qkv_layout").

End NormalizeLayout.

(** [str.upper] restricted to ASCII strings. *)
Definition ascii_upper_char (c : ascii) : ascii :=
  let n := nat_of_ascii c in
  if (Nat.leb 97 n && Nat.leb n 122)%bool then ascii_of_nat (n - 32) else c.

Fixpoint ascii_upper (s : string) : string :=
  match s with
  | EmptyString => EmptyString
  | String c s' => String (ascii_upper_char c) (ascii_upper s')
  end.

(** ** Arrays *)

(** How an array value was built.  User inputs are opaque; the operator
    itself only ever applies the constructors below. *)
Inductive Term : Type :=
| Input (name : string)
| Const (c : Scalar)                     (* jnp.asarray(v, dtype) *)
| Where (cond : Term) (x y : Term)       (* jnp.where(cond, x, y) *)
| Reshape (t : Term) (new_shape : list Z)
| Add (a b : Term)
| Zeros (n : Z) (dt : DType)             (* jnp.zeros(n, dtype) *)
| PrimOutput (primitive : string) (index : nat).
                                         (* outputs[index] of a bind *)

Record Array : Type := mkArray {
  shape : list Z;
  dtype : DType;
  term : Term
}.

(** [len(a.shape)] *)
Definition rank (a : Array) : Z := Z.of_nat (List.length (shape a)).

(** Element-wise meaning of [jnp.where(mask, x, y)] on the flattened data of
    a boolean mask and two scalars. *)
Definition jnp_where (mask : list bool) (x y : Scalar) : list Scalar :=
  map (fun m : bool => if m then x else y) mask.

(** ** Backend configuration *)

(** The Python value handed to [json.dumps]; dictionaries keep insertion
    order. *)
#[warnings="-register-all"] Inductive json : Type :=
| JString (s : string)
| JInt (n : Z)
| JFloat (q : Q)
| JBool (b : bool)
| JList (l : list json)
| JDict (d : list (string * json)).

Definition dict : Type := list (string * json).

(** [d[k] = v] *)
Fixpoint dict_set (d : dict) (k : string) (v : json) : dict :=
  match d with
  | [] => [(k, v)]
  | (k', v') :: d' =>
      if String.eqb k k' then (k, v) :: d' else (k', v') :: dict_set d' k v
  end.

(** [{**a, **b}] *)
Definition dict_merge (a b : dict) : dict :=
  fold_left (fun d kv => dict_set d (fst kv) (snd kv)) b a.

Fixpoint dict_get (d : dict) (k : string) : option json :=
  match d with
  | [] => None
  | (k', v) :: d' => if String.eqb k k' then Some v else dict_get d' k
  end.

Definition dict_keys (d : dict) : list string := map fst d.

Definition element_type_to_backend_config_type_mapping (dtype : DType)
    : result string :=
  match dtype with
  | bfloat16 => Ok "BF16"
  | float16 => Ok "F16"
  | _ => Err (KeyError "element type")
  end.

(** [range(len(shape) - 1, -1, -1)] *)
Definition descending (n : nat) : list Z := rev (map Z.of_nat (seq 0 n)).

Definition default_layouts (shapes : list (list Z)) : list (list Z) :=
  map (fun s : list Z => descending (List.length s)) shapes.

(** One entry of the [dims] tables:
    [((lhs_contracting, rhs_contracting), (lhs_batch, rhs_batch))]. *)
Definition dot_dims : Type := (Z * Z) * (list Z * list Z).

Definition dims_BNTH : list dot_dims :=
  [ ((3, 3), ([0; 1], [0; 1]));   (* BMM1: BNTH,BNSH->BNTS *)
    ((3, 2), ([0; 1], [0; 1]));   (* BMM2: BNTS,BNSH->BNTH *)
    ((2, 2), ([0; 1], [0; 1]));   (* BMM1_grad_1: BNTS,BNTH->BNSH *)
    ((3, 2), ([0; 1], [0; 1]));   (* BMM1_grad_2: BNTS,BNSH->BNTH *)
    ((2, 2), ([0; 1], [0; 1]));   (* BMM2_grad_1: BNTS,BNTH->BNSH *)
    ((3, 3), ([0; 1], [0; 1])) ]. (* BMM2_grad_2: BNTH,BNSH->BNTS *)

Definition dims_BTNH : list dot_dims :=
  [ ((3, 3), ([0; 2], [0; 2]));   (* BMM1: BTNH,BSNH->BNTS *)
    ((3, 1), ([0; 1], [0; 2]));   (* BMM2: BNTS,BSNH->BTNH *)
    ((2, 1), ([0; 1], [0; 2]));   (* BMM1_grad_1: BNTS,BTNH->BSNH *)
    ((3, 1), ([0; 1], [0; 2]));   (* BMM1_grad_2: BNTS,BSNH->BTNH *)
    ((2, 1), ([0; 1], [0; 2]));   (* BMM2_grad_1: BNTS,BTNH->BSNH *)
    ((3, 3), ([0; 2], [0; 2])) ]. (* BMM2_grad_2: BTNH,BSNH->BNTS *)

Definition dot_number_keys : list string :=
  [ "bmm1_dot_dimension_numbers";
    "bmm2_dot_dimension_numbers";
    "bmm1_grad_gemm1_dot_dimension_numbers";
    "bmm1_grad_gemm2_dot_dimension_numbers";
    "bmm2_grad_gemm1_dot_dimension_numbers";
    "bmm2_grad_gemm2_dot_dimension_numbers" ].

Definition str_list (l : list Z) : json := JList (map (fun i => JString (str i)) l).

(** The dictionary written for one matmul. *)
Definition dot_dimension_numbers (d : dot_dims) : json :=
  let '((lc, rc), (lb, rb)) := d in
  JDict [ ("lhs_contracting_dimensions", str_list [lc]);
          ("rhs_contracting_dimensions", str_list [rc]);
          ("lhs_batch_dimensions", str_list lb);
          ("rhs_batch_dimensions", str_list rb) ].

(** The loop [for idx, (key, dims) in enumerate(zip(keys, dims))], threading
    the two dictionaries it fills. *)
Fixpoint write_dot_numbers (idx : nat) (kds : list (string * dot_dims))
    (fwd_dot_number bwd_dot_number : dict) : dict * dict :=
  match kds with
  | [] => (fwd_dot_number, bwd_dot_number)
  | (key, d) :: rest =>
      if (idx <? 2)%nat
      then write_dot_numbers (S idx) rest
             (dict_set fwd_dot_number key (dot_dimension_numbers d))
             bwd_dot_number
      else write_dot_numbers (S idx) rest fwd_dot_number
             (dict_set bwd_dot_number key (dot_dimension_numbers d))
  end.

Definition algorithm_block : json :=
  JDict [ ("algo_id", JString "0");
          ("math_type", JString "TENSOR_OP_MATH");
          ("tuning_knobs", JDict [("17", JString "1"); ("24", JString "0")]);
          ("is_cudnn_frontend", JBool true);
          ("workspace_size", JString "0") ].

Definition intermediate_layout_block : json :=
  JDict [ ("dim_level_types", JList []);
          ("dim_unique", JList []);
          ("dim_ordered", JList []);
          ("minor_to_major",
             JList [JString "3"; JString "2"; JString "1"; JString "0"]);
          ("tiles", JList []);
          ("element_size_in_bits", JString "0");
          ("memory_space", JString "0");
          ("index_primitive_type", JString "PRIMITIVE_TYPE_INVALID");
          ("pointer_primitive_type", JString "PRIMITIVE_TYPE_INVALID");
          ("dynamic_shape_metadata_prefix_bytes", JString "0") ].

(** The value passed to [json.dumps] at the end of
    [create_dot_product_attention_backend_config]. *)
Definition create_dot_product_attention_backend_config
    (batch num_heads seq_q seq_kv : Z) (dtype : DType) (fmha_scale : Q)
    (seed : Z) (dropout_rate : Q) (mask_type : MaskType) (layout : layout_arg)
    (sliding_window_length : option Z) (is_bwd : bool) : result json :=
  let sliding_window_length :=
    match sliding_window_length with None => 0 | Some n => n end in
  element_type <- element_type_to_backend_config_type_mapping dtype ;;
  let cudnn_fmha_backend_config : dict :=
    [ ("algorithm", algorithm_block);
      ("fmha_scale", JFloat fmha_scale);
      ("dropout_rate", JFloat dropout_rate);
      ("intermediate_tensor_shape",
         JDict [ ("element_type", JString element_type);
                 ("dimensions",
                    JList [ JString (str batch); JString (str num_heads);
                            JString (str seq_q); JString (str seq_kv) ]);
                 ("tuple_shapes", JList []);
                 ("layout", intermediate_layout_block);
                 ("is_dynamic_dimension",
                    JList [JBool false; JBool false; JBool false; JBool false]) ]);
      ("seed", JInt seed);
      ("is_flash_attention", JBool true);
      ("mask_type", JString (convert_mask_type_to_string mask_type));
      ("sliding_window_length", JInt sliding_window_length) ] in
  let dims :=
    if layout_arg_eqb layout (LInt (layout_value BNTH))
    then dims_BNTH else dims_BTNH in
  let '(fwd_dot_number, bwd_dot_number) :=
    write_dot_numbers 0 (combine dot_number_keys dims) [] [] in
  let cudnn_fmha_backend_config :=
    if is_bwd
    then dict_merge cudnn_fmha_backend_config bwd_dot_number
    else dict_merge cudnn_fmha_backend_config fwd_dot_number in
  Ok (JDict [ ("operation_queue_id", JString "0");
              ("wait_on_operation_queues", JList []);
              ("cudnn_fmha_backend_config", JDict cudnn_fmha_backend_config) ]).

(** ** Custom call names *)

(** Mapping from [(is_bwd, has_dropout, has_bias)] to the custom call name. *)
Definition _custom_name_maps : list ((bool * bool * bool) * string) :=
  [ ((false, false, false), "__cudnn$fmhaSoftmax");
    ((false, false, true), "__cudnn$fmhaScaleBiasSoftmax");
    ((false, true, false), "__cudnn$fmhaSoftmaxDropout");
    ((false, true, true), "__cudnn$fmhaScaleBiasSoftmaxDropout");
    ((true, false, false), "__cudnn$fmhaSoftmaxBackward");
    ((true, false, true), "__cudnn$fmhaScaleBiasSoftmaxBackward");
    ((true, true, false), "__cudnn$fmhaSoftmaxDropoutBackward");
    ((true, true, true), "__cudnn$fmhaScaleBiasSoftmaxDropoutBackward") ].

Definition key3_eqb (a b : bool * bool * bool) : bool :=
  let '(a1, a2, a3) := a in
  let '(b1, b2, b3) := b in
  Bool.eqb a1 b1 && Bool.eqb a2 b2 && Bool.eqb a3 b3.

Fixpoint name_map_lookup (m : list ((bool * bool * bool) * string))
    (k : bool * bool * bool) : result string :=
  match m with
  | [] => Err (KeyError "custom call name")
  | (k', v) :: m' => if key3_eqb k k' then Ok v else name_map_lookup m' k
  end.

Definition get_custom_call_name (has_bias has_dropout is_bwd : bool)
    : result string :=
  name_map_lookup _custom_name_maps (is_bwd, has_dropout, has_bias).

(** ** Layout and shape validation *)

(** The inner helper [check_eq] of [check_layout]; [a == b == c] is the
    chained comparison [a == b and b == c]. *)
Definition check_eq {A : Type} (eqb : A -> A -> bool) (a b c : A)
    (msg : string) : result unit :=
  raise_if (negb (eqb a b && eqb b c)) (ValueError (msg ++ " must be same")).

Definition check_layout (query key value : Array)
    (bias q_seqlen kv_seqlen : option Array) (layout : layout_arg)
    : result unit :=
  let q_rank := rank query in
  let k_rank := rank key in
  let v_rank := rank value in
  raise_if (negb (q_rank =? 4)) (ValueError "Q must have a rank of 4") ;;;
  check_eq Z.eqb q_rank k_rank v_rank "QKV rank" ;;;
  let q_dtype := dtype query in
  let k_dtype := dtype key in
  let v_dtype := dtype value in
  raise_if (negb (existsb (DType_eqb q_dtype) [bfloat16; float16]))
    (NotImplementedError "Q must be fp16 or bf16") ;;;
  check_eq DType_eqb q_dtype k_dtype v_dtype "QKV dtype" ;;;
  '(qB, qN, qT, qH, (kB, kN, kS, kH), (vB, vN, vS, vH)) <-
    (if layout_arg_eqb layout (LEnum BNTH)
     then
       '(qB, qN, qT, qH) <- unpack4 (shape query) ;;
       '(kB, kN, kS, kH) <- unpack4 (shape key) ;;
       '(vB, vN, vS, vH) <- unpack4 (shape value) ;;
       Ok (qB, qN, qT, qH, (kB, kN, kS, kH), (vB, vN, vS, vH))
     else
       raise_if (negb (layout_arg_eqb layout (LEnum BTNH))) AssertionError ;;;
       '(qB, qT, qN, qH) <- unpack4 (shape query) ;;
       '(kB, kS, kN, kH) <- unpack4 (shape key) ;;
       '(vB, vS, vN, vH) <- unpack4 (shape value) ;;
       Ok (qB, qN, qT, qH, (kB, kN, kS, kH), (vB, vN, vS, vH))) ;;
  check_eq Z.eqb qB kB vB "QKV batch" ;;;
  check_eq Z.eqb qH kH vH "QKV dim_per_head" ;;;
  raise_if (negb (kN =? vN)) (ValueError "KV must have same number of heads") ;;;
  raise_if (negb (kS =? vS)) (ValueError "KV must have same seq length") ;;;
  (* check bias/q_seqlen/kv_seqlen *)
  match bias with
  | Some bias =>
      '(_, _, bT, bS) <- unpack4 (shape bias) ;;
      raise_if (negb (bT =? qT) || negb (bS =? vS))
        (ValueError "Bias must have same seq length as QKV")
  | None => Ok tt
  end ;;;
  match q_seqlen with
  | Some q_seqlen =>
      let q_seq_dtype := dtype q_seqlen in
      let q_seq_rank := rank q_seqlen in
      raise_if (negb (DType_eqb q_seq_dtype int32))
        (ValueError "q_seqlen must have int32 datatype") ;;;
      raise_if (negb (q_seq_rank =? 1))
        (ValueError "q_seqlen must have a rank of 1") ;;;
      let q_seq_b := hd 0 (shape q_seqlen) in
      raise_if (negb (q_seq_b =? qB))
        (ValueError "q_seqlen must have same batch as Q")
  | None => Ok tt
  end ;;;
  match kv_seqlen with
  | Some kv_seqlen =>
      let kv_seq_dtype := dtype kv_seqlen in
      let kv_seq_rank := rank kv_seqlen in
      raise_if (negb (DType_eqb kv_seq_dtype int32))
        (ValueError "kv_seqlen must have int32 datatype") ;;;
      raise_if (negb (kv_seq_rank =? 1))
        (ValueError "kv_seq_rank must have a rank of 1") ;;;
      let kv_seq_b := hd 0 (shape kv_seqlen) in
      raise_if (negb (kv_seq_b =? qB))
        (ValueError "kv_seqlen must have same batch as Q")
  | None => Ok tt
  end.

(** The condition under which [check_is_flash_attention] does not raise
    [NotImplementedError]. *)
Definition flash_attention_supported (T S_ H : Z) (has_bias is_training : bool)
    : bool :=
  ((H <=? 128) && (H mod 8 =? 0)) &&
  (negb is_training || negb has_bias || ((T mod 2 =? 0) && (S_ mod 2 =? 0))).

Definition check_is_flash_attention (query key : Array) (layout : layout_arg)
    (cudnn_version : Z) (has_bias is_training : bool) : result unit :=
  '(T, H, S_) <-
    (if layout_arg_eqb layout (LInt (layout_value BNTH))
     then
       '(_, _, T, H) <- unpack4 (shape query) ;;
       '(_, _, S_, _) <- unpack4 (shape key) ;;
       Ok (T, H, S_)
     else
       '(_, T, _, H) <- unpack4 (shape query) ;;
       '(_, S_, _, _) <- unpack4 (shape key) ;;
       Ok (T, H, S_)) ;;
  (* check if flash attention is supported *)
  raise_if (negb (flash_attention_supported T S_ H has_bias is_training))
    (NotImplementedError "Unsupported sequence length Q, KV and head dim") ;;;
  (* check if minimum cudnn version requirement is satisfied *)
  raise_if (cudnn_version <? 8904)
    (RuntimeError "JAX requires cuDNN >= 8.9.4 to use flash cross attention.").

(** ** Forward custom-call emitter *)

(** [ir.RankedTensorType.get(shape, element_type)] *)
Record TensorType : Type := mkTensorType {
  tt_shape : list Z;
  tt_element_type : DType
}.

(** The arguments of [mlir.custom_call]. *)
Record CustomCall : Type := mkCustomCall {
  call_target_name : string;
  result_types : list TensorType;
  operands : list Array;
  backend_config : json;
  operand_layouts : list (list Z);
  result_layouts : list (list Z)
}.

(** The values returned by a lowering rule, in terms of the call results. *)
Inductive LoweredValue : Type :=
| CallResult (index : nat)                        (* out.results[index] *)
| Transpose (v : LoweredValue) (perm : list Z).   (* hlo.transpose(v, perm) *)

(** Shape of [hlo.transpose(x, perm)] for [x] of shape [s]. *)
Definition transpose_shape (perm : list Z) (s : list Z) : list Z :=
  map (fun p => nth (Z.to_nat p) s 0) perm.

(** [dropout_rate > 0] *)
Definition Qgtb0 (q : Q) : bool := negb (Qle_bool q 0).

Definition _dot_product_attention_fwd_cuda_lowering
    (query key value bias q_seqlen kv_seqlen : Array)
    (scale : Q) (seed : Z) (dropout_rate : Q) (variadic_args : bool * bool)
    (mask_type : MaskType) (layout : layout_arg)
    (sliding_window_length : option Z) (is_training : bool)
    : result (CustomCall * list LoweredValue) :=
  let query_shape := shape query in
  let key_shape := shape key in
  '(B, N, T, H, S_, output_layout, output_transpose_perm) <-
    (if layout_arg_eqb layout (LInt (layout_value BNTH))
     then
       '(B, N, T, H) <- unpack4 query_shape ;;
       '(_, _, S_, _) <- unpack4 key_shape ;;
       Ok (B, N, T, H, S_, [3; 2; 1; 0], [0; 1; 2; 3])
     else
       '(B, T, N, H) <- unpack4 query_shape ;;
       '(_, S_, _, _) <- unpack4 key_shape ;;
       Ok (B, N, T, H, S_, [3; 1; 2; 0], [0; 2; 1; 3])) ;;
  let output_shape := [B; N; T; H] in
  let softmax_stat_shape := [B; N; T] in
  let workspace_shape := [0] in
  let workspace_type := uint8 in
  backend_config <-
    create_dot_product_attention_backend_config
      B N T S_ (dtype query) scale seed dropout_rate
      mask_type layout sliding_window_length false ;;
  (* operands: Q, K, V, optional bias, optional q_seqlen and kv_seqlen *)
  (* results: output, optional activation, workspace *)
  let has_dropout := Qgtb0 dropout_rate in
  let '(has_bias, _) := variadic_args in
  let operands := [query; key; value] in
  let operands := if has_bias then operands ++ [bias] else operands in
  let operands :=
    if has_padding mask_type
    then (operands ++ [q_seqlen]) ++ [kv_seqlen] else operands in
  custom_call_name <- get_custom_call_name has_bias has_dropout false ;;
  (* create output types and layouts *)
  let '(result_types, result_layouts) :=
    if is_training
    then ([ mkTensorType output_shape (dtype query);
            mkTensorType softmax_stat_shape float32;
            mkTensorType workspace_shape workspace_type ],
          [output_layout] ++
            default_layouts [softmax_stat_shape; workspace_shape])
    else ([ mkTensorType output_shape (dtype query);
            mkTensorType workspace_shape workspace_type ],
          [output_layout] ++ default_layouts [workspace_shape]) in
  let out :=
    mkCustomCall custom_call_name result_types operands backend_config
      (default_layouts (map shape operands)) result_layouts in
  (* drop workspace memory *)
  if is_training
  then Ok (out, [Transpose (CallResult 0) output_transpose_perm; CallResult 1])
  else Ok (out, [Transpose (CallResult 0) output_transpose_perm]).

(** ** The wrapper primitive *)

(** Values of the keyword parameters of a bind. *)
Inductive pyval : Type :=
| PFloat (q : Q)
| PInt (z : Z)
| PBool (b : bool)
| PNone
| PBools (a b : bool)
| PMaskType (m : MaskType)
| PLayout (l : layout_arg).

Definition kwargs_t : Type := list (string * pyval).

Definition of_optional (o : option Z) : pyval :=
  match o with None => PNone | Some z => PInt z end.

(** A call of [primitive.bind] as it is written at a call site: positional
    arguments and keyword parameters. *)
Record Bind : Type := mkBind {
  primitive : string;
  args : list Array;
  kwargs : kwargs_t
}.

Fixpoint kwargs_get (kw : kwargs_t) (name : string) : option pyval :=
  match kw with
  | [] => None
  | (n, v) :: kw' => if String.eqb name n then Some v else kwargs_get kw' name
  end.

(** Calling a function whose keyword-only parameters are [names]: every
    name must be supplied, and nothing else. *)
Definition check_keywords (names : list string) (kw : kwargs_t) : result unit :=
  raise_if (negb (forallb (fun n => string_in n (map fst kw)) names))
    (TypeError "missing required keyword-only argument") ;;;
  raise_if (negb (forallb (fun n => string_in n names) (map fst kw)))
    (TypeError "got an unexpected keyword argument").

(** The keyword-only parameters of [_dot_product_attention_fwd_abstract]. *)
Definition fwd_keywords : list string :=
  [ "scale"; "seed"; "dropout_rate"; "variadic_args"; "mask_type"; "layout";
    "sliding_window_length"; "is_training" ].

(** [core.ShapedArray(shape, dtype)] *)
Record ShapedArray : Type := mkShapedArray {
  aval_shape : list Z;
  aval_dtype : DType
}.

Definition _dot_product_attention_fwd_abstract
    (query key value bias q_seqlen kv_seqlen : Array) (kw : kwargs_t)
    : result (list ShapedArray) :=
  check_keywords fwd_keywords kw ;;;
  (* [dtypes.canonicalize_dtype] leaves the 16-bit float types unchanged *)
  let query_dtype := dtype query in
  '(B, N, T, S_) <-
    (match kwargs_get kw "layout" with
     | Some (PLayout layout) =>
         if layout_arg_eqb layout (LInt (layout_value BNTH))
         then
           '(B, N, T, _) <- unpack4 (shape query) ;;
           '(_, _, S_, _) <- unpack4 (shape key) ;;
           Ok (B, N, T, S_)
         else
           '(B, T, N, _) <- unpack4 (shape query) ;;
           '(_, S_, _, _) <- unpack4 (shape key) ;;
           Ok (B, N, T, S_)
     | _ => Err (TypeError "layout")
     end) ;;
  let output_shape := shape query in
  let softmax_stat_shape := [B; N; T] in
  match kwargs_get kw "is_training" with
  | Some (PBool true) =>
      Ok [ mkShapedArray output_shape query_dtype;
           mkShapedArray softmax_stat_shape float32 ]
  | Some (PBool false) =>
      Ok [ mkShapedArray output_shape query_dtype ]
  | _ => Err (TypeError "is_training")
  end.

Definition fwd_wrapper_name : string := "dot_product_attention_fwd_wrapper".

(** Binding the wrapper primitive: the registered abstract evaluation rule
    is applied to the arguments and keyword parameters of the bind, and the
    outputs are fresh values of the resulting shapes. *)
Definition _dot_product_attention_fwd_p_wrapper_bind (b : Bind)
    : result (list Array) :=
  match args b with
  | [query; key; value; bias; q_seqlen; kv_seqlen] =>
      avals <- _dot_product_attention_fwd_abstract
                 query key value bias q_seqlen kv_seqlen (kwargs b) ;;
      Ok (map (fun ia : nat * ShapedArray =>
                 mkArray (aval_shape (snd ia)) (aval_dtype (snd ia))
                   (PrimOutput (primitive b) (fst ia)))
              (combine (seq 0 (List.length avals)) avals))
  | _ => Err (TypeError "wrong number of positional arguments")
  end.

(** ** Batching rule (forward) *)

(** A batch dimension: [None] (not batched) or an axis index. *)
Definition bdim : Type := option Z.

(** [dim not in [0, None]] *)
Definition valid_batch_dim (dim : bdim) : bool :=
  match dim with
  | None => true
  | Some d => d =? 0
  end.

Fixpoint _check_valid_batch_dims (bdims : list bdim) : result unit :=
  match bdims with
  | [] => Ok tt
  | dim :: rest =>
      raise_if (negb (valid_batch_dim dim))
        (NotImplementedError "Currently only support batch_dim in [0, None]") ;;;
      _check_valid_batch_dims rest
  end.

(** [l[i]] *)
Definition getitem {A : Type} (l : list A) (i : nat) : result A :=
  match nth_error l i with
  | Some x => Ok x
  | None => Err IndexError
  end.

(** [jnp.reshape(a, new_shape)]: the number of elements must not change. *)
Definition jnp_reshape (a : Array) (new_shape : list Z) : result Array :=
  if prod (shape a) =? prod new_shape
  then Ok (mkArray new_shape (dtype a) (Reshape (term a) new_shape))
  else Err (TypeError "cannot reshape array").

(** What the batcher has computed when it reaches its call of
    [_dot_product_attention_fwd_p_wrapper.bind]. *)
Record BatcherCallSite : Type := mkBatcherCallSite {
  site_bind : Bind;
  site_out_bdims : list bdim;
  site_original_shape : list Z;
  site_Bs : list Z;
  site_N : Z;
  site_T : Z
}.

(** [_dot_product_attention_fwd_batcher] up to and including the
    construction of the arguments of its bind. *)
Definition fwd_batcher_call_site
    (query key value bias q_seqlen kv_seqlen : Array) (batch_dims : list bdim)
    (scale : Q) (seed : Z) (dropout_rate : Q) (variadic_args : bool * bool)
    (mask_type : MaskType) (layout : layout_arg)
    (sliding_window_length : option Z) (is_training : bool)
    : result BatcherCallSite :=
  _check_valid_batch_dims batch_dims ;;;
  query_bdim <- getitem batch_dims 0 ;;
  let out_bdims :=
    if is_training then [query_bdim; query_bdim] else [query_bdim] in
  '(Bs, N, T, S_) <-
    (if layout_arg_eqb layout (LInt (layout_value BNTH))
     then
       '(Bs, N, T, _) <- unpack_star3 (shape query) ;;
       '(_, _, S_, _) <- unpack_star3 (shape key) ;;
       Ok (Bs, N, T, S_)
     else
       '(Bs, T, N, _) <- unpack_star3 (shape query) ;;
       '(_, S_, _, _) <- unpack_star3 (shape key) ;;
       Ok (Bs, N, T, S_)) ;;
  let B := prod Bs in
  let '(has_bias, _) := variadic_args in
  let original_shape := shape query in
  (* reshape to 4D shape *)
  query <- jnp_reshape query ([B] ++ last3 (shape query)) ;;
  key <- jnp_reshape key ([B] ++ last3 (shape key)) ;;
  value <- jnp_reshape value ([B] ++ last3 (shape key)) ;;
  bias_bdim <- (if has_bias then getitem batch_dims 3 else Ok None) ;;
  bias <- (if has_bias && (match bias_bdim with Some _ => true | None => false end)
           then jnp_reshape bias [B; N; T; S_] else Ok bias) ;;
  '(q_seqlen, kv_seqlen) <-
    (if has_padding mask_type
     then
       q_seqlen <- jnp_reshape q_seqlen [B] ;;
       kv_seqlen <- jnp_reshape kv_seqlen [B] ;;
       Ok (q_seqlen, kv_seqlen)
     else Ok (q_seqlen, kv_seqlen)) ;;
  Ok (mkBatcherCallSite
        (mkBind fwd_wrapper_name
           [query; key; value; bias; q_seqlen; kv_seqlen]
           [ ("scale", PFloat scale);
             ("seed", PInt seed);
             ("dropout_rate", PFloat dropout_rate);
             ("variadic_args", PBools (fst variadic_args) (snd variadic_args));
             ("mask_type", PMaskType mask_type);
             ("layout", PLayout layout);
             ("is_training", PBool is_training) ])
        out_bdims original_shape Bs N T).

Definition _dot_product_attention_fwd_batcher
    (query key value bias q_seqlen kv_seqlen : Array) (batch_dims : list bdim)
    (scale : Q) (seed : Z) (dropout_rate : Q) (variadic_args : bool * bool)
    (mask_type : MaskType) (layout : layout_arg)
    (sliding_window_length : option Z) (is_training : bool)
    : result (list Array * list bdim) :=
  site <- fwd_batcher_call_site query key value bias q_seqlen kv_seqlen
            batch_dims scale seed dropout_rate variadic_args mask_type layout
            sliding_window_length is_training ;;
  outputs <- _dot_product_attention_fwd_p_wrapper_bind (site_bind site) ;;
  (* reshape to original shape *)
  output <- getitem outputs 0 ;;
  output <- jnp_reshape output (site_original_shape site) ;;
  if is_training
  then
    activation <- getitem outputs 1 ;;
    activation <- jnp_reshape activation
                    (site_Bs site ++ [site_N site; site_T site]) ;;
    Ok ([output; activation], site_out_bdims site)
  else Ok ([output], site_out_bdims site).

(** ** Capability checks *)

(** What the module observes of its surroundings. *)
Record Env : Type := mkEnv {
  cuda_versions : option Z;       (* [None]: the extension is not installed;
                                     otherwise [cudnn_get_version()] *)
  platform_is_cuda : bool;        (* ['cuda' in platform_version] *)
  compute_capability : list Z;    (* of the first local GPU, split at dots *)
  under_vjp : bool                (* the call is being differentiated
                                     ([jax.vjp], [jax.grad]) *)
}.

Definition check_cudnn_version (env : Env) : result Z :=
  match cuda_versions env with
  | None => Err (RuntimeError "cuDNN is not detected.")
  | Some v => Ok v
  end.

(** Python's lexicographic [>=] on tuples of integers. *)
Fixpoint tuple_geb (a b : list Z) : bool :=
  match a, b with
  | _, [] => true
  | [], _ :: _ => false
  | x :: a', y :: b' =>
      if x <? y then false else if y <? x then true else tuple_geb a' b'
  end.

Definition check_compute_capability (env : Env) (capability : list Z) : bool :=
  if negb (platform_is_cuda env) then false
  else tuple_geb (compute_capability env) capability.

(** ** The user-facing operator *)

(** [_dot_product_attention_fwd]; the first component of the result records
    the bind that was dispatched. *)
Definition _dot_product_attention_fwd
    (query key value bias q_seqlen kv_seqlen : Array)
    (scale : Q) (seed : Z) (dropout_rate : Q) (variadic_args : bool * bool)
    (mask_type : MaskType) (layout : layout_arg)
    (sliding_window_length : option Z) (cudnn_version : Z)
    : result (Bind * Array) :=
  (* [bias is not None] holds for every array *)
  check_is_flash_attention query key layout cudnn_version true false ;;;
  let b :=
    mkBind fwd_wrapper_name
      [query; key; value; bias; q_seqlen; kv_seqlen]
      [ ("scale", PFloat scale);
        ("seed", PInt seed);
        ("dropout_rate", PFloat dropout_rate);
        ("variadic_args", PBools (fst variadic_args) (snd variadic_args));
        ("mask_type", PMaskType mask_type);
        ("layout", PLayout layout);
        ("sliding_window_length", of_optional sliding_window_length);
        ("is_training", PBool false) ] in
  outputs <- _dot_product_attention_fwd_p_wrapper_bind b ;;
  output <- getitem outputs 0 ;;
  Ok (b, output).

(** The residuals saved by the forward rule:
    [(query, key, value, bias, q_seqlen, kv_seqlen, activation, fwd_output)]. *)
Definition Residuals : Type :=
  (Array * Array * Array * Array * Array * Array * Array * Array)%type.

(** [_dot_product_attention_fwd_rule]; the first component of the result
    records the bind that was dispatched. *)
Definition _dot_product_attention_fwd_rule
    (query key value bias q_seqlen kv_seqlen : Array)
    (scale : Q) (seed : Z) (dropout_rate : Q) (variadic_args : bool * bool)
    (mask_type : MaskType) (layout : layout_arg)
    (sliding_window_length : option Z) (cudnn_version : Z)
    : result (Bind * (Array * Residuals)) :=
  (* [bias is not None] holds for every array *)
  check_is_flash_attention query key layout cudnn_version true true ;;;
  let b :=
    mkBind fwd_wrapper_name
      [query; key; value; bias; q_seqlen; kv_seqlen]
      [ ("scale", PFloat scale);
        ("seed", PInt seed);
        ("dropout_rate", PFloat dropout_rate);
        ("variadic_args", PBools (fst variadic_args) (snd variadic_args));
        ("mask_type", PMaskType mask_type);
        ("layout", PLayout layout);
        ("sliding_window_length", of_optional sliding_window_length);
        ("is_training", PBool true) ] in
  outputs <- _dot_product_attention_fwd_p_wrapper_bind b ;;
  activation <- getitem outputs 1 ;;
  fwd_output <- getitem outputs 0 ;;
  let res := (query, key, value, bias, q_seqlen, kv_seqlen,
              activation, fwd_output) in
  Ok (b, (fwd_output, res)).

(** [_dot_product_attention], decorated with [jax.custom_vjp] and given its
    rules by [defvjp]: a call that is being differentiated runs the forward
    rule and returns its primal output, the residuals staying with the
    transformation; any other call runs the body, which forwards to
    [_dot_product_attention_fwd]. *)
Definition _dot_product_attention (differentiated : bool)
    (query key value bias q_seqlen kv_seqlen : Array)
    (scale : Q) (seed : Z) (dropout_rate : Q) (variadic_args : bool * bool)
    (mask_type : MaskType) (layout : layout_arg)
    (sliding_window_length : option Z) (cudnn_version : Z)
    : result (Bind * Array) :=
  if differentiated
  then
    '(b, (output, _)) <-
      _dot_product_attention_fwd_rule query key value bias q_seqlen kv_seqlen
        scale seed dropout_rate variadic_args mask_type layout
        sliding_window_length cudnn_version ;;
    Ok (b, output)
  else
    _dot_product_attention_fwd query key value bias q_seqlen kv_seqlen
      scale seed dropout_rate variadic_args mask_type layout
      sliding_window_length cudnn_version.

(** Broadcasting of two shapes, aligned at their last axes. *)
Fixpoint broadcast_rev (a b : list Z) : result (list Z) :=
  match a, b with
  | [], _ => Ok b
  | _, [] => Ok a
  | x :: a', y :: b' =>
      r <- broadcast_rev a' b' ;;
      if x =? y then Ok (x :: r)
      else if x =? 1 then Ok (y :: r)
      else if y =? 1 then Ok (x :: r)
      else Err (TypeError "add got incompatible shapes for broadcasting")
  end.

Definition broadcast_shapes (a b : list Z) : result (list Z) :=
  r <- broadcast_rev (rev a) (rev b) ;;
  Ok (rev r).

(** Result dtype of a binary operation on arrays. *)
Definition promote_types (a b : DType) : DType :=
  if DType_eqb a b then a else
  match a, b with
  | bool_, x | x, bool_ => x
  | float64, _ | _, float64 => float64
  | float32, _ | _, float32 => float32
  | bfloat16, float16 | float16, bfloat16 => float32
  | bfloat16, _ | _, bfloat16 => bfloat16
  | float16, _ | _, float16 => float16
  | int64, _ | _, int64 => int64
  | _, _ => int32
  end.

(** [a + b] on arrays *)
Definition array_add (a b : Array) : result Array :=
  s <- broadcast_shapes (shape a) (shape b) ;;
  Ok (mkArray s (promote_types (dtype a) (dtype b)) (Add (term a) (term b))).

(** [a.reshape((1,) * (4 - len(a.shape)) + a.shape)] *)
Definition reshape_to_4D (a : Array) : Array :=
  let new_shape := repeat 1 (Z.to_nat (4 - rank a)) ++ shape a in
  mkArray new_shape (dtype a) (Reshape (term a) new_shape).

(** The treatment of [mask] in [dot_product_attention]: a boolean mask
    becomes [jnp.where(mask, 0, large_negative_number)] in the dtype of the
    query, and every mask is then reshaped to rank 4. *)
Definition fold_mask (query mask : Array) : result Array :=
  mask <-
    (if DType_eqb (dtype mask) bool_
     then
       large_negative_number <- get_large_negative_number (dtype query) ;;
       Ok (mkArray (shape mask) (dtype query)
             (Where (term mask) (Const (mkScalar 0 (dtype query)))
                (Const large_negative_number)))
     else Ok mask) ;;
  Ok (reshape_to_4D mask).

Section UserInterface.

(** [str.upper] *)
Variable upper : string -> string.

Definition dot_product_attention (env : Env)
    (query key value : Array) (bias mask q_seqlen kv_seqlen : option Array)
    (scale : Q) (mask_type : MaskType) (seed : Z) (dropout_rate : Q)
    (qkv_layout : string) (sliding_window_length : option Z)
    : result (Bind * Array) :=
  (* check if cuDNN is installed *)
  cudnn_version <- check_cudnn_version env ;;
  (* only support at least Ampere *)
  raise_if (negb (check_compute_capability env [8; 0]))
    (RuntimeError "Require at least Ampere arch to run") ;;;
  layout <- _normalize_layout upper qkv_layout ;;
  raise_if (has_padding mask_type &&
            (match q_seqlen with None => true | Some _ => false end ||
             match kv_seqlen with None => true | Some _ => false end))
    (ValueError "Require q_seqlen and kv_seqlen to generate padding mask") ;;;
  raise_if (match sliding_window_length with
            | Some n => n <=? 0
            | None => false
            end)
    (ValueError "Require sliding_window_length > 0") ;;;
  let bias := option_map reshape_to_4D bias in
  mask <- (match mask with
           | Some mask => m <- fold_mask query mask ;; Ok (Some m)
           | None => Ok None
           end) ;;
  (* combine bias and mask *)
  bias <- (match bias with
           | None => Ok mask
           | Some bias =>
               match mask with
               | Some mask => b <- array_add bias mask ;; Ok (Some b)
               | None => Ok (Some bias)
               end
           end) ;;
  (* check if input shape and data type is compatible *)
  check_layout query key value bias q_seqlen kv_seqlen (LEnum layout) ;;;
  has_dbias <- (match bias with
                | Some bias =>
                    should_export_dbias (shape bias) (shape query)
                      (LEnum layout)
                | None => Ok false
                end) ;;
  let has_bias := match bias with Some _ => true | None => false end in
  let variadic_args := (has_bias, has_dbias) in
  let placeholder := mkArray [0] (dtype query) (Zeros 0 (dtype query)) in
  let bias := match bias with Some b => b | None => placeholder end in
  let q_seqlen := match q_seqlen with Some a => a | None => placeholder end in
  let kv_seqlen := match kv_seqlen with Some a => a | None => placeholder end in
  _dot_product_attention (under_vjp env)
    query key value bias q_seqlen kv_seqlen
    scale seed dropout_rate variadic_args mask_type
    (LInt (layout_value layout)) sliding_window_length cudnn_version.

End UserInterface.

(** ** Sharding partitioner *)

(** One entry of a [PartitionSpec]: [None], a mesh axis name, or a tuple of
    mesh axis names. *)
Inductive PEntry : Type :=
| Unsharded
| AxisName (name : string)
| AxisNames (names : list string).

(** Python [==] on entries. *)
Definition PEntry_eqb (a b : PEntry) : bool :=
  match a, b with
  | Unsharded, Unsharded => true
  | AxisName x, AxisName y => String.eqb x y
  | AxisNames x, AxisNames y => list_eqb String.eqb x y
  | _, _ => false
  end.

(** [e is not None] *)
Definition is_not_None (e : PEntry) : bool :=
  match e with Unsharded => false | _ => true end.

(** Truth value of an entry, as used by [any]. *)
Definition truthy (e : PEntry) : bool :=
  match e with
  | Unsharded => false
  | AxisName s => negb (String.eqb s "")
  | AxisNames l => match l with [] => false | _ => true end
  end.

Definition spec_t : Type := list PEntry.

Definition spec_eqb : spec_t -> spec_t -> bool := list_eqb PEntry_eqb.

(** A device mesh: axis names with their sizes. *)
Definition Mesh : Type := list (string * Z).

(** [NamedSharding(mesh, PartitionSpec( *spec))] *)
Record NamedSharding : Type := mkNamedSharding {
  ns_mesh : Mesh;
  spec : spec_t
}.

Record ArgInfo : Type := mkArgInfo {
  sharding : option NamedSharding;
  ndim : nat
}.

Definition _get_padded_spec (arg_info : ArgInfo) : result spec_t :=
  match sharding arg_info with
  | None => Ok (repeat Unsharded (ndim arg_info))
  | Some sh =>
      raise_if (negb (List.length (spec sh) <=? ndim arg_info)%nat)
        AssertionError ;;;
      Ok (spec sh ++
          repeat Unsharded (ndim arg_info - List.length (spec sh))%nat)
  end.

Definition _check_qkv_bias_mask_spec
    (query_spec key_spec value_spec : spec_t) (bias_spec : option spec_t)
    : result unit :=
  (* check qkv spec *)
  raise_if (negb (spec_eqb query_spec key_spec && spec_eqb key_spec value_spec))
    (ValueError "Query, key and value should have same sharding.") ;;;
  '(batch_spec, q_seq_spec, num_head_spec, head_spec) <-
    unpack_star3 query_spec ;;
  raise_if (is_not_None q_seq_spec)
    (ValueError "Sharding on sequence dim is not allowed.") ;;;
  raise_if (is_not_None head_spec)
    (ValueError "Sharding on head dim is not allowed.") ;;;
  (* check bias spec *)
  match bias_spec with
  | Some (e :: es) =>
      '(bias_batch_spec, bias_num_head_spec, bias_q_seq_spec, bias_kv_seq_spec)
        <- unpack_star3 (e :: es) ;;
      raise_if
        ((existsb truthy bias_batch_spec &&
          negb (spec_eqb bias_batch_spec batch_spec)) ||
         (is_not_None bias_num_head_spec &&
          negb (PEntry_eqb bias_num_head_spec num_head_spec)))
        (ValueError
           "Query and bias should have same sharding on batch and num_head dim.") ;;;
      raise_if (is_not_None bias_q_seq_spec || is_not_None bias_kv_seq_spec)
        (ValueError "Sharding on bias sequence dim is not allowed.")
  | _ => Ok tt
  end.

(** The specs of query, key, value and bias as both inference functions
    compute them before checking. *)
Definition padded_operand_specs (arg_shapes : list ArgInfo) (has_bias : bool)
    : result (spec_t * spec_t * spec_t * option spec_t) :=
  a0 <- getitem arg_shapes 0 ;;
  query_spec <- _get_padded_spec a0 ;;
  a1 <- getitem arg_shapes 1 ;;
  key_spec <- _get_padded_spec a1 ;;
  a2 <- getitem arg_shapes 2 ;;
  value_spec <- _get_padded_spec a2 ;;
  bias_spec <- (if has_bias
                then a3 <- getitem arg_shapes 3 ;;
                     s <- _get_padded_spec a3 ;; Ok (Some s)
                else Ok None) ;;
  Ok (query_spec, key_spec, value_spec, bias_spec).

(** fwd custom partition *)
Definition _infer_fwd_output_sharding (mesh : Mesh) (arg_shapes : list ArgInfo)
    (variadic_args : bool * bool) (is_training : bool)
    : result (list NamedSharding) :=
  let '(has_bias, _) := variadic_args in
  '(query_spec, key_spec, value_spec, bias_spec) <-
    padded_operand_specs arg_shapes has_bias ;;
  _check_qkv_bias_mask_spec query_spec key_spec value_spec bias_spec ;;;
  (* keep out sharding same as query sharding since they have same shape *)
  let out_sharding := mkNamedSharding mesh query_spec in
  if is_training
  then
    (* activation sharding *)
    '(batch_spec, q_seq_spec, num_head_spec, _) <- unpack_star3 query_spec ;;
    let activation_sharding :=
      mkNamedSharding mesh
        (batch_spec ++ [num_head_spec; q_seq_spec; Unsharded]) in
    Ok [out_sharding; activation_sharding]
  else Ok [out_sharding].

(** bwd custom partition *)
Definition _infer_bwd_output_sharding (mesh : Mesh) (arg_shapes : list ArgInfo)
    (variadic_args : bool * bool) : result (list NamedSharding) :=
  let '(has_bias, has_dbias) := variadic_args in
  '(query_spec, key_spec, value_spec, bias_spec) <-
    padded_operand_specs arg_shapes has_bias ;;
  _check_qkv_bias_mask_spec query_spec key_spec value_spec bias_spec ;;;
  (* keep grad query sharding same as query sharding *)
  let grad_query_sharding := mkNamedSharding mesh query_spec in
  let grad_key_sharding := mkNamedSharding mesh key_spec in
  let grad_value_sharding := mkNamedSharding mesh key_spec in
  let out_shardings :=
    [grad_query_sharding; grad_key_sharding; grad_value_sharding] in
  if has_dbias
  then
    match bias_spec with
    | Some bias_spec =>
        let grad_bias_sharding := mkNamedSharding mesh bias_spec in
        Ok (out_shardings ++ [grad_bias_sharding])
    | None => Err (TypeError "argument after * must be an iterable, not NoneType")
    end
  else Ok out_shardings.

Section BwdPartition.

(** Operands and gradients of the backward primitive on one shard. *)
Variables Operand Grad : Type.

(** [_dot_product_attention_bwd_impl] with its keyword arguments other
    than [layout] fixed: the local computation on one shard. *)
Variable impl : layout_arg -> list Operand -> result (list Grad).

(** [jax.lax.psum(x, axis_name)]: the sum of [x] over the shards along
    the mesh axes [axis_name]; it raises when [axis_name] is not bound to
    mesh axes. *)
Variable psum : Grad -> PEntry -> result Grad.

(** The closure [sharded_impl] built by
    [_dot_product_attention_bwd_partition]. *)
Definition sharded_impl (variadic_args : bool * bool) (layout : layout_arg)
    (arg_shardings : list (option NamedSharding)) (args : list Operand)
    : result (list Grad) :=
  grads <- impl layout args ;;
  let '(_, has_dbias) := variadic_args in
  if has_dbias
  then
    sh <- getitem arg_shardings 0 ;;
    query_spec <- (match sh with
                   | Some sh => Ok (spec sh)
                   | None => Err AttributeError
                   end) ;;
    batch_spec <- getitem query_spec 0 ;;
    local_dbias <- getitem grads 3 ;;
    global_dbias <- psum local_dbias batch_spec ;;
    Ok (firstn 3 grads ++ [global_dbias])
  else Ok grads.

(** The rule receives [layout] and hands it to the local computation only:
    the shardings are inferred without it. *)
Definition _dot_product_attention_bwd_partition
    (variadic_args : bool * bool) (layout : layout_arg) (mesh : Mesh)
    (arg_shapes : list ArgInfo)
    : result (Mesh * (list Operand -> result (list Grad)) *
              list NamedSharding * list (option NamedSharding)) :=
  out_shardings <- _infer_bwd_output_sharding mesh arg_shapes variadic_args ;;
  (* args sharding *)
  let arg_shardings := map sharding arg_shapes in
  Ok (mesh, sharded_impl variadic_args layout arg_shardings, out_shardings,
      arg_shardings).

End BwdPartition.

(** The forward partition rule returns the unchanged implementation, so
    only its shardings are modelled; [layout] goes to the implementation
    only. *)
Definition _dot_product_attention_fwd_partition
    (variadic_args : bool * bool) (layout : layout_arg) (is_training : bool)
    (mesh : Mesh) (arg_shapes : list ArgInfo)
    : result (Mesh * list NamedSharding * list (option NamedSharding)) :=
  (* args sharding *)
  let arg_shardings := map sharding arg_shapes in
  out_shardings <-
    _infer_fwd_output_sharding mesh arg_shapes variadic_args is_training ;;
  Ok (mesh, out_shardings, arg_shardings).

(** Shapes of query-like tensors written out per layout: batch, head
    count, sequence length and head size. *)
Definition by_layout (l : AttentionLayout) (B N T H : Z) : list Z :=
  match l with
  | BTNH => [B; T; N; H]
  | BNTH => [B; N; T; H]
  end.

(** The extents of a query-like array, read per layout: batch size, head
    count, sequence length and head size. *)
Definition dim_B (a : Array) : Z := nth 0 (shape a) 0.
Definition dim_N (l : AttentionLayout) (a : Array) : Z :=
  nth (match l with BTNH => 2 | BNTH => 1 end) (shape a) 0.
Definition dim_T (l : AttentionLayout) (a : Array) : Z :=
  nth (match l with BTNH => 1 | BNTH => 2 end) (shape a) 0.
Definition dim_H (a : Array) : Z := nth 3 (shape a) 0.

(** A sequence-length vector accepted for batch size [B]. *)
Definition seqlen_ok (a : option Array) (B : Z) : Prop :=
  match a with
  | None => True
  | Some a => dtype a = int32 /\ shape a = [B]
  end.

(** A bias accepted for sequence lengths [T] and [S_]. *)
Definition bias_ok (bias : option Array) (T S_ : Z) : Prop :=
  match bias with
  | None => True
  | Some b => exists b0 b1, shape b = [b0; b1; T; S_]
  end.

(** A field of the [cudnn_fmha_backend_config] dictionary of a backend
    configuration. *)
Definition fmha_config_field (cfg : json) (k : string) : option json :=
  match cfg with
  | JDict d =>
      match dict_get d "cudnn_fmha_backend_config" with
      | Some (JDict c) => dict_get c k
      | _ => None
      end
  | _ => None
  end.

(** The keys of the [cudnn_fmha_backend_config] dictionary, in order. *)
Definition fmha_config_keys (cfg : json) : list string :=
  match cfg with
  | JDict d =>
      match dict_get d "cudnn_fmha_backend_config" with
      | Some (JDict c) => dict_keys c
      | _ => []
      end
  | _ => []
  end.

(** [j[k]] for a dictionary [j]. *)
Definition json_get (j : json) (k : string) : option json :=
  match j with
  | JDict d => dict_get d k
  | _ => None
  end.

(** The errors [check_layout] can raise when the layout is given as an
    enumeration member. *)
Definition check_layout_errors : list exn :=
  [ ValueError "Q must have a rank of 4";
    ValueError "QKV rank must be same";
    NotImplementedError "Q must be fp16 or bf16";
    ValueError "QKV dtype must be same";
    ValueError "QKV batch must be same";
    ValueError "QKV dim_per_head must be same";
    ValueError "KV must have same number of heads";
    ValueError "KV must have same seq length";
    ValueError "not enough values to unpack (expected 4)";
    ValueError "too many values to unpack (expected 4)";
    ValueError "Bias must have same seq length as QKV";
    ValueError "q_seqlen must have int32 datatype";
    ValueError "q_seqlen must have a rank of 1";
    ValueError "q_seqlen must have same batch as Q";
    ValueError "kv_seqlen must have int32 datatype";
    ValueError "kv_seq_rank must have a rank of 1";
    ValueError "kv_seqlen must have same batch as Q" ].

(** An entry that shards its axis: an axis name other than the empty
    string, or a tuple with at least one name. *)
Definition names_an_axis (e : PEntry) : Prop :=
  match e with
  | Unsharded => False
  | AxisName name => name <> ""
  | AxisNames names => names <> []
  end.

(** What the partitioner requires of the bias spec, given the batch and
    head entries of the query spec. *)
Definition bias_spec_ok (bias_spec : option spec_t) (batch_spec : spec_t)
    (num_head_spec : PEntry) : Prop :=
  match bias_spec with
  | None | Some [] => True
  | Some bs =>
      exists bias_batch_spec bias_num_head_spec,
        bs = bias_batch_spec ++ [bias_num_head_spec; Unsharded; Unsharded] /\
        ((exists e, In e bias_batch_spec /\ names_an_axis e) ->
         bias_batch_spec = batch_spec) /\
        (bias_num_head_spec = Unsharded \/ bias_num_head_spec = num_head_spec)
  end.

(** Specs of query-like tensors written out per layout: the entries of the
    batch axes, of the head-count axis, of the sequence axis and of the
    head-size axis. *)
Definition spec_by_layout (l : AttentionLayout) (batch : spec_t)
    (N T H : PEntry) : spec_t :=
  match l with
  | BTNH => batch ++ [T; N; H]
  | BNTH => batch ++ [N; T; H]
  end.

(** The spec of an operand, padded with unsharded entries up to its rank. *)
Definition padded (a : ArgInfo) : spec_t :=
  match sharding a with
  | None => repeat Unsharded (ndim a)
  | Some sh => spec sh ++ repeat Unsharded (ndim a - List.length (spec sh))%nat
  end.

(** Whether a mesh has an axis of the given name. *)
Definition axis_bound (mesh : Mesh) (name : string) : bool :=
  existsb (fun ax : string * Z => String.eqb (fst ax) name) mesh.

(** A global view of a value held by every shard along the axes of a mesh:
    one integer per shard.  Under this view [jax.lax.psum] replaces every
    entry by the sum of all entries, and raises when the axis name is [None]
    or names no axis of the mesh. *)
Definition psum_all_shards (mesh : Mesh) (local : list Z) (axis_name : PEntry)
    : result (list Z) :=
  let total := map (fun _ => fold_right Z.add 0 local) local in
  match axis_name with
  | Unsharded => Err (NameError "unbound axis name")
  | AxisName name =>
      if axis_bound mesh name then Ok total
      else Err (NameError "unbound axis name")
  | AxisNames names =>
      if forallb (axis_bound mesh) names then Ok total
      else Err (NameError "unbound axis name")
  end.

(** A spec sharded on batch and heads, as in data plus tensor parallelism. *)
Definition sample_spec : spec_t :=
  [AxisName "dp"; Unsharded; AxisName "tp"; Unsharded].

(** Sample operands used by the concrete runs below. *)
Definition sample_env : Env := mkEnv (Some 8904) true [8; 0] false.

Definition sample_query (dt : DType) : Array :=
  mkArray [4; 16; 8; 64] dt (Input "query").

Definition sample_key (dt : DType) : Array :=
  mkArray [4; 32; 8; 64] dt (Input "key").

Definition sample_value (dt : DType) : Array :=
  mkArray [4; 32; 8; 64] dt (Input "value").

(** The keyword parameters written in the bind of the forward batcher. *)
Definition batcher_keywords : list string :=
  [ "scale"; "seed"; "dropout_rate"; "variadic_args"; "mask_type"; "layout";
    "is_training" ].

(** Operands with two leading batch axes, and the empty placeholder the
    operator passes for absent operands. *)
Definition batched_query : Array :=
  mkArray [3; 2; 16; 8; 64] float16 (Input "query").

Definition batched_key : Array :=
  mkArray [3; 2; 32; 8; 64] float16 (Input "key").

Definition batched_value : Array :=
  mkArray [3; 2; 32; 8; 64] float16 (Input "value").

Definition placeholder : Array := mkArray [0] float16 (Zeros 0 float16).

(** ** Differentiation rule (backward) *)

(** The keyword-only parameters of [_dot_product_attention_bwd_abstract]. *)
Definition bwd_keywords : list string :=
  [ "scale"; "seed"; "dropout_rate"; "variadic_args"; "mask_type"; "layout";
    "sliding_window_length" ].

Definition _dot_product_attention_bwd_abstract
    (query key value bias q_seqlen kv_seqlen activation fwd_output
       grad_output : Array) (kw : kwargs_t) : result (list ShapedArray) :=
  check_keywords bwd_keywords kw ;;;
  (* [dtypes.canonicalize_dtype] leaves the 16-bit float types unchanged *)
  let query_dtype := dtype query in
  let key_dtype := dtype key in
  let value_dtype := dtype value in
  match kwargs_get kw "variadic_args" with
  | Some (PBools _ has_dbias) =>
      if has_dbias
      then
        (* cuDNN supports bias for this case *)
        let bias_dtype := dtype bias in
        Ok [ mkShapedArray (shape query) query_dtype;    (* grad query *)
             mkShapedArray (shape key) key_dtype;        (* grad key *)
             mkShapedArray (shape value) value_dtype;    (* grad value *)
             mkShapedArray (shape bias) bias_dtype ]     (* grad bias *)
      else
        Ok [ mkShapedArray (shape query) query_dtype;    (* grad query *)
             mkShapedArray (shape key) key_dtype;        (* grad key *)
             mkShapedArray (shape value) value_dtype ]   (* grad value *)
  | _ => Err (TypeError "variadic_args")
  end.

Definition bwd_wrapper_name : string := "dot_product_attention_bwd_wrapper".

(** Binding the backward wrapper primitive, as for the forward one. *)
Definition _dot_product_attention_bwd_p_wrapper_bind (b : Bind)
    : result (list Array) :=
  match args b with
  | [query; key; value; bias; q_seqlen; kv_seqlen; activation; fwd_output;
     grad_output] =>
      avals <- _dot_product_attention_bwd_abstract
                 query key value bias q_seqlen kv_seqlen activation
                 fwd_output grad_output (kwargs b) ;;
      Ok (map (fun ia : nat * ShapedArray =>
                 mkArray (aval_shape (snd ia)) (aval_dtype (snd ia))
                   (PrimOutput (primitive b) (fst ia)))
              (combine (seq 0 (List.length avals)) avals))
  | _ => Err (TypeError "wrong number of positional arguments")
  end.

(** [_dot_product_attention_bwd_rule]; [None] stands for the absence of a
    gradient.  The parameter [is_training] is the eighth non-differentiable
    argument (it receives [cudnn_version]) and is not used.  The first
    component of the result records the bind that was dispatched. *)
Definition _dot_product_attention_bwd_rule
    (scale : Q) (seed : Z) (dropout_rate : Q) (variadic_args : bool * bool)
    (mask_type : MaskType) (layout : layout_arg)
    (sliding_window_length : option Z) (is_training : Z) (res : Residuals)
    (grad_output : Array) : result (Bind * list (option Array)) :=
  let '(query, key, value, bias, q_seqlen, kv_seqlen, activation,
        fwd_output) := res in
  let b :=
    mkBind bwd_wrapper_name
      [query; key; value; bias; q_seqlen; kv_seqlen; activation; fwd_output;
       grad_output]
      [ ("scale", PFloat scale);
        ("seed", PInt seed);
        ("dropout_rate", PFloat dropout_rate);
        ("variadic_args", PBools (fst variadic_args) (snd variadic_args));
        ("mask_type", PMaskType mask_type);
        ("layout", PLayout layout);
        ("sliding_window_length", of_optional sliding_window_length) ] in
  grads <- _dot_product_attention_bwd_p_wrapper_bind b ;;
  let grads :=
    map Some grads ++ repeat None (6 - List.length grads)%nat in
  Ok (b, grads).

(** ** Backward custom-call emitter *)

Definition _dot_product_attention_bwd_cuda_lowering
    (query key value bias q_seqlen kv_seqlen activation fwd_output
       grad_output : Array)
    (scale : Q) (seed : Z) (dropout_rate : Q) (variadic_args : bool * bool)
    (mask_type : MaskType) (layout : layout_arg)
    (sliding_window_length : option Z)
    : result (CustomCall * list LoweredValue) :=
  let query_shape := shape query in
  let key_shape := shape key in
  '(B, q_N, T, H, (k_N, S_), grad_layout, grad_transpose_perm) <-
    (if layout_arg_eqb layout (LInt (layout_value BNTH))
     then
       '(B, q_N, T, H) <- unpack4 query_shape ;;
       '(_, k_N, S_, _) <- unpack4 key_shape ;;
       Ok (B, q_N, T, H, (k_N, S_), [3; 2; 1; 0], [0; 1; 2; 3])
     else
       '(B, T, q_N, H) <- unpack4 query_shape ;;
       '(_, S_, k_N, _) <- unpack4 key_shape ;;
       Ok (B, q_N, T, H, (k_N, S_), [3; 1; 2; 0], [0; 2; 1; 3])) ;;
  let workspace_shape := [0] in
  let workspace_type := uint8 in
  let grad_query_shape := [B; q_N; T; H] in
  let grad_key_shape := [B; k_N; S_; H] in
  let grad_value_shape := [B; k_N; S_; H] in
  backend_config <-
    create_dot_product_attention_backend_config
      B q_N T S_ (dtype query) scale seed dropout_rate
      mask_type layout sliding_window_length true ;;
  (* operands: Q, K, V, activation, dO, optional bias, O, optional q_seqlen
     and kv_seqlen; results: dQ, dK, dV, optional dbias, workspace *)
  let has_dropout := Qgtb0 dropout_rate in
  let '(has_bias, has_dbias) := variadic_args in
  (* create operands *)
  let operands := [query; key; value; activation; grad_output] in
  (* flash attention requires bias in the bwd for remat *)
  let operands := if has_bias then operands ++ [bias] else operands in
  let operands := operands ++ [fwd_output] in
  let operands :=
    if has_padding mask_type
    then (operands ++ [q_seqlen]) ++ [kv_seqlen] else operands in
  (* get custom call name *)
  custom_call_name <- get_custom_call_name has_bias has_dropout true ;;
  (* create output types and layouts: grad_query, grad_key, grad_value *)
  let result_types :=
    [ mkTensorType grad_query_shape (dtype query);
      mkTensorType grad_key_shape (dtype key);
      mkTensorType grad_value_shape (dtype value) ] in
  let result_layouts := [grad_layout; grad_layout; grad_layout] in
  let bias_shape := shape bias in
  let '(result_types, result_layouts) :=
    if has_dbias
    then
      (* cuDNN supports bias for this case *)
      (result_types ++ [mkTensorType bias_shape (dtype bias)],
       result_layouts ++ default_layouts [bias_shape])
    else (result_types, result_layouts) in
  (* workspace *)
  let result_types :=
    result_types ++ [mkTensorType workspace_shape workspace_type] in
  let result_layouts := result_layouts ++ default_layouts [workspace_shape] in
  let out :=
    mkCustomCall custom_call_name result_types operands backend_config
      (default_layouts (map shape operands)) result_layouts in
  let dqkv :=
    [ Transpose (CallResult 0) grad_transpose_perm;
      Transpose (CallResult 1) grad_transpose_perm;
      Transpose (CallResult 2) grad_transpose_perm ] in
  (* Only keep dQ, dK, dV and dBias here *)
  if has_dbias
  then Ok (out, dqkv ++ [CallResult 3])
  else Ok (out, dqkv).

(** The type of a value returned by a lowering rule, given the result types
    declared by the call: [hlo.transpose] permutes the shape. *)
Fixpoint lowered_type (call : CustomCall) (v : LoweredValue)
    : option TensorType :=
  match v with
  | CallResult i => nth_error (result_types call) i
  | Transpose v' perm =>
      match lowered_type call v' with
      | Some t =>
          Some (mkTensorType (transpose_shape perm (tt_shape t))
                  (tt_element_type t))
      | None => None
      end
  end.

(** The tensor type of an abstract value. *)
Definition aval_type (a : ShapedArray) : TensorType :=
  mkTensorType (aval_shape a) (aval_dtype a).

(** ** Batching rule (backward) *)

(** What the backward batcher has computed when it reaches its call of
    [_dot_product_attention_bwd_p_wrapper.bind]. *)
Record BwdBatcherCallSite : Type := mkBwdBatcherCallSite {
  bsite_bind : Bind;
  bsite_out_bdims : list bdim;
  bsite_original_query_shape : list Z;
  bsite_original_key_shape : list Z;
  bsite_original_value_shape : list Z;
  bsite_original_bias_shape : option (list Z)
}.

(** [_dot_product_attention_bwd_batcher] up to and including the
    construction of the arguments of its bind. *)
Definition bwd_batcher_call_site
    (query key value bias q_seqlen kv_seqlen activation fwd_output
       grad_output : Array) (batch_dims : list bdim)
    (scale : Q) (seed : Z) (dropout_rate : Q) (variadic_args : bool * bool)
    (mask_type : MaskType) (layout : layout_arg)
    (sliding_window_length : option Z) : result BwdBatcherCallSite :=
  _check_valid_batch_dims batch_dims ;;;
  query_bdim <- getitem batch_dims 0 ;;
  let out_bdims := [query_bdim; query_bdim; query_bdim] in
  '(Bs, N, T, S_) <-
    (if layout_arg_eqb layout (LInt (layout_value BNTH))
     then
       '(Bs, N, T, _) <- unpack_star3 (shape query) ;;
       '(_, _, S_, _) <- unpack_star3 (shape key) ;;
       Ok (Bs, N, T, S_)
     else
       '(Bs, T, N, _) <- unpack_star3 (shape query) ;;
       '(_, S_, _, _) <- unpack_star3 (shape key) ;;
       Ok (Bs, N, T, S_)) ;;
  let B := prod Bs in
  let '(has_bias, has_dbias) := variadic_args in
  let original_query_shape := shape query in
  let original_key_shape := shape key in
  let original_value_shape := shape value in
  let original_bias_shape := if has_bias then Some (shape bias) else None in
  (* reshape to 4D shape *)
  query <- jnp_reshape query ([B] ++ last3 (shape query)) ;;
  key <- jnp_reshape key ([B] ++ last3 (shape key)) ;;
  value <- jnp_reshape value ([B] ++ last3 (shape key)) ;;
  bias_bdim <- (if has_bias then getitem batch_dims 3 else Ok None) ;;
  bias <- (if has_bias && (match bias_bdim with Some _ => true | None => false end)
           then jnp_reshape bias [B; N; T; S_] else Ok bias) ;;
  '(q_seqlen, kv_seqlen) <-
    (if has_padding mask_type
     then
       q_seqlen <- jnp_reshape q_seqlen [B] ;;
       kv_seqlen <- jnp_reshape kv_seqlen [B] ;;
       Ok (q_seqlen, kv_seqlen)
     else Ok (q_seqlen, kv_seqlen)) ;;
  activation <- jnp_reshape activation [B; N; T] ;;
  fwd_output <- jnp_reshape fwd_output ([B] ++ last3 (shape query)) ;;
  grad_output <- jnp_reshape grad_output ([B] ++ last3 (shape query)) ;;
  Ok (mkBwdBatcherCallSite
        (mkBind bwd_wrapper_name
           [query; key; value; bias; q_seqlen; kv_seqlen; activation;
            fwd_output; grad_output]
           [ ("scale", PFloat scale);
             ("seed", PInt seed);
             ("dropout_rate", PFloat dropout_rate);
             ("variadic_args", PBools (fst variadic_args) (snd variadic_args));
             ("mask_type", PMaskType mask_type);
             ("layout", PLayout layout) ])
        out_bdims original_query_shape original_key_shape
        original_value_shape original_bias_shape).

Definition _dot_product_attention_bwd_batcher
    (query key value bias q_seqlen kv_seqlen activation fwd_output
       grad_output : Array) (batch_dims : list bdim)
    (scale : Q) (seed : Z) (dropout_rate : Q) (variadic_args : bool * bool)
    (mask_type : MaskType) (layout : layout_arg)
    (sliding_window_length : option Z)
    : result (list Array * list bdim) :=
  site <- bwd_batcher_call_site query key value bias q_seqlen kv_seqlen
            activation fwd_output grad_output batch_dims scale seed
            dropout_rate variadic_args mask_type layout
            sliding_window_length ;;
  grads <- _dot_product_attention_bwd_p_wrapper_bind (bsite_bind site) ;;
  (* reshape to original shape *)
  g0 <- getitem grads 0 ;;
  g0 <- jnp_reshape g0 (bsite_original_query_shape site) ;;
  g1 <- getitem grads 1 ;;
  g1 <- jnp_reshape g1 (bsite_original_key_shape site) ;;
  g2 <- getitem grads 2 ;;
  g2 <- jnp_reshape g2 (bsite_original_value_shape site) ;;
  let '(has_bias, has_dbias) := variadic_args in
  if has_dbias
  then
    raise_if (negb has_bias) AssertionError ;;;
    g3 <- getitem grads 3 ;;
    original_bias_shape <-
      (match bsite_original_bias_shape site with
       | Some s => Ok s
       | None => Err (TypeError "reshape to None")
       end) ;;
    g3 <- jnp_reshape g3 original_bias_shape ;;
    bias_bdim <- getitem batch_dims 3 ;;
    Ok ([g0; g1; g2; g3] ++ skipn 4 grads,
        bsite_out_bdims site ++ [bias_bdim])
  else Ok ([g0; g1; g2] ++ skipn 3 grads, bsite_out_bdims site).

(** * Properties *)

(** ** Reasoning about the error monad *)

Lemma bind_Ok_inv {A B : Type} (m : result A) (k : A -> result B) (b : B) :
  bind m k = Ok b -> exists a, m = Ok a /\ k a = Ok b.
Proof.
  destruct m as [a | e]; simpl; intros E.
  - exists a. split; [reflexivity | exact E].
  - discriminate E.
Qed.

Lemma bind_Ok_eq {A B : Type} (a : A) (k : A -> result B) :
  bind (Ok a) k = k a.
Proof. reflexivity. Qed.

Lemma bind_assoc {A B C : Type} (m : result A) (f : A -> result B)
    (k : B -> result C) :
  bind (bind m f) k = bind m (fun x => bind (f x) k).
Proof. destruct m; reflexivity. Qed.

(** Run the binds whose first computation has already returned. *)
Ltac run_binds := rewrite ?bind_Ok_eq; cbv beta.

Lemma raise_if_Ok (c : bool) (e : exn) (u : unit) :
  raise_if c e = Ok u -> c = false.
Proof. destruct c; simpl; [discriminate | reflexivity]. Qed.

Lemma raise_if_false (e : exn) : raise_if false e = Ok tt.
Proof. reflexivity. Qed.

Lemma is_ok_true {A : Type} (r : result A) :
  is_ok r = true <-> exists a, r = Ok a.
Proof.
  destruct r as [a | e]; simpl; split; intros H.
  - exists a; reflexivity.
  - reflexivity.
  - discriminate H.
  - destruct H as [a H]; discriminate H.
Qed.

(** Peel one bind off a hypothesis [H : bind m k = Ok _], naming the
    intermediate value and the equation of the first computation. *)
Tactic Notation "inv_bind" hyp(H) "as" ident(a) ident(E) :=
  apply bind_Ok_inv in H; destruct H as [a [E H]]; cbv beta in H.

(** The same for a check that returns nothing. *)
Tactic Notation "inv_check" hyp(H) "as" ident(E) :=
  apply bind_Ok_inv in H; destruct H as [[] [E H]]; cbv beta in H.

(** The same for a guard [raise_if c e], naming the fact [c = false]. *)
Tactic Notation "inv_raise" hyp(H) "as" ident(G) :=
  let u := fresh "u" in
  apply bind_Ok_inv in H; destruct H as [u [G H]]; cbv beta in H;
  apply raise_if_Ok in G; clear u.

Lemma unpack4_Ok {A : Type} (l : list A) (a b c d : A) :
  unpack4 l = Ok (a, b, c, d) <-> l = [a; b; c; d].
Proof.
  split.
  - destruct l as [| x1 [| x2 [| x3 [| x4 [| x5 l]]]]]; simpl; intros E;
      try discriminate E.
    injection E as -> -> -> ->. reflexivity.
  - intros ->. reflexivity.
Qed.

Lemma unpack_star3_Ok {A : Type} (l front : list A) (a b c : A) :
  unpack_star3 l = Ok (front, a, b, c) <-> l = front ++ [a; b; c].
Proof.
  unfold unpack_star3. split.
  - intros E.
    destruct (rev l) as [| z [| y [| x r]]] eqn:R; try discriminate E.
    injection E as <- <- <- <-.
    rewrite <- (rev_involutive l), R. simpl.
    rewrite <- !app_assoc. reflexivity.
  - intros ->. rewrite rev_app_distr. simpl. rewrite rev_involutive.
    reflexivity.
Qed.

Lemma DType_eqb_eq (a b : DType) : DType_eqb a b = true <-> a = b.
Proof. destruct a, b; simpl; split; intros E; try reflexivity; discriminate E. Qed.

Lemma AttentionLayout_eqb_eq (a b : AttentionLayout) :
  AttentionLayout_eqb a b = true <-> a = b.
Proof. destruct a, b; simpl; split; intros E; try reflexivity; discriminate E. Qed.

(** ** Layout normalization *)

Example normalize_layout_lower_bsnh :
  _normalize_layout ascii_upper "bsnh" = Ok BTNH.
Proof. reflexivity. Qed.

Example normalize_layout_mixed_bnsh :
  _normalize_layout ascii_upper "BnSh" = Ok BNTH.
Proof. reflexivity. Qed.

Example normalize_layout_rejects_bhnt :
  _normalize_layout ascii_upper "BHNT" = Err (ValueError "Unsupported qkv_layout").
Proof. reflexivity. Qed.

(** C10. Layout-string normalization only looks at the uppercased string:
    it returns [BTNH] exactly when the uppercased string is BTNH or BSNH,
    [BNTH] exactly when it is BNTH or BNSH, and raises a [ValueError]
    exactly when it is none of the four. *)
Theorem normalize_layout_spec (upper : string -> string) (s : string) :
  (_normalize_layout upper s = Ok BTNH <->
     upper s = "BTNH" \/ upper s = "BSNH") /\
  (_normalize_layout upper s = Ok BNTH <->
     upper s = "BNTH" \/ upper s = "BNSH") /\
  (_normalize_layout upper s = Err (ValueError "Unsupported qkv_layout") <->
     ~ In (upper s) ["BSNH"; "BNSH"; "BTNH"; "BNTH"]) /\
  (is_ok (_normalize_layout upper s) = true <->
     In (upper s) ["BSNH"; "BNSH"; "BTNH"; "BNTH"]).
Proof.
  unfold _normalize_layout, string_in. simpl existsb.
  destruct (String.eqb_spec (upper s) "BSNH") as [-> | N1].
  { simpl. repeat split; intros; try discriminate; try tauto;
      try (exfalso; intuition discriminate). }
  destruct (String.eqb_spec (upper s) "BNSH") as [-> | N2].
  { simpl. repeat split; intros; try discriminate; try tauto;
      try (exfalso; intuition discriminate). }
  destruct (String.eqb_spec (upper s) "BTNH") as [-> | N3].
  { simpl. repeat split; intros; try discriminate; try tauto;
      try (exfalso; intuition discriminate). }
  destruct (String.eqb_spec (upper s) "BNTH") as [-> | N4].
  { simpl. repeat split; intros; try discriminate; try tauto;
      try (exfalso; intuition discriminate). }
  simpl. repeat split; intros; try discriminate; try tauto;
    try (exfalso; intuition congruence); intuition congruence.
Qed.

(** ** Mask folding *)

Lemma large_negative_number_values :
  get_large_negative_number float16 = Ok (mkScalar (- 2 ^ 15) float16) /\
  get_large_negative_number bfloat16 = Ok (mkScalar (- 2 ^ 41) bfloat16).
Proof. split; reflexivity. Qed.

Lemma large_negative_number_exact :
  exactly_representable float16 (- 2 ^ 15) = true /\
  exactly_representable bfloat16 (- 2 ^ 41) = true.
Proof. split; vm_compute; reflexivity. Qed.

Lemma jnp_where_nth (data : list bool) (x y : Scalar) (i : nat) :
  (i < List.length data)%nat ->
  nth i (jnp_where data x y) x = if nth i data true then x else y.
Proof.
  unfold jnp_where. revert i.
  induction data as [| d data IH]; intros [| i] Hi; simpl in *; try lia.
  - reflexivity.
  - apply IH. lia.
Qed.

(** Both paths through the [custom_vjp] function make the same bind, up to
    the training flag, which is set exactly on the differentiated path. *)
Lemma custom_vjp_Ok_inv differentiated query key value bias q_seqlen kv_seqlen
    scale seed dropout_rate variadic_args mask_type layout
    sliding_window_length cudnn_version b out :
  _dot_product_attention differentiated query key value bias q_seqlen
    kv_seqlen scale seed dropout_rate variadic_args mask_type layout
    sliding_window_length cudnn_version = Ok (b, out) ->
  check_is_flash_attention query key layout cudnn_version true differentiated
    = Ok tt /\
  b = mkBind fwd_wrapper_name
        [query; key; value; bias; q_seqlen; kv_seqlen]
        [ ("scale", PFloat scale);
          ("seed", PInt seed);
          ("dropout_rate", PFloat dropout_rate);
          ("variadic_args", PBools (fst variadic_args) (snd variadic_args));
          ("mask_type", PMaskType mask_type);
          ("layout", PLayout layout);
          ("sliding_window_length", of_optional sliding_window_length);
          ("is_training", PBool differentiated) ] /\
  exists outputs,
    _dot_product_attention_fwd_p_wrapper_bind b = Ok outputs /\
    getitem outputs 0 = Ok out.
Proof.
  unfold _dot_product_attention. destruct differentiated; intros H.
  - apply bind_Ok_inv in H. destruct H as [[b' [out' res]] [E H]].
    injection H as <- <-.
    unfold _dot_product_attention_fwd_rule in E.
    inv_check E as Gflash. inv_bind E as outputs Eo.
    inv_bind E as activation Ea. inv_bind E as output Eout.
    injection E as <- <- _.
    split; [exact Gflash |]. split; [reflexivity |].
    exists outputs. split; assumption.
  - unfold _dot_product_attention_fwd in H.
    inv_check H as Gflash. inv_bind H as outputs Eo.
    inv_bind H as output Eout. injection H as <- <-.
    split; [exact Gflash |]. split; [reflexivity |].
    exists outputs. split; assumption.
Qed.

(** The bias operand that reaches the dispatch is the fourth positional
    argument of the bind. *)
Lemma dispatched_operands upper env query key value bias mask q_seqlen
    kv_seqlen scale mask_type seed dropout_rate qkv_layout
    sliding_window_length b out :
  dot_product_attention upper env query key value bias mask q_seqlen
    kv_seqlen scale mask_type seed dropout_rate qkv_layout
    sliding_window_length = Ok (b, out) ->
  exists (folded : option Array) (combined : option Array)
         (layout : AttentionLayout) (has_dbias : bool),
    _normalize_layout upper qkv_layout = Ok layout /\
    match mask with
    | Some m => exists f, fold_mask query m = Ok f /\ folded = Some f
    | None => folded = None
    end /\
    match option_map reshape_to_4D bias, folded with
    | None, _ => combined = folded
    | Some bb, Some f => exists s, array_add bb f = Ok s /\ combined = Some s
    | Some bb, None => combined = Some bb
    end /\
    check_layout query key value combined q_seqlen kv_seqlen (LEnum layout)
      = Ok tt /\
    match combined with
    | Some c =>
        should_export_dbias (shape c) (shape query) (LEnum layout)
          = Ok has_dbias /\
        nth_error (args b) 3 = Some c
    | None => has_dbias = false
    end /\
    kwargs_get (kwargs b) "variadic_args" =
      Some (PBools (match combined with Some _ => true | None => false end)
              has_dbias) /\
    kwargs_get (kwargs b) "sliding_window_length" =
      Some (of_optional sliding_window_length) /\
    match sliding_window_length with
    | Some n => 0 < n
    | None => True
    end.
Proof.
  unfold dot_product_attention. intros H.
  inv_bind H as cudnn_version Ev. inv_raise H as Gcap.
  inv_bind H as layout El.
  inv_raise H as Gpad. inv_raise H as Gwin.
  inv_bind H as folded Ef. inv_bind H as combined Ec.
  inv_check H as Echk.
  inv_bind H as has_dbias Ed.
  apply custom_vjp_Ok_inv in H. destruct H as (Gflash & -> & outputs & Eo & Eout).
  exists folded, combined, layout, has_dbias.
  split; [assumption |].
  split.
  { destruct mask as [m |].
    - inv_bind Ef as f Ef'. injection Ef as <-. eauto.
    - injection Ef as <-. reflexivity. }
  split.
  { destruct (option_map reshape_to_4D bias) as [bb |].
    - destruct folded as [f |].
      + inv_bind Ec as s Es. injection Ec as <-. eauto.
      + injection Ec as <-. reflexivity.
    - injection Ec as <-. reflexivity. }
  split; [assumption |].
  split.
  { destruct combined as [c |].
    - split; [assumption | reflexivity].
    - injection Ed as <-. reflexivity. }
  split; [reflexivity |].
  split; [reflexivity |].
  destruct sliding_window_length as [n |]; [| exact I].
  apply Z.leb_gt in Gwin. exact Gwin.
Qed.

(** C1 (amended). A boolean mask is replaced, in the dtype of the query, by
    [jnp.where(mask, 0, c)] with [c = -2 << 14 = -2^15] for float16 and
    [c = -2 << 40 = -2^41] for bfloat16 (both exactly representable), so
    that unmasked positions hold 0 and masked positions hold [c]; any other
    query dtype is rejected.  The substitution happens before the fusion
    with the bias: the bias operand that is dispatched is the folded mask
    itself, or the sum of the bias and the folded mask. *)
Theorem mask_fold_large_negative (query mask : Array) :
  dtype mask = bool_ ->
  let new_shape := repeat 1 (Z.to_nat (4 - rank mask)) ++ shape mask in
  let folded (c : Z) :=
    mkArray new_shape (dtype query)
      (Reshape (Where (term mask) (Const (mkScalar 0 (dtype query)))
                  (Const (mkScalar c (dtype query)))) new_shape) in
  fold_mask query mask =
    match dtype query with
    | float16 => Ok (folded (- 2 ^ 15))
    | bfloat16 => Ok (folded (- 2 ^ 41))
    | _ => Err (ValueError "Unsupported dtype for inputs.")
    end /\
  exactly_representable float16 (- 2 ^ 15) = true /\
  exactly_representable bfloat16 (- 2 ^ 41) = true /\
  (forall (data : list bool) (x y : Scalar) (i : nat),
     (i < List.length data)%nat ->
     nth i (jnp_where data x y) x = if nth i data true then x else y) /\
  (forall upper env key value bias q_seqlen kv_seqlen scale mask_type seed
          dropout_rate qkv_layout sliding_window_length b out,
     dot_product_attention upper env query key value bias (Some mask)
       q_seqlen kv_seqlen scale mask_type seed dropout_rate qkv_layout
       sliding_window_length = Ok (b, out) ->
     exists f, fold_mask query mask = Ok f /\
       match bias with
       | None => nth_error (args b) 3 = Some f
       | Some bias =>
           exists s, array_add (reshape_to_4D bias) f = Ok s /\
                     term s = Add (Reshape (term bias) (shape (reshape_to_4D bias)))
                                  (term f) /\
                     nth_error (args b) 3 = Some s
       end).
Proof.
  intros Hm new_shape folded.
  split.
  { unfold fold_mask. rewrite Hm. simpl DType_eqb. cbv iota.
    destruct query as [qs qd qt]. simpl dtype. subst folded new_shape.
    destruct qd; reflexivity. }
  split; [apply large_negative_number_exact |].
  split; [apply large_negative_number_exact |].
  split; [apply jnp_where_nth |].
  intros upper env key value bias q_seqlen kv_seqlen scale mask_type seed
    dropout_rate qkv_layout swl b out H.
  apply dispatched_operands in H.
  destruct H as (fo & combined & layout & has_dbias & _ & Hf & Hc & _ & Hb & _).
  destruct Hf as (f & Hf & ->).
  exists f. split; [exact Hf |].
  destruct bias as [bias |]; simpl in Hc.
  - destruct Hc as (s & Hs & ->). destruct Hb as [_ Hb].
    exists s. split; [exact Hs |]. split; [| exact Hb].
    unfold array_add in Hs. inv_bind Hs as sh Esh. injection Hs as <-.
    reflexivity.
  - subst combined. destruct Hb as [_ Hb]. exact Hb.
Qed.

Lemma mask_fold_large_negative_witness :
  fold_mask (mkArray [2; 16; 4; 64] float16 (Input "query"))
            (mkArray [16; 32] bool_ (Input "mask")) =
  Ok (mkArray [1; 1; 16; 32] float16
        (Reshape (Where (Input "mask") (Const (mkScalar 0 float16))
                    (Const (mkScalar (-32768) float16))) [1; 1; 16; 32])).
Proof.
  exact (proj1 (mask_fold_large_negative
                  (mkArray [2; 16; 4; 64] float16 (Input "query"))
                  (mkArray [16; 32] bool_ (Input "mask")) eq_refl)).
Defined.

(** The constants are not [-2^14] and [-2^40]: neither is what a float16,
    respectively a bfloat16, query puts at the masked positions. *)
Lemma mask_fold_not_2_14_2_40 :
  fold_mask (mkArray [2; 16; 4; 64] float16 (Input "query"))
            (mkArray [16; 32] bool_ (Input "mask")) <>
  Ok (mkArray [1; 1; 16; 32] float16
        (Reshape (Where (Input "mask") (Const (mkScalar 0 float16))
                    (Const (mkScalar (- 2 ^ 14) float16))) [1; 1; 16; 32])) /\
  fold_mask (mkArray [2; 16; 4; 64] bfloat16 (Input "query"))
            (mkArray [16; 32] bool_ (Input "mask")) <>
  Ok (mkArray [1; 1; 16; 32] bfloat16
        (Reshape (Where (Input "mask") (Const (mkScalar 0 bfloat16))
                    (Const (mkScalar (- 2 ^ 40) bfloat16))) [1; 1; 16; 32])).
Proof. split; vm_compute; intros E; discriminate E. Qed.

(** ** Bias gradient export *)


(** The comparison [layout == AttentionLayout.BNTH.value] is false for every
    enumeration member, so the head count of the query is always read from
    its third axis when the layout is passed as a member. *)
Lemma should_export_dbias_enum (l : AttentionLayout) bB bN bT bS q0 q1 q2 q3 :
  should_export_dbias [bB; bN; bT; bS] [q0; q1; q2; q3] (LEnum l)
  = Ok ((bB =? 1) && (bN =? q2)).
Proof. destruct l; reflexivity. Qed.





(** Under the layout BNTH the operator passes the enumeration member, so
    the head extent of the bias is compared with the third axis of the
    query, its sequence length. *)
Example has_dbias_BNTH_compares_sequence_length :
  should_export_dbias [1; 8; 16; 32] (by_layout BNTH 4 8 16 64) (LEnum BNTH)
    = Ok false /\
  should_export_dbias [1; 8; 16; 32] (by_layout BNTH 4 8 16 64)
    (LInt (layout_value BNTH)) = Ok true.
Proof. split; reflexivity. Qed.

(** ** Shape of the backend configuration *)

(** The configuration written out: the fixed fields followed by the
    selected dot-dimension-number blocks. *)
Lemma backend_config_eq batch num_heads seq_q seq_kv dt fmha_scale seed
    dropout_rate mask_type layout sliding_window_length is_bwd :
  create_dot_product_attention_backend_config batch num_heads seq_q seq_kv
    dt fmha_scale seed dropout_rate mask_type layout sliding_window_length
    is_bwd =
  (element_type <- element_type_to_backend_config_type_mapping dt ;;
   let dims := if layout_arg_eqb layout (LInt (layout_value BNTH))
               then dims_BNTH else dims_BTNH in
   let blocks := combine dot_number_keys (map dot_dimension_numbers dims) in
   Ok (JDict
         [ ("operation_queue_id", JString "0");
           ("wait_on_operation_queues", JList []);
           ("cudnn_fmha_backend_config",
            JDict
              ([ ("algorithm", algorithm_block);
                 ("fmha_scale", JFloat fmha_scale);
                 ("dropout_rate", JFloat dropout_rate);
                 ("intermediate_tensor_shape",
                  JDict
                    [ ("element_type", JString element_type);
                      ("dimensions",
                       JList [ JString (str batch); JString (str num_heads);
                               JString (str seq_q); JString (str seq_kv) ]);
                      ("tuple_shapes", JList []);
                      ("layout", intermediate_layout_block);
                      ("is_dynamic_dimension",
                       JList [JBool false; JBool false; JBool false;
                              JBool false]) ]);
                 ("seed", JInt seed);
                 ("is_flash_attention", JBool true);
                 ("mask_type", JString (convert_mask_type_to_string mask_type));
                 ("sliding_window_length",
                  JInt (match sliding_window_length with
                        | None => 0
                        | Some n => n
                        end)) ]
               ++ (if is_bwd then skipn 2 blocks else firstn 2 blocks))) ])).
Proof.
  unfold create_dot_product_attention_backend_config.
  destruct (element_type_to_backend_config_type_mapping dt) as [et |];
    [| reflexivity].
  rewrite !bind_Ok_eq. cbv beta.
  destruct (layout_arg_eqb layout (LInt (layout_value BNTH))), is_bwd;
    reflexivity.
Qed.

(** ** Sliding window validation *)

(** The outputs of the bind do not depend on the value of the window
    length, only the recorded keyword parameter does. *)
Lemma wrapper_bind_window query key value bias q_seqlen kv_seqlen
    (scale : Q) (seed : Z) (dropout_rate : Q) (variadic_args : bool * bool)
    mask_type layout (is_training : bool) (w1 w2 : pyval) :
  _dot_product_attention_fwd_p_wrapper_bind
    (mkBind fwd_wrapper_name [query; key; value; bias; q_seqlen; kv_seqlen]
       [ ("scale", PFloat scale); ("seed", PInt seed);
         ("dropout_rate", PFloat dropout_rate);
         ("variadic_args", PBools (fst variadic_args) (snd variadic_args));
         ("mask_type", PMaskType mask_type); ("layout", PLayout layout);
         ("sliding_window_length", w1); ("is_training", PBool is_training) ]) =
  _dot_product_attention_fwd_p_wrapper_bind
    (mkBind fwd_wrapper_name [query; key; value; bias; q_seqlen; kv_seqlen]
       [ ("scale", PFloat scale); ("seed", PInt seed);
         ("dropout_rate", PFloat dropout_rate);
         ("variadic_args", PBools (fst variadic_args) (snd variadic_args));
         ("mask_type", PMaskType mask_type); ("layout", PLayout layout);
         ("sliding_window_length", w2); ("is_training", PBool is_training) ]).
Proof. reflexivity. Qed.

Lemma fwd_is_ok_window_irrelevant query key value bias q_seqlen kv_seqlen
    scale seed dropout_rate variadic_args mask_type layout w1 w2 cudnn_version :
  is_ok (_dot_product_attention_fwd query key value bias q_seqlen kv_seqlen
           scale seed dropout_rate variadic_args mask_type layout w1
           cudnn_version) =
  is_ok (_dot_product_attention_fwd query key value bias q_seqlen kv_seqlen
           scale seed dropout_rate variadic_args mask_type layout w2
           cudnn_version).
Proof.
  unfold _dot_product_attention_fwd.
  destruct (check_is_flash_attention query key layout cudnn_version true false)
    as [[] | e]; [| reflexivity].
  run_binds.
  rewrite (wrapper_bind_window query key value bias q_seqlen kv_seqlen scale
             seed dropout_rate variadic_args mask_type layout false
             (of_optional w1) (of_optional w2)).
  destruct (_dot_product_attention_fwd_p_wrapper_bind _) as [outputs |];
    [| reflexivity].
  simpl. destruct (getitem outputs 0); reflexivity.
Qed.

Lemma custom_vjp_is_ok_window_irrelevant differentiated query key value bias
    q_seqlen kv_seqlen scale seed dropout_rate variadic_args mask_type layout
    w1 w2 cudnn_version :
  is_ok (_dot_product_attention differentiated query key value bias q_seqlen
           kv_seqlen scale seed dropout_rate variadic_args mask_type layout w1
           cudnn_version) =
  is_ok (_dot_product_attention differentiated query key value bias q_seqlen
           kv_seqlen scale seed dropout_rate variadic_args mask_type layout w2
           cudnn_version).
Proof.
  unfold _dot_product_attention. destruct differentiated.
  - unfold _dot_product_attention_fwd_rule.
    destruct (check_is_flash_attention query key layout cudnn_version true true)
      as [[] | e]; [| reflexivity].
    run_binds.
    rewrite (wrapper_bind_window query key value bias q_seqlen kv_seqlen scale
               seed dropout_rate variadic_args mask_type layout true
               (of_optional w1) (of_optional w2)).
    destruct (_dot_product_attention_fwd_p_wrapper_bind _) as [outputs |];
      [| reflexivity].
    run_binds.
    destruct (getitem outputs 1); [| reflexivity]. run_binds.
    destruct (getitem outputs 0); reflexivity.
  - apply fwd_is_ok_window_irrelevant.
Qed.

(** C4 (amended).  The operator rejects every window length that is not
    positive, zero included, before anything is dispatched; an absent
    window length passes the validation (the call succeeds exactly when it
    would with a positive window), is recorded as absent in the dispatch
    and is serialized as 0 in the backend configuration. *)
Theorem sliding_window_validation :
  (forall upper env query key value bias mask q_seqlen kv_seqlen scale
          mask_type seed dropout_rate qkv_layout n,
     n <= 0 ->
     is_ok (dot_product_attention upper env query key value bias mask
              q_seqlen kv_seqlen scale mask_type seed dropout_rate
              qkv_layout (Some n)) = false) /\
  (forall upper env query key value bias mask q_seqlen kv_seqlen scale
          mask_type seed dropout_rate qkv_layout n v q_len kv_len,
     n <= 0 ->
     cuda_versions env = Some v ->
     check_compute_capability env [8; 0] = true ->
     is_ok (_normalize_layout upper qkv_layout) = true ->
     q_seqlen = Some q_len -> kv_seqlen = Some kv_len ->
     dot_product_attention upper env query key value bias mask
       q_seqlen kv_seqlen scale mask_type seed dropout_rate
       qkv_layout (Some n)
     = Err (ValueError "Require sliding_window_length > 0")) /\
  (forall upper env query key value bias mask q_seqlen kv_seqlen scale
          mask_type seed dropout_rate qkv_layout n,
     0 < n ->
     is_ok (dot_product_attention upper env query key value bias mask
              q_seqlen kv_seqlen scale mask_type seed dropout_rate
              qkv_layout None) =
     is_ok (dot_product_attention upper env query key value bias mask
              q_seqlen kv_seqlen scale mask_type seed dropout_rate
              qkv_layout (Some n))) /\
  (forall upper env query key value bias mask q_seqlen kv_seqlen scale
          mask_type seed dropout_rate qkv_layout b out,
     dot_product_attention upper env query key value bias mask
       q_seqlen kv_seqlen scale mask_type seed dropout_rate
       qkv_layout None = Ok (b, out) ->
     kwargs_get (kwargs b) "sliding_window_length" = Some PNone) /\
  (forall batch num_heads seq_q seq_kv dt fmha_scale seed dropout_rate
          mask_type layout is_bwd,
     create_dot_product_attention_backend_config batch num_heads seq_q
       seq_kv dt fmha_scale seed dropout_rate mask_type layout None is_bwd =
     create_dot_product_attention_backend_config batch num_heads seq_q
       seq_kv dt fmha_scale seed dropout_rate mask_type layout (Some 0)
       is_bwd) /\
  (forall batch num_heads seq_q seq_kv dt fmha_scale seed dropout_rate
          mask_type layout is_bwd cfg,
     create_dot_product_attention_backend_config batch num_heads seq_q
       seq_kv dt fmha_scale seed dropout_rate mask_type layout None is_bwd
     = Ok cfg ->
     fmha_config_field cfg "sliding_window_length" = Some (JInt 0)).
Proof.
  split; [| split; [| split; [| split; [| split]]]].
  - intros upper env query key value bias mask q_seqlen kv_seqlen scale
      mask_type seed dropout_rate qkv_layout n Hn.
    unfold dot_product_attention.
    destruct (check_cudnn_version env); [| reflexivity]. run_binds.
    destruct (raise_if _ _) as [[] |]; [| reflexivity]. run_binds.
    destruct (_normalize_layout upper qkv_layout); [| reflexivity].
    run_binds.
    destruct (raise_if _ _) as [[] |]; [| reflexivity]. run_binds.
    apply Z.leb_le in Hn. rewrite Hn. reflexivity.
  - intros upper env query key value bias mask q_seqlen kv_seqlen scale
      mask_type seed dropout_rate qkv_layout n v q_len kv_len
      Hn Hv Hcap Hl -> ->.
    unfold dot_product_attention, check_cudnn_version.
    rewrite Hv, Hcap. simpl raise_if. run_binds.
    apply is_ok_true in Hl. destruct Hl as [l ->]. run_binds.
    rewrite andb_false_r. run_binds.
    apply Z.leb_le in Hn. rewrite Hn. reflexivity.
  - intros upper env query key value bias mask q_seqlen kv_seqlen scale
      mask_type seed dropout_rate qkv_layout n Hn.
    unfold dot_product_attention.
    destruct (check_cudnn_version env); [| reflexivity]. run_binds.
    destruct (raise_if _ _) as [[] |]; [| reflexivity]. run_binds.
    destruct (_normalize_layout upper qkv_layout); [| reflexivity].
    run_binds.
    destruct (raise_if _ _) as [[] |]; [| reflexivity]. run_binds.
    apply Z.leb_gt in Hn. rewrite Hn. rewrite !raise_if_false.
    run_binds.
    destruct (match mask with Some _ => _ | None => _ end) as [fo |];
      [| reflexivity].
    run_binds.
    destruct (match option_map reshape_to_4D bias with
              | Some _ => _ | None => _ end) as [co |]; [| reflexivity].
    run_binds.
    destruct (check_layout _ _ _ _ _ _ _) as [[] |]; [| reflexivity].
    run_binds.
    destruct (match co with Some _ => _ | None => _ end) as [hd |];
      [| reflexivity].
    run_binds.
    apply custom_vjp_is_ok_window_irrelevant.
  - intros upper env query key value bias mask q_seqlen kv_seqlen scale
      mask_type seed dropout_rate qkv_layout b out H.
    apply dispatched_operands in H.
    destruct H as (fo & co & l & hd & _ & _ & _ & _ & _ & _ & Hw & _).
    exact Hw.
  - reflexivity.
  - intros batch num_heads seq_q seq_kv dt fmha_scale seed dropout_rate
      mask_type layout is_bwd cfg H.
    rewrite backend_config_eq in H.
    destruct (element_type_to_backend_config_type_mapping dt) as [et |];
      [| discriminate H].
    rewrite bind_Ok_eq in H. cbv beta zeta in H.
    destruct (layout_arg_eqb layout (LInt (layout_value BNTH))), is_bwd;
      injection H as <-; reflexivity.
Qed.

Lemma sliding_window_validation_witness :
  is_ok (dot_product_attention ascii_upper sample_env
           (sample_query float16) (sample_key float16) (sample_value float16)
           None None None None 1 NO_MASK 42 0 "BTNH" (Some (-1))) = false.
Proof.
  apply (proj1 sliding_window_validation). lia.
Defined.

(** Window length 0 does not disable windowing: the call is rejected,
    whereas the same call without a window succeeds. *)
Lemma sliding_window_zero_rejected :
  dot_product_attention ascii_upper sample_env
    (sample_query float16) (sample_key float16) (sample_value float16)
    None None None None 1 NO_MASK 42 0 "BTNH" (Some 0)
  = Err (ValueError "Require sliding_window_length > 0") /\
  is_ok (dot_product_attention ascii_upper sample_env
           (sample_query float16) (sample_key float16) (sample_value float16)
           None None None None 1 NO_MASK 42 0 "BTNH" None) = true.
Proof. split; vm_compute; reflexivity. Qed.

(** ** Backend configuration builder *)

Example str_examples :
  str 0 = "0" /\ str 128 = "128" /\ str 8904 = "8904" /\ str (-1) = "-1".
Proof. repeat split; reflexivity. Qed.

Example backend_config_forward_keys :
  option_map fmha_config_keys
    (match create_dot_product_attention_backend_config 2 4 8 16 float16 1 42 0
             CAUSAL (LInt 0) None false with
     | Ok c => Some c
     | Err _ => None
     end) =
  Some [ "algorithm"; "fmha_scale"; "dropout_rate"; "intermediate_tensor_shape";
         "seed"; "is_flash_attention"; "mask_type"; "sliding_window_length";
         "bmm1_dot_dimension_numbers"; "bmm2_dot_dimension_numbers" ].
Proof. reflexivity. Qed.

(** C9.  For a supported element type the builder returns a record with the
    fixed algorithm block, the scale, the dropout rate, the intermediate
    tensor shape with dimensions (batch, heads, q_len, kv_len) in decimal
    and minor-to-major order 3,2,1,0, the seed, the flash-attention flag set
    to true, the name of the mask type, the sliding window length (0 when
    absent), and after these exactly the two forward dot-dimension-number
    blocks when [is_bwd] is false and exactly the four backward blocks when
    it is true.  The blocks are those of the table for BNTH when the layout
    is the integer 1, and those of the table for BTNH otherwise. *)
Theorem backend_config_spec batch num_heads seq_q seq_kv dt fmha_scale seed
    dropout_rate mask_type layout sliding_window_length is_bwd :
  dt = bfloat16 \/ dt = float16 ->
  let decimal (n : Z) := JString (NilEmpty.string_of_int (Z.to_int n)) in
  let block (lc rc : string) (lb rb : list string) :=
    JDict [ ("lhs_contracting_dimensions", JList [JString lc]);
            ("rhs_contracting_dimensions", JList [JString rc]);
            ("lhs_batch_dimensions", JList (map JString lb));
            ("rhs_batch_dimensions", JList (map JString rb)) ] in
  let blocks :=
    match layout with
    | LInt 1 =>
        [ ("bmm1_dot_dimension_numbers",
           block "3" "3" ["0"; "1"] ["0"; "1"]);
          ("bmm2_dot_dimension_numbers",
           block "3" "2" ["0"; "1"] ["0"; "1"]);
          ("bmm1_grad_gemm1_dot_dimension_numbers",
           block "2" "2" ["0"; "1"] ["0"; "1"]);
          ("bmm1_grad_gemm2_dot_dimension_numbers",
           block "3" "2" ["0"; "1"] ["0"; "1"]);
          ("bmm2_grad_gemm1_dot_dimension_numbers",
           block "2" "2" ["0"; "1"] ["0"; "1"]);
          ("bmm2_grad_gemm2_dot_dimension_numbers",
           block "3" "3" ["0"; "1"] ["0"; "1"]) ]
    | _ =>
        [ ("bmm1_dot_dimension_numbers",
           block "3" "3" ["0"; "2"] ["0"; "2"]);
          ("bmm2_dot_dimension_numbers",
           block "3" "1" ["0"; "1"] ["0"; "2"]);
          ("bmm1_grad_gemm1_dot_dimension_numbers",
           block "2" "1" ["0"; "1"] ["0"; "2"]);
          ("bmm1_grad_gemm2_dot_dimension_numbers",
           block "3" "1" ["0"; "1"] ["0"; "2"]);
          ("bmm2_grad_gemm1_dot_dimension_numbers",
           block "2" "1" ["0"; "1"] ["0"; "2"]);
          ("bmm2_grad_gemm2_dot_dimension_numbers",
           block "3" "3" ["0"; "2"] ["0"; "2"]) ]
    end in
  exists cfg,
    create_dot_product_attention_backend_config batch num_heads seq_q seq_kv
      dt fmha_scale seed dropout_rate mask_type layout sliding_window_length
      is_bwd = Ok cfg /\
    fmha_config_field cfg "algorithm" =
      Some (JDict [ ("algo_id", JString "0");
                    ("math_type", JString "TENSOR_OP_MATH");
                    ("tuning_knobs",
                     JDict [("17", JString "1"); ("24", JString "0")]);
                    ("is_cudnn_frontend", JBool true);
                    ("workspace_size", JString "0") ]) /\
    fmha_config_field cfg "fmha_scale" = Some (JFloat fmha_scale) /\
    fmha_config_field cfg "dropout_rate" = Some (JFloat dropout_rate) /\
    (exists its lay,
       fmha_config_field cfg "intermediate_tensor_shape" = Some its /\
       json_get its "element_type" =
         Some (JString (match dt with bfloat16 => "BF16" | _ => "F16" end)) /\
       json_get its "dimensions" =
         Some (JList [ decimal batch; decimal num_heads;
                       decimal seq_q; decimal seq_kv ]) /\
       json_get its "layout" = Some lay /\
       json_get lay "minor_to_major" =
         Some (JList [JString "3"; JString "2"; JString "1"; JString "0"])) /\
    fmha_config_field cfg "seed" = Some (JInt seed) /\
    fmha_config_field cfg "is_flash_attention" = Some (JBool true) /\
    fmha_config_field cfg "mask_type" =
      Some (JString (match mask_type with
                     | NO_MASK => "NO_MASK"
                     | PADDING => "PADDING"
                     | CAUSAL => "CAUSAL"
                     | PADDING_CAUSAL => "PADDING_CAUSAL"
                     | ALIBI => "ALIBI"
                     end)) /\
    fmha_config_field cfg "sliding_window_length" =
      Some (JInt (match sliding_window_length with
                  | None => 0
                  | Some n => n
                  end)) /\
    fmha_config_keys cfg =
      [ "algorithm"; "fmha_scale"; "dropout_rate"; "intermediate_tensor_shape";
        "seed"; "is_flash_attention"; "mask_type"; "sliding_window_length" ]
      ++ (if is_bwd
          then [ "bmm1_grad_gemm1_dot_dimension_numbers";
                 "bmm1_grad_gemm2_dot_dimension_numbers";
                 "bmm2_grad_gemm1_dot_dimension_numbers";
                 "bmm2_grad_gemm2_dot_dimension_numbers" ]
          else [ "bmm1_dot_dimension_numbers";
                 "bmm2_dot_dimension_numbers" ]) /\
    (forall (i : nat) (key : string) (numbers : json),
       nth_error blocks i = Some (key, numbers) ->
       fmha_config_field cfg key =
         if Bool.eqb is_bwd (2 <=? i)%nat then Some numbers else None).
Proof.
  intros Hdt decimal block blocks. rewrite backend_config_eq.
  assert (Het : element_type_to_backend_config_type_mapping dt =
                Ok (match dt with bfloat16 => "BF16" | _ => "F16" end))
    by (destruct Hdt as [-> | ->]; reflexivity).
  rewrite Het, bind_Ok_eq. cbv beta zeta.
  eexists. split; [reflexivity |].
  assert (Hl : (layout = LInt 1 /\
                layout_arg_eqb layout (LInt (layout_value BNTH)) = true) \/
               ((forall X (a b : X),
                   match layout with LInt 1 => a | _ => b end = b) /\
                layout_arg_eqb layout (LInt (layout_value BNTH)) = false)).
  { destruct layout as [e | [| [q | q |] | q]];
      try (right; split; reflexivity).
    left. split; reflexivity. }
  destruct Hl as [[-> ->] | (Hm & ->)].
  - subst blocks. destruct is_bwd, mask_type;
      (repeat (split; [reflexivity |]));
      (split; [do 2 eexists; repeat split; reflexivity |]);
      (repeat (split; [reflexivity |]));
      intros i key numbers Hk;
      do 6 (destruct i as [| i]; [injection Hk as <- <-; reflexivity |]);
      destruct i; discriminate Hk.
  - subst blocks. rewrite Hm. destruct is_bwd, mask_type;
      (repeat (split; [reflexivity |]));
      (split; [do 2 eexists; repeat split; reflexivity |]);
      (repeat (split; [reflexivity |]));
      intros i key numbers Hk;
      do 6 (destruct i as [| i]; [injection Hk as <- <-; reflexivity |]);
      destruct i; discriminate Hk.
Qed.

Lemma backend_config_spec_witness :
  exists cfg,
    create_dot_product_attention_backend_config 4 8 16 32 float16 1 42 0
      CAUSAL (LInt 0) (Some 3) true = Ok cfg /\
    fmha_config_field cfg "mask_type" = Some (JString "CAUSAL") /\
    fmha_config_keys cfg =
      [ "algorithm"; "fmha_scale"; "dropout_rate"; "intermediate_tensor_shape";
        "seed"; "is_flash_attention"; "mask_type"; "sliding_window_length";
        "bmm1_grad_gemm1_dot_dimension_numbers";
        "bmm1_grad_gemm2_dot_dimension_numbers";
        "bmm2_grad_gemm1_dot_dimension_numbers";
        "bmm2_grad_gemm2_dot_dimension_numbers" ].
Proof.
  destruct (backend_config_spec 4 8 16 32 float16 1%Q 42 0%Q CAUSAL (LInt 0)
              (Some 3) true (or_intror eq_refl))
    as (cfg & Hc & _ & _ & _ & _ & _ & _ & Hm & _ & Hk & _).
  exists cfg. split; [exact Hc |]. split; [exact Hm | exact Hk].
Defined.

(** ** Custom-call emitter (forward) *)

Lemma custom_name_table :
  List.length _custom_name_maps = 8%nat /\
  NoDup (map fst _custom_name_maps) /\
  NoDup (map snd _custom_name_maps) /\
  (forall is_bwd has_dropout has_bias,
     In (is_bwd, has_dropout, has_bias) (map fst _custom_name_maps)) /\
  (forall has_bias has_dropout is_bwd,
     get_custom_call_name has_bias has_dropout is_bwd =
     Ok ("__cudnn$fmha" ++ (if has_bias then "ScaleBias" else "") ++ "Softmax"
         ++ (if has_dropout then "Dropout" else "")
         ++ (if is_bwd then "Backward" else ""))%string).
Proof.
  split; [reflexivity |].
  split.
  { simpl. repeat constructor; simpl; intuition discriminate. }
  split.
  { simpl. repeat constructor; simpl; intuition discriminate. }
  split.
  { intros [] [] []; simpl; tauto. }
  intros [] [] []; reflexivity.
Qed.

Lemma Qgtb0_spec (q : Q) :
  (Qgtb0 q = true <-> (0 < q)%Q) /\ (Qgtb0 q = false <-> (q <= 0)%Q).
Proof.
  unfold Qgtb0. pose proof (Qle_bool_iff q 0) as I.
  destruct (Qle_bool q 0); cbn [negb]; split; split; intros X;
    try discriminate X; try reflexivity.
  - exfalso. apply (Qlt_not_le _ _ X). apply I. reflexivity.
  - apply I. reflexivity.
  - apply Qnot_le_lt. intros C. apply I in C. discriminate C.
  - apply I in X. discriminate X.
Qed.

(** C8.  The call target is looked up in a table with exactly eight entries,
    one for every triple (direction, dropout present, bias present), and
    the lookup returns the eight names listed.  The forward emitter calls
    the forward target for its bias flag and for whether the dropout rate is
    positive; it passes query, key and value, then the bias only when
    [has_bias], then both sequence-length vectors only when the mask type
    is one of the two padding types; it declares the output in the native
    shape (B, N, T, H), the softmax statistics only when training, and the
    workspace; and the transpose it applies to the first result restores
    the shape of the query in the requested layout. *)
Theorem fwd_lowering_spec (l : AttentionLayout) (B N T H kB kN S_ kH : Z)
    (dt kdt : DType) (tq tk : Term) (value bias q_seqlen kv_seqlen : Array)
    (scale : Q) (seed : Z) (dropout_rate : Q) (has_bias has_dbias : bool)
    (mask_type : MaskType) (sliding_window_length : option Z)
    (is_training : bool) :
  dt = bfloat16 \/ dt = float16 ->
  let layout := match l with BTNH => LInt 0 | BNTH => LInt 1 end in
  let query :=
    mkArray (match l with BTNH => [B; T; N; H] | BNTH => [B; N; T; H] end)
      dt tq in
  let key :=
    mkArray (match l with BTNH => [kB; S_; kN; kH] | BNTH => [kB; kN; S_; kH] end)
      kdt tk in
  let operands :=
    [query; key; value] ++ (if has_bias then [bias] else [])
      ++ (match mask_type with
          | PADDING | PADDING_CAUSAL => [q_seqlen; kv_seqlen]
          | _ => []
          end) in
  let perm := match l with BTNH => [0; 2; 1; 3] | BNTH => [0; 1; 2; 3] end in
  (List.length _custom_name_maps = 8%nat /\
   NoDup (map fst _custom_name_maps) /\
   (forall is_bwd has_dropout has_bias,
      In (is_bwd, has_dropout, has_bias) (map fst _custom_name_maps)) /\
   forall is_bwd has_dropout has_bias,
     get_custom_call_name has_bias has_dropout is_bwd =
     Ok (match is_bwd, has_dropout, has_bias with
         | false, false, false => "__cudnn$fmhaSoftmax"
         | false, false, true => "__cudnn$fmhaScaleBiasSoftmax"
         | false, true, false => "__cudnn$fmhaSoftmaxDropout"
         | false, true, true => "__cudnn$fmhaScaleBiasSoftmaxDropout"
         | true, false, false => "__cudnn$fmhaSoftmaxBackward"
         | true, false, true => "__cudnn$fmhaScaleBiasSoftmaxBackward"
         | true, true, false => "__cudnn$fmhaSoftmaxDropoutBackward"
         | true, true, true => "__cudnn$fmhaScaleBiasSoftmaxDropoutBackward"
         end)) /\
  exists cfg name,
    create_dot_product_attention_backend_config B N T S_ dt scale seed
      dropout_rate mask_type layout sliding_window_length false = Ok cfg /\
    ((0 < dropout_rate)%Q ->
     name = if has_bias then "__cudnn$fmhaScaleBiasSoftmaxDropout"
            else "__cudnn$fmhaSoftmaxDropout") /\
    ((dropout_rate <= 0)%Q ->
     name = if has_bias then "__cudnn$fmhaScaleBiasSoftmax"
            else "__cudnn$fmhaSoftmax") /\
    _dot_product_attention_fwd_cuda_lowering query key value bias q_seqlen
      kv_seqlen scale seed dropout_rate (has_bias, has_dbias) mask_type
      layout sliding_window_length is_training =
    Ok (mkCustomCall name
          ([mkTensorType [B; N; T; H] dt]
             ++ (if is_training then [mkTensorType [B; N; T] float32] else [])
             ++ [mkTensorType [0] uint8])
          operands cfg
          (map (fun a : Array =>
                  rev (map Z.of_nat (seq 0 (List.length (shape a)))))
             operands)
          ([match l with BTNH => [3; 1; 2; 0] | BNTH => [3; 2; 1; 0] end]
             ++ (if is_training then [[2; 1; 0]] else []) ++ [[0]]),
        [Transpose (CallResult 0) perm]
          ++ (if is_training then [CallResult 1] else [])) /\
    map (fun p => nth (Z.to_nat p) [B; N; T; H] 0) perm = shape query.
Proof.
  intros Hdt layout query key operands perm.
  split.
  { destruct custom_name_table as (H1 & H2 & _ & H4 & _).
    split; [exact H1 |]. split; [exact H2 |]. split; [exact H4 |].
    intros [] [] []; reflexivity. }
  assert (Hcfg : exists cfg,
             create_dot_product_attention_backend_config B N T S_ dt scale
               seed dropout_rate mask_type layout
               sliding_window_length false = Ok cfg).
  { rewrite backend_config_eq.
    destruct Hdt as [-> | ->]; eexists; reflexivity. }
  destruct Hcfg as [cfg Hcfg]. exists cfg.
  assert (Hname : exists name,
             name_map_lookup _custom_name_maps
               (false, Qgtb0 dropout_rate, has_bias) = Ok name /\
             ((0 < dropout_rate)%Q ->
              name = if has_bias then "__cudnn$fmhaScaleBiasSoftmaxDropout"
                     else "__cudnn$fmhaSoftmaxDropout") /\
             ((dropout_rate <= 0)%Q ->
              name = if has_bias then "__cudnn$fmhaScaleBiasSoftmax"
                     else "__cudnn$fmhaSoftmax")).
  { destruct (Qgtb0_spec dropout_rate) as [Ht Hf].
    destruct (Qgtb0 dropout_rate).
    - destruct has_bias; eexists; (split; [reflexivity |]);
        (split; [reflexivity |]);
        intros C; apply Hf in C; discriminate C.
    - destruct has_bias; eexists; (split; [reflexivity |]);
        (split; [| reflexivity]);
        intros C; apply Ht in C; discriminate C. }
  destruct Hname as (name & Hname & Hpos & Hzero). exists name.
  split; [exact Hcfg |]. split; [exact Hpos |]. split; [exact Hzero |].
  split.
  - unfold _dot_product_attention_fwd_cuda_lowering, get_custom_call_name.
    subst layout query key operands perm. cbn [shape dtype].
    destruct l;
      cbn [layout_value layout_arg_eqb Z.eqb Pos.eqb unpack4] in *;
      rewrite !bind_Ok_eq; cbv beta iota;
      rewrite Hcfg, !bind_Ok_eq; cbv beta iota; rewrite Hname, !bind_Ok_eq;
      cbv beta iota;
      destruct has_bias, mask_type, is_training; reflexivity.
  - subst perm query. destruct l; reflexivity.
Qed.

Lemma fwd_lowering_spec_witness :
  exists cfg,
    _dot_product_attention_fwd_cuda_lowering
      (mkArray [4; 16; 8; 64] float16 (Input "query"))
      (mkArray [4; 32; 8; 64] float16 (Input "key"))
      (sample_value float16)
      (mkArray [1; 8; 16; 32] float16 (Input "bias"))
      (mkArray [4] int32 (Input "q_seqlen"))
      (mkArray [4] int32 (Input "kv_seqlen"))
      1 42 0 (true, true) PADDING (LInt 0) None true =
    Ok (mkCustomCall "__cudnn$fmhaScaleBiasSoftmax"
          [ mkTensorType [4; 8; 16; 64] float16;
            mkTensorType [4; 8; 16] float32;
            mkTensorType [0] uint8 ]
          [ mkArray [4; 16; 8; 64] float16 (Input "query");
            mkArray [4; 32; 8; 64] float16 (Input "key");
            sample_value float16;
            mkArray [1; 8; 16; 32] float16 (Input "bias");
            mkArray [4] int32 (Input "q_seqlen");
            mkArray [4] int32 (Input "kv_seqlen") ]
          cfg
          [ [3; 2; 1; 0]; [3; 2; 1; 0]; [3; 2; 1; 0]; [3; 2; 1; 0]; [0]; [0] ]
          [ [3; 1; 2; 0]; [2; 1; 0]; [0] ],
        [Transpose (CallResult 0) [0; 2; 1; 3]; CallResult 1]).
Proof.
  destruct (fwd_lowering_spec BTNH 4 8 16 64 4 8 32 64 float16 float16
              (Input "query") (Input "key") (sample_value float16)
              (mkArray [1; 8; 16; 32] float16 (Input "bias"))
              (mkArray [4] int32 (Input "q_seqlen"))
              (mkArray [4] int32 (Input "kv_seqlen"))
              1%Q 42 0%Q true true PADDING None true (or_intror eq_refl))
    as (_ & cfg & name & _ & _ & Hz & Hl & _).
  exists cfg. rewrite (Hz (Qle_refl 0)) in Hl. exact Hl.
Defined.

Example fwd_lowering_call_target :
  match _dot_product_attention_fwd_cuda_lowering
          (sample_query bfloat16) (sample_key bfloat16) (sample_value bfloat16)
          (mkArray [1; 8; 16; 32] bfloat16 (Input "bias"))
          (mkArray [0] bfloat16 (Zeros 0 bfloat16))
          (mkArray [0] bfloat16 (Zeros 0 bfloat16))
          1 42 (1 # 10) (true, true) CAUSAL (LInt 0) None false with
  | Ok (call, outs) =>
      call_target_name call = "__cudnn$fmhaScaleBiasSoftmaxDropout" /\
      List.length (operands call) = 4%nat /\
      List.length (result_types call) = 2%nat /\
      outs = [Transpose (CallResult 0) [0; 2; 1; 3]]
  | Err _ => False
  end.
Proof. vm_compute. repeat split; reflexivity. Qed.


(** ** Flash attention support check *)

Lemma flash_attention_supported_iff (T S_ H : Z) (has_bias is_training : bool) :
  flash_attention_supported T S_ H has_bias is_training = true <->
  (H <= 128 /\ H mod 8 = 0) /\
  (is_training = true -> has_bias = true -> T mod 2 = 0 /\ S_ mod 2 = 0).
Proof.
  unfold flash_attention_supported.
  rewrite !andb_true_iff, !orb_true_iff, !andb_true_iff, !negb_true_iff,
    Z.leb_le, !Z.eqb_eq.
  destruct is_training, has_bias; intuition (try discriminate; auto).
Qed.

Lemma check_is_flash_attention_eq (l : AttentionLayout)
    (B N T H kB kN S_ kH : Z) (dq dk : DType) (tq tk : Term)
    (cudnn_version : Z) (has_bias is_training : bool) :
  check_is_flash_attention
    (mkArray (by_layout l B N T H) dq tq)
    (mkArray (by_layout l kB kN S_ kH) dk tk)
    (LInt (layout_value l)) cudnn_version has_bias is_training =
  if negb (flash_attention_supported T S_ H has_bias is_training)
  then Err (NotImplementedError
              "Unsupported sequence length Q, KV and head dim")
  else if cudnn_version <? 8904
       then Err (RuntimeError
                   "JAX requires cuDNN >= 8.9.4 to use flash cross attention.")
       else Ok tt.
Proof.
  unfold check_is_flash_attention.
  destruct l; cbn [shape by_layout layout_value layout_arg_eqb Z.eqb Pos.eqb
                   unpack4];
    rewrite !bind_Ok_eq; cbv beta iota;
    destruct (flash_attention_supported T S_ H has_bias is_training);
    destruct (cudnn_version <? 8904); reflexivity.
Qed.

(** C6 (amended).  On rank-4 query and key, [check_is_flash_attention]
    raises the unsupported-configuration error exactly when the head size
    exceeds 128 or is not a multiple of 8 or, when training with a bias, one
    of the two sequence lengths is odd; it raises the version error exactly
    when the configuration is supported and the cuDNN version is below 8904;
    otherwise it succeeds.  In particular it never succeeds with a version
    below 8904. *)
Theorem check_is_flash_attention_spec (l : AttentionLayout)
    (B N T H kB kN S_ kH : Z) (dq dk : DType) (tq tk : Term)
    (cudnn_version : Z) (has_bias is_training : bool) :
  let supported :=
    (H <= 128 /\ H mod 8 = 0) /\
    (is_training = true -> has_bias = true -> T mod 2 = 0 /\ S_ mod 2 = 0) in
  let r :=
    check_is_flash_attention
      (mkArray (match l with BTNH => [B; T; N; H] | BNTH => [B; N; T; H] end)
         dq tq)
      (mkArray
         (match l with BTNH => [kB; S_; kN; kH] | BNTH => [kB; kN; S_; kH] end)
         dk tk)
      (match l with BTNH => LInt 0 | BNTH => LInt 1 end)
      cudnn_version has_bias is_training in
  (r = Err (NotImplementedError
              "Unsupported sequence length Q, KV and head dim")
   <-> ~ supported) /\
  (r = Err (RuntimeError
              "JAX requires cuDNN >= 8.9.4 to use flash cross attention.")
   <-> supported /\ cudnn_version < 8904) /\
  (r = Ok tt <-> supported /\ 8904 <= cudnn_version) /\
  (is_ok r = false <-> ~ supported \/ cudnn_version < 8904).
Proof.
  intros supported r. subst r.
  replace (check_is_flash_attention _ _ _ cudnn_version has_bias is_training)
    with (check_is_flash_attention
            (mkArray (by_layout l B N T H) dq tq)
            (mkArray (by_layout l kB kN S_ kH) dk tk)
            (LInt (layout_value l)) cudnn_version has_bias is_training)
    by (destruct l; reflexivity).
  rewrite check_is_flash_attention_eq.
  pose proof (flash_attention_supported_iff T S_ H has_bias is_training) as HS.
  fold supported in HS. clearbody supported.
  destruct (flash_attention_supported T S_ H has_bias is_training);
    [assert (Hs : supported) by (apply HS; reflexivity)
    | assert (Hs : ~ supported) by (intros C; apply HS in C; discriminate C)];
    cbn [negb]; try destruct (Z.ltb_spec cudnn_version 8904) as [Hv | Hv];
    (split; [| split; [| split]]);
    split; intros X; cbn [is_ok] in *; try discriminate X; try reflexivity;
    try tauto; try (exfalso; intuition lia).
Qed.

(** The version error does not come independently of the first check: with
    head size 136 and cuDNN 8903 the version is below the threshold, yet the
    error raised is the unsupported-configuration one. *)
Lemma version_error_needs_supported_configuration :
  8903 < 8904 /\
  check_is_flash_attention
    (mkArray [4; 16; 8; 136] float16 (Input "query"))
    (mkArray [4; 32; 8; 136] float16 (Input "key"))
    (LInt 0) 8903 false false
  = Err (NotImplementedError "Unsupported sequence length Q, KV and head dim")
  /\
  check_is_flash_attention
    (mkArray [4; 16; 8; 136] float16 (Input "query"))
    (mkArray [4; 32; 8; 136] float16 (Input "key"))
    (LInt 0) 8903 false false
  <> Err (RuntimeError
            "JAX requires cuDNN >= 8.9.4 to use flash cross attention.").
Proof.
  split; [lia |]. split; [reflexivity |]. intros E. discriminate E.
Qed.

Example flash_attention_head_dim_136 :
  check_is_flash_attention
    (mkArray [4; 16; 8; 136] float16 (Input "query"))
    (mkArray [4; 32; 8; 136] float16 (Input "key"))
    (LInt 0) 8904 false false
  = Err (NotImplementedError "Unsupported sequence length Q, KV and head dim").
Proof. reflexivity. Qed.

Example flash_attention_old_cudnn :
  check_is_flash_attention (sample_query float16) (sample_key float16)
    (LInt 0) 8903 false false
  = Err (RuntimeError
           "JAX requires cuDNN >= 8.9.4 to use flash cross attention.").
Proof. reflexivity. Qed.

Example flash_attention_odd_length_training :
  check_is_flash_attention
    (mkArray [4; 15; 8; 64] float16 (Input "query")) (sample_key float16)
    (LInt 0) 8904 true true
  = Err (NotImplementedError "Unsupported sequence length Q, KV and head dim")
  /\
  check_is_flash_attention
    (mkArray [4; 15; 8; 64] float16 (Input "query")) (sample_key float16)
    (LInt 0) 8904 true false = Ok tt.
Proof. split; reflexivity. Qed.


(** ** Layout and shape validator *)

Lemma rank_by_layout l B N T H dt t :
  rank (mkArray (by_layout l B N T H) dt t) = 4.
Proof. destruct l; reflexivity. Qed.

Lemma seqlen_check_Ok (a : option Array) (B : Z) (e1 e2 e3 : exn) :
  match a with
  | Some s =>
      raise_if (negb (DType_eqb (dtype s) int32)) e1 ;;;
      raise_if (negb (rank s =? 1)) e2 ;;;
      raise_if (negb (hd 0 (shape s) =? B)) e3
  | None => Ok tt
  end = Ok tt <-> seqlen_ok a B.
Proof.
  destruct a as [[s d t] |]; simpl; [| tauto].
  unfold rank. simpl.
  split.
  - intros H. inv_raise H as G1. inv_raise H as G2. apply raise_if_Ok in H.
    apply negb_false_iff in G1, G2, H.
    apply DType_eqb_eq in G1. apply Z.eqb_eq in G2, H.
    destruct s as [| x [| y s]]; simpl in *; try lia.
    subst. auto.
  - intros [-> ->]. simpl. rewrite Z.eqb_refl. reflexivity.
Qed.

Lemma bias_check_Ok (bias : option Array) (T S_ : Z) (e : exn) :
  match bias with
  | Some b =>
      '(_, _, bT, bS) <- unpack4 (shape b) ;;
      raise_if (negb (bT =? T) || negb (bS =? S_)) e
  | None => Ok tt
  end = Ok tt <-> bias_ok bias T S_.
Proof.
  destruct bias as [[s d t] |]; simpl; [| tauto].
  split.
  - intros H. apply bind_Ok_inv in H.
    destruct H as [[[[b0 b1] bT] bS] [E H]]. apply unpack4_Ok in E.
    apply raise_if_Ok in H. apply orb_false_iff in H. destruct H as [H1 H2].
    apply negb_false_iff in H1, H2. apply Z.eqb_eq in H1, H2. subst.
    exists b0, b1. reflexivity.
  - intros (b0 & b1 & ->). simpl. rewrite !Z.eqb_refl. reflexivity.
Qed.

Lemma check_layout_accepts_iff (l : AttentionLayout) (query key value : Array)
    (bias q_seqlen kv_seqlen : option Array) :
  check_layout query key value bias q_seqlen kv_seqlen (LEnum l) = Ok tt <->
  exists qB qN qT qH kN kS,
    shape query = by_layout l qB qN qT qH /\
    shape key = by_layout l qB kN kS qH /\
    shape value = by_layout l qB kN kS qH /\
    (dtype query = bfloat16 \/ dtype query = float16) /\
    dtype key = dtype query /\ dtype value = dtype query /\
    bias_ok bias qT kS /\ seqlen_ok q_seqlen qB /\ seqlen_ok kv_seqlen qB.
Proof.
  split.
  - unfold check_layout, check_eq. intros H.
    inv_raise H as G1. inv_raise H as G2. inv_raise H as G3.
    inv_raise H as G4.
    apply bind_Ok_inv in H.
    destruct H as [[[[[[qB qN] qT] qH] [[[kB kN] kS] kH]] [[[vB vN] vS] vH]]
                     [Es H]].
    inv_raise H as G5. inv_raise H as G6. inv_raise H as G7.
    inv_raise H as G8. inv_check H as Eb. inv_check H as Eq.
    apply bias_check_Ok in Eb. apply seqlen_check_Ok in Eq, H.
    apply negb_false_iff in G3, G4, G5, G6, G7, G8.
    apply andb_true_iff in G4, G5, G6.
    destruct G4 as [D1 D2], G5 as [B1 B2], G6 as [H1 H2].
    apply DType_eqb_eq in D1, D2. apply Z.eqb_eq in B1, B2, H1, H2, G7, G8.
    subst kB vB kH vH vN vS. exists qB, qN, qT, qH, kN, kS.
    assert (Hd : dtype query = bfloat16 \/ dtype query = float16).
    { simpl in G3. rewrite !orb_true_iff, !DType_eqb_eq in G3.
      destruct G3 as [G | [G | G]]; [left | right | discriminate G]; exact G. }
    assert (Hsh : shape query = by_layout l qB qN qT qH /\
                  shape key = by_layout l qB kN kS qH /\
                  shape value = by_layout l qB kN kS qH).
    { destruct l; simpl in Es.
      - inv_bind Es as q4 Eq4. destruct q4 as [[[? ?] ?] ?].
        inv_bind Es as k4 Ek4. destruct k4 as [[[? ?] ?] ?].
        inv_bind Es as v4 Ev4. destruct v4 as [[[? ?] ?] ?].
        apply unpack4_Ok in Eq4, Ek4, Ev4. injection Es as <- <- <- <- <- <- <- <- <- <- <- <-.
        simpl. auto.
      - inv_bind Es as q4 Eq4. destruct q4 as [[[? ?] ?] ?].
        inv_bind Es as k4 Ek4. destruct k4 as [[[? ?] ?] ?].
        inv_bind Es as v4 Ev4. destruct v4 as [[[? ?] ?] ?].
        apply unpack4_Ok in Eq4, Ek4, Ev4. injection Es as <- <- <- <- <- <- <- <- <- <- <- <-.
        simpl. auto. }
    destruct Hsh as (? & ? & ?).
    repeat split; auto; congruence.
  - intros (qB & qN & qT & qH & kN & kS & Hq & Hk & Hv & Hd & Dk & Dv &
            Hb & Hqs & Hks).
    destruct query as [qs qd qt], key as [ks kd kt], value as [vs vd vt].
    simpl in Hq, Hk, Hv, Hd, Dk, Dv. subst qs ks vs kd vd.
    unfold check_layout, check_eq. cbn [dtype shape].
    rewrite !rank_by_layout. cbn [Z.eqb Pos.eqb negb andb].
    rewrite !raise_if_false, !bind_Ok_eq. cbv beta.
    assert (G3 : existsb (DType_eqb qd) [bfloat16; float16] = true)
      by (destruct Hd as [-> | ->]; reflexivity).
    rewrite G3.
    assert (G4 : DType_eqb qd qd = true) by (apply DType_eqb_eq; reflexivity).
    rewrite G4. cbn [negb andb]. rewrite !raise_if_false, !bind_Ok_eq. cbv beta.
    apply (bias_check_Ok bias qT kS
             (ValueError "Bias must have same seq length as QKV")) in Hb.
    apply (seqlen_check_Ok q_seqlen qB
             (ValueError "q_seqlen must have int32 datatype")
             (ValueError "q_seqlen must have a rank of 1")
             (ValueError "q_seqlen must have same batch as Q")) in Hqs.
    apply (seqlen_check_Ok kv_seqlen qB
             (ValueError "kv_seqlen must have int32 datatype")
             (ValueError "kv_seq_rank must have a rank of 1")
             (ValueError "kv_seqlen must have same batch as Q")) in Hks.
    destruct l; cbn [layout_arg_eqb AttentionLayout_eqb by_layout unpack4 negb];
      rewrite ?raise_if_false, !bind_Ok_eq; cbv beta iota;
      rewrite !Z.eqb_refl; cbn [negb andb];
      rewrite !raise_if_false, !bind_Ok_eq; cbv beta;
      rewrite Hb, bind_Ok_eq; cbv beta; rewrite Hqs, bind_Ok_eq; cbv beta;
      exact Hks.
Qed.


Lemma unpack4_Err {A : Type} (l : list A) (e : exn) :
  unpack4 l = Err e ->
  ((List.length l < 4)%nat /\
   e = ValueError "not enough values to unpack (expected 4)") \/
  ((4 < List.length l)%nat /\
   e = ValueError "too many values to unpack (expected 4)").
Proof.
  destruct l as [| x1 [| x2 [| x3 [| x4 [| x5 l]]]]]; simpl; intros E;
    try discriminate E; injection E as <-;
    first [left; split; [lia | reflexivity] | right; split; [lia | reflexivity]].
Qed.

Ltac solve_In := simpl; repeat (first [left; reflexivity | right]).

(** One step through a chain of checks that ends in an error. *)
Ltac err_step :=
  rewrite ?bind_assoc;
  match goal with
  | |- bind (raise_if ?c ?e) _ = Err _ -> _ =>
      destruct c;
      [ let X := fresh in intros X; simpl in X; injection X as <-; solve_In
      | rewrite raise_if_false, bind_Ok_eq; cbv beta ]
  | |- raise_if ?c ?e = Err _ -> _ =>
      let X := fresh in
      destruct c; intros X; simpl in X;
      [ injection X as <-; solve_In | discriminate X ]
  | |- context [unpack4 ?l] =>
      let X := fresh in
      let E := fresh in
      destruct (unpack4 l) as [[[[? ?] ?] ?] | ?] eqn:E;
      [ rewrite ?bind_Ok_eq; cbv beta iota
      | intros X; simpl in X; injection X as <-;
        apply unpack4_Err in E; destruct E as [[_ ->] | [_ ->]]; solve_In ]
  end.

Lemma check_layout_error_kinds (l : AttentionLayout) (query key value : Array)
    (bias q_seqlen kv_seqlen : option Array) (e : exn) :
  check_layout query key value bias q_seqlen kv_seqlen (LEnum l) = Err e ->
  In e check_layout_errors.
Proof.
  unfold check_layout, check_eq, check_layout_errors.
  destruct l; cbn [layout_arg_eqb AttentionLayout_eqb negb append];
    rewrite ?raise_if_false, ?bind_Ok_eq; cbv beta.
  - do 11 err_step.
    destruct bias as [b |]; [do 2 err_step | rewrite bind_Ok_eq];
    (destruct q_seqlen as [qs |]; [do 3 err_step | rewrite bind_Ok_eq]);
    (destruct kv_seqlen as [ks |]; [do 3 err_step | intros X; discriminate X]).
  - do 11 err_step.
    destruct bias as [b |]; [do 2 err_step | rewrite bind_Ok_eq];
    (destruct q_seqlen as [qs |]; [do 3 err_step | rewrite bind_Ok_eq]);
    (destruct kv_seqlen as [ks |]; [do 3 err_step | intros X; discriminate X]).
Qed.

Lemma rank_4_shape (a : Array) :
  rank a = 4 -> exists x0 x1 x2 x3, shape a = [x0; x1; x2; x3].
Proof.
  unfold rank. destruct (shape a) as [| x0 [| x1 [| x2 [| x3 [| x4 s]]]]];
    simpl List.length; intros E; try lia.
  eauto.
Qed.

Lemma check_layout_rank4 (l : AttentionLayout) (query key value : Array)
    (bias q_seqlen kv_seqlen : option Array) :
  rank query = 4 -> rank key = 4 -> rank value = 4 ->
  check_layout query key value bias q_seqlen kv_seqlen (LEnum l) =
  (raise_if (negb (existsb (DType_eqb (dtype query)) [bfloat16; float16]))
     (NotImplementedError "Q must be fp16 or bf16") ;;;
   raise_if (negb (DType_eqb (dtype query) (dtype key) &&
                   DType_eqb (dtype key) (dtype value)))
     (ValueError "QKV dtype must be same") ;;;
   raise_if (negb ((dim_B query =? dim_B key) && (dim_B key =? dim_B value)))
     (ValueError "QKV batch must be same") ;;;
   raise_if (negb ((dim_H query =? dim_H key) && (dim_H key =? dim_H value)))
     (ValueError "QKV dim_per_head must be same") ;;;
   raise_if (negb (dim_N l key =? dim_N l value))
     (ValueError "KV must have same number of heads") ;;;
   raise_if (negb (dim_T l key =? dim_T l value))
     (ValueError "KV must have same seq length") ;;;
   match bias with
   | Some b =>
       '(_, _, bT, bS) <- unpack4 (shape b) ;;
       raise_if (negb (bT =? dim_T l query) || negb (bS =? dim_T l value))
         (ValueError "Bias must have same seq length as QKV")
   | None => Ok tt
   end ;;;
   match q_seqlen with
   | Some s =>
       raise_if (negb (DType_eqb (dtype s) int32))
         (ValueError "q_seqlen must have int32 datatype") ;;;
       raise_if (negb (rank s =? 1))
         (ValueError "q_seqlen must have a rank of 1") ;;;
       raise_if (negb (hd 0 (shape s) =? dim_B query))
         (ValueError "q_seqlen must have same batch as Q")
   | None => Ok tt
   end ;;;
   match kv_seqlen with
   | Some s =>
       raise_if (negb (DType_eqb (dtype s) int32))
         (ValueError "kv_seqlen must have int32 datatype") ;;;
       raise_if (negb (rank s =? 1))
         (ValueError "kv_seq_rank must have a rank of 1") ;;;
       raise_if (negb (hd 0 (shape s) =? dim_B query))
         (ValueError "kv_seqlen must have same batch as Q")
   | None => Ok tt
   end).
Proof.
  intros Rq Rk Rv. unfold check_layout, check_eq.
  rewrite Rq, Rk, Rv. cbn [Z.eqb Pos.eqb negb andb].
  rewrite !raise_if_false, !bind_Ok_eq. cbv beta.
  apply rank_4_shape in Rq, Rk, Rv.
  destruct Rq as (q0 & q1 & q2 & q3 & Eq), Rk as (k0 & k1 & k2 & k3 & Ek),
    Rv as (v0 & v1 & v2 & v3 & Ev).
  unfold dim_B, dim_N, dim_T, dim_H. rewrite Eq, Ek, Ev.
  destruct l; reflexivity.
Qed.

Lemma bias_stage (bias : option Array) (T S_ : Z) :
  let part :=
    match bias with
    | Some b =>
        '(_, _, bT, bS) <- unpack4 (shape b) ;;
        raise_if (negb (bT =? T) || negb (bS =? S_))
          (ValueError "Bias must have same seq length as QKV")
    | None => Ok tt
    end in
  let short := exists b, bias = Some b /\ rank b < 4 in
  let long := exists b, bias = Some b /\ 4 < rank b in
  let differs :=
    exists b, bias = Some b /\ rank b = 4 /\
              ~ (nth 2 (shape b) 0 = T /\ nth 3 (shape b) 0 = S_) in
  (part = Ok tt /\ bias_ok bias T S_ /\ ~ short /\ ~ long /\ ~ differs) \/
  (part = Err (ValueError "not enough values to unpack (expected 4)") /\
   ~ bias_ok bias T S_ /\ short /\ ~ long /\ ~ differs) \/
  (part = Err (ValueError "too many values to unpack (expected 4)") /\
   ~ bias_ok bias T S_ /\ ~ short /\ long /\ ~ differs) \/
  (part = Err (ValueError "Bias must have same seq length as QKV") /\
   ~ bias_ok bias T S_ /\ ~ short /\ ~ long /\ differs).
Proof.
  intros part short long differs. subst part short long differs.
  destruct bias as [[s d t] |]; cbn [shape bias_ok].
  2: { left. split; [reflexivity |]. split; [exact I |].
       repeat split; intros (b & E & _); discriminate E. }
  unfold rank. cbn [shape].
  destruct s as [| x0 [| x1 [| x2 [| x3 [| x4 s]]]]].
  1-4: right; left; split; [reflexivity |];
       split; [intros (b0 & b1 & E); discriminate E |];
       split; [eexists; split; [reflexivity | cbn; lia] |];
       split; intros (b & E & Hb); injection E as <-; cbn in Hb;
         try lia; destruct Hb as [Hb _]; lia.
  2: { right; right; left. split; [reflexivity |].
       split; [intros (b0 & b1 & E); discriminate E |].
       split; [intros (b & E & Hb); injection E as <-; cbn [shape List.length] in Hb; lia |].
       split; [eexists; split; [reflexivity | cbn [shape List.length]; lia] |].
       intros (b & E & Hb & _); injection E as <-; cbn [shape List.length] in Hb; lia. }
  cbn [unpack4 bind nth].
  destruct (Z.eqb_spec x2 T) as [E2 | E2];
    [destruct (Z.eqb_spec x3 S_) as [E3 | E3] |]; cbn [negb orb raise_if].
  - left. subst. split; [reflexivity |]. split; [eauto |].
    split; [intros (b & E & Hb); injection E as <-; cbn in Hb; lia |].
    split; [intros (b & E & Hb); injection E as <-; cbn in Hb; lia |].
    intros (b & E & _ & Hb). injection E as <-. cbn in Hb. tauto.
  - right; right; right. split; [reflexivity |].
    split; [intros (b0 & b1 & E); injection E as _ _ _ E; contradiction |].
    split; [intros (b & E & Hb); injection E as <-; cbn in Hb; lia |].
    split; [intros (b & E & Hb); injection E as <-; cbn in Hb; lia |].
    eexists. split; [reflexivity |]. split; [reflexivity |]. cbn. tauto.
  - right; right; right. split; [reflexivity |].
    split; [intros (b0 & b1 & E); injection E as _ _ E _; contradiction |].
    split; [intros (b & E & Hb); injection E as <-; cbn in Hb; lia |].
    split; [intros (b & E & Hb); injection E as <-; cbn in Hb; lia |].
    eexists. split; [reflexivity |]. split; [reflexivity |]. cbn. tauto.
Qed.

Lemma seqlen_stage (a : option Array) (B : Z) (m1 m2 m3 : string) :
  let part :=
    match a with
    | Some s =>
        raise_if (negb (DType_eqb (dtype s) int32)) (ValueError m1) ;;;
        raise_if (negb (rank s =? 1)) (ValueError m2) ;;;
        raise_if (negb (hd 0 (shape s) =? B)) (ValueError m3)
    | None => Ok tt
    end in
  let wrong_dtype := exists s, a = Some s /\ dtype s <> int32 in
  let wrong_rank := exists s, a = Some s /\ dtype s = int32 /\ rank s <> 1 in
  let wrong_length :=
    exists s, a = Some s /\ dtype s = int32 /\ rank s = 1 /\
              hd 0 (shape s) <> B in
  (part = Ok tt /\ seqlen_ok a B /\ ~ wrong_dtype /\ ~ wrong_rank /\
   ~ wrong_length) \/
  (part = Err (ValueError m1) /\ ~ seqlen_ok a B /\ wrong_dtype /\
   ~ wrong_rank /\ ~ wrong_length) \/
  (part = Err (ValueError m2) /\ ~ seqlen_ok a B /\ ~ wrong_dtype /\
   wrong_rank /\ ~ wrong_length) \/
  (part = Err (ValueError m3) /\ ~ seqlen_ok a B /\ ~ wrong_dtype /\
   ~ wrong_rank /\ wrong_length).
Proof.
  intros part wrong_dtype wrong_rank wrong_length.
  subst part wrong_dtype wrong_rank wrong_length.
  destruct a as [s |]; cbn [seqlen_ok].
  2: { left. split; [reflexivity |]. split; [exact I |].
       repeat split; intros (b & E & _); discriminate E. }
  assert (Hd : DType_eqb (dtype s) int32 = true <-> dtype s = int32)
    by apply DType_eqb_eq.
  assert (Hs : rank s = 1 -> shape s = [hd 0 (shape s)]).
  { unfold rank. destruct (shape s) as [| x [| y t]]; simpl List.length;
      intros E; try lia. reflexivity. }
  assert (Hs' : forall x, shape s = [x] -> rank s = 1 /\ hd 0 (shape s) = x).
  { intros x E. unfold rank. rewrite E. split; reflexivity. }
  destruct (DType_eqb (dtype s) int32) eqn:D; cbn [negb raise_if bind].
  2: { assert (Nd : dtype s <> int32)
         by (intros C; apply Hd in C; discriminate C).
       right; left. split; [reflexivity |]. split; [tauto |].
       split; [eauto |].
       split; intros (b & E & Hb); injection E as <-; tauto. }
  assert (Ed : dtype s = int32) by (apply Hd; reflexivity).
  destruct (Z.eqb_spec (rank s) 1) as [R | R]; cbn [negb raise_if bind].
  2: { right; right; left. split; [reflexivity |].
       split; [intros [_ E]; apply Hs' in E; tauto |].
       split; [intros (b & E & Hb); injection E as <-; tauto |].
       split; [eauto |].
       intros (b & E & Hb); injection E as <-; tauto. }
  destruct (Z.eqb_spec (hd 0 (shape s)) B) as [L | L]; cbn [negb raise_if].
  - left. split; [reflexivity |].
    split; [split; [exact Ed | rewrite (Hs R), L; reflexivity] |].
    repeat split; intros (b & E & Hb); injection E as <-; tauto.
  - right; right; right. split; [reflexivity |].
    split; [intros [_ E]; apply Hs' in E; tauto |].
    split; [intros (b & E & Hb); injection E as <-; tauto |].
    split; [intros (b & E & Hb); injection E as <-; tauto |].
    eauto.
Qed.

Lemma dtype_supported_iff (d : DType) :
  existsb (DType_eqb d) [bfloat16; float16] = true <->
  d = bfloat16 \/ d = float16.
Proof.
  destruct d; cbn; split; intros X; try discriminate X; try reflexivity;
    try (left; reflexivity); try (right; reflexivity);
    destruct X as [X | X]; discriminate X.
Qed.

Lemma chain_eqb_iff {A : Type} (eqb : A -> A -> bool)
    (Heqb : forall x y, eqb x y = true <-> x = y) (a b c : A) :
  eqb a b && eqb b c = true <-> a = b /\ b = c.
Proof. rewrite andb_true_iff, !Heqb. tauto. Qed.

Ltac finish_stage :=
  repeat match goal with |- _ /\ _ => split end;
  split; intros X; try discriminate X; try reflexivity; try tauto;
  exfalso; tauto.

(** C5 (amended).  The validator accepts exactly when query, key and value
    are rank-4 arrays of one dtype, bfloat16 or float16, that agree on batch
    size and head size, with key and value of the same shape (the head count
    of the query is not compared with theirs); a bias, if any, has rank 4
    and trailing axes (query length, key length); and each sequence-length
    vector, if any, is an int32 vector of length the batch size.  Otherwise
    it raises the error of the first check that fails, in this order: the
    rank of the query, the ranks of key and value, the dtype of the query,
    the dtypes of key and value, the batch sizes, the head sizes, the head
    counts of key and value, their lengths, the rank of the bias (too low,
    too high), its trailing axes, and for each sequence-length vector its
    dtype, its rank and its length; each error names the quantity that
    check compares. *)
Theorem check_layout_spec (l : AttentionLayout) (query key value : Array)
    (bias q_seqlen kv_seqlen : option Array) :
  let r := check_layout query key value bias q_seqlen kv_seqlen (LEnum l) in
  let q_rank := rank query = 4 in
  let ranks := q_rank /\ rank key = 4 /\ rank value = 4 in
  let q_dtype :=
    ranks /\ (dtype query = bfloat16 \/ dtype query = float16) in
  let dtypes :=
    q_dtype /\ dtype query = dtype key /\ dtype key = dtype value in
  let batch :=
    dtypes /\ dim_B query = dim_B key /\ dim_B key = dim_B value in
  let head_size :=
    batch /\ dim_H query = dim_H key /\ dim_H key = dim_H value in
  let heads := head_size /\ dim_N l key = dim_N l value in
  let lengths := heads /\ dim_T l key = dim_T l value in
  let bias_fine :=
    lengths /\ bias_ok bias (dim_T l query) (dim_T l value) in
  let q_seqlen_fine := bias_fine /\ seqlen_ok q_seqlen (dim_B query) in
  (r = Ok tt <->
   exists qB qN qT qH kN kS,
     shape query = by_layout l qB qN qT qH /\
     shape key = by_layout l qB kN kS qH /\
     shape value = by_layout l qB kN kS qH /\
     (dtype query = bfloat16 \/ dtype query = float16) /\
     dtype key = dtype query /\ dtype value = dtype query /\
     bias_ok bias qT kS /\ seqlen_ok q_seqlen qB /\ seqlen_ok kv_seqlen qB) /\
  (forall e, r = Err e -> In e check_layout_errors) /\
  (r = Ok tt <-> q_seqlen_fine /\ seqlen_ok kv_seqlen (dim_B query)) /\
  (r = Err (ValueError "Q must have a rank of 4") <-> ~ q_rank) /\
  (r = Err (ValueError "QKV rank must be same") <->
   q_rank /\ ~ (rank key = 4 /\ rank value = 4)) /\
  (r = Err (NotImplementedError "Q must be fp16 or bf16") <->
   ranks /\ ~ (dtype query = bfloat16 \/ dtype query = float16)) /\
  (r = Err (ValueError "QKV dtype must be same") <->
   q_dtype /\ ~ (dtype query = dtype key /\ dtype key = dtype value)) /\
  (r = Err (ValueError "QKV batch must be same") <->
   dtypes /\ ~ (dim_B query = dim_B key /\ dim_B key = dim_B value)) /\
  (r = Err (ValueError "QKV dim_per_head must be same") <->
   batch /\ ~ (dim_H query = dim_H key /\ dim_H key = dim_H value)) /\
  (r = Err (ValueError "KV must have same number of heads") <->
   head_size /\ dim_N l key <> dim_N l value) /\
  (r = Err (ValueError "KV must have same seq length") <->
   heads /\ dim_T l key <> dim_T l value) /\
  (r = Err (ValueError "not enough values to unpack (expected 4)") <->
   lengths /\ exists b, bias = Some b /\ rank b < 4) /\
  (r = Err (ValueError "too many values to unpack (expected 4)") <->
   lengths /\ exists b, bias = Some b /\ 4 < rank b) /\
  (r = Err (ValueError "Bias must have same seq length as QKV") <->
   lengths /\
   exists b, bias = Some b /\ rank b = 4 /\
             ~ (nth 2 (shape b) 0 = dim_T l query /\
                nth 3 (shape b) 0 = dim_T l value)) /\
  (r = Err (ValueError "q_seqlen must have int32 datatype") <->
   bias_fine /\ exists s, q_seqlen = Some s /\ dtype s <> int32) /\
  (r = Err (ValueError "q_seqlen must have a rank of 1") <->
   bias_fine /\
   exists s, q_seqlen = Some s /\ dtype s = int32 /\ rank s <> 1) /\
  (r = Err (ValueError "q_seqlen must have same batch as Q") <->
   bias_fine /\
   exists s, q_seqlen = Some s /\ dtype s = int32 /\ rank s = 1 /\
             hd 0 (shape s) <> dim_B query) /\
  (r = Err (ValueError "kv_seqlen must have int32 datatype") <->
   q_seqlen_fine /\ exists s, kv_seqlen = Some s /\ dtype s <> int32) /\
  (r = Err (ValueError "kv_seq_rank must have a rank of 1") <->
   q_seqlen_fine /\
   exists s, kv_seqlen = Some s /\ dtype s = int32 /\ rank s <> 1) /\
  (r = Err (ValueError "kv_seqlen must have same batch as Q") <->
   q_seqlen_fine /\
   exists s, kv_seqlen = Some s /\ dtype s = int32 /\ rank s = 1 /\
             hd 0 (shape s) <> dim_B query).
Proof.
  intros r q_rank ranks q_dtype dtypes batch head_size heads lengths
    bias_fine q_seqlen_fine.
  subst q_rank ranks q_dtype dtypes batch head_size heads lengths
    bias_fine q_seqlen_fine.
  split; [apply check_layout_accepts_iff |].
  split; [intros e; apply check_layout_error_kinds |].
  (* ranks *)
  destruct (Z.eqb_spec (rank query) 4) as [R1 | R1].
  2: { assert (Hr : r = Err (ValueError "Q must have a rank of 4")).
       { subst r. unfold check_layout.
         rewrite (proj2 (Z.eqb_neq _ _) R1). reflexivity. }
       rewrite Hr. clear Hr r. finish_stage. }
  destruct (Z.eqb_spec (rank key) 4) as [R2 | R2];
    [destruct (Z.eqb_spec (rank value) 4) as [R3 | R3] |].
  2, 3: assert (Hr : r = Err (ValueError "QKV rank must be same"))
          by (assert (C : (rank query =? rank key)
                          && (rank key =? rank value) = false)
                by (apply andb_false_iff; rewrite !Z.eqb_neq; lia);
              subst r; unfold check_layout, check_eq; cbv zeta;
              rewrite C, (proj2 (Z.eqb_eq _ _) R1); reflexivity);
        rewrite Hr; clear Hr r; finish_stage.
  subst r. rewrite (check_layout_rank4 l query key value bias q_seqlen
                      kv_seqlen R1 R2 R3).
  (* element types *)
  pose proof (dtype_supported_iff (dtype query)) as D1.
  destruct (existsb (DType_eqb (dtype query)) [bfloat16; float16]).
  2: { assert (N1 : ~ (dtype query = bfloat16 \/ dtype query = float16))
         by (intros C; apply D1 in C; discriminate C).
       cbn [negb raise_if bind]. clear D1. finish_stage. }
  assert (P1 : dtype query = bfloat16 \/ dtype query = float16)
    by (apply D1; reflexivity).
  clear D1. cbn [negb]. rewrite raise_if_false, bind_Ok_eq.
  pose proof (chain_eqb_iff DType_eqb DType_eqb_eq (dtype query) (dtype key)
                (dtype value)) as D2.
  destruct (DType_eqb (dtype query) (dtype key) &&
            DType_eqb (dtype key) (dtype value)).
  2: { assert (N2 : ~ (dtype query = dtype key /\ dtype key = dtype value))
         by (intros C; apply D2 in C; discriminate C).
       cbn [negb raise_if bind]. clear D2. finish_stage. }
  assert (P2 : dtype query = dtype key /\ dtype key = dtype value)
    by (apply D2; reflexivity).
  clear D2. cbn [negb]. rewrite raise_if_false, bind_Ok_eq.
  (* batch size and head size *)
  pose proof (chain_eqb_iff Z.eqb Z.eqb_eq (dim_B query) (dim_B key)
                (dim_B value)) as D3.
  destruct ((dim_B query =? dim_B key) && (dim_B key =? dim_B value)).
  2: { assert (N3 : ~ (dim_B query = dim_B key /\ dim_B key = dim_B value))
         by (intros C; apply D3 in C; discriminate C).
       cbn [negb raise_if bind]. clear D3. finish_stage. }
  assert (P3 : dim_B query = dim_B key /\ dim_B key = dim_B value)
    by (apply D3; reflexivity).
  clear D3. cbn [negb]. rewrite raise_if_false, bind_Ok_eq.
  pose proof (chain_eqb_iff Z.eqb Z.eqb_eq (dim_H query) (dim_H key)
                (dim_H value)) as D4.
  destruct ((dim_H query =? dim_H key) && (dim_H key =? dim_H value)).
  2: { assert (N4 : ~ (dim_H query = dim_H key /\ dim_H key = dim_H value))
         by (intros C; apply D4 in C; discriminate C).
       cbn [negb raise_if bind]. clear D4. finish_stage. }
  assert (P4 : dim_H query = dim_H key /\ dim_H key = dim_H value)
    by (apply D4; reflexivity).
  clear D4. cbn [negb]. rewrite raise_if_false, bind_Ok_eq.
  (* key and value *)
  destruct (Z.eqb_spec (dim_N l key) (dim_N l value)) as [P5 | N5].
  2: { cbn [negb raise_if bind]. finish_stage. }
  cbn [negb]. rewrite raise_if_false, bind_Ok_eq.
  destruct (Z.eqb_spec (dim_T l key) (dim_T l value)) as [P6 | N6].
  2: { cbn [negb raise_if bind]. finish_stage. }
  cbn [negb]. rewrite raise_if_false, bind_Ok_eq.
  (* bias *)
  destruct (bias_stage bias (dim_T l query) (dim_T l value))
    as [(-> & B0 & B1 & B2 & B3) | [(-> & B0 & B1 & B2 & B3) |
        [(-> & B0 & B1 & B2 & B3) | (-> & B0 & B1 & B2 & B3)]]].
  2, 3, 4: cbn [bind]; finish_stage.
  rewrite bind_Ok_eq.
  (* sequence lengths *)
  destruct (seqlen_stage q_seqlen (dim_B query)
              "q_seqlen must have int32 datatype"
              "q_seqlen must have a rank of 1"
              "q_seqlen must have same batch as Q")
    as [(-> & Q0 & Q1 & Q2 & Q3) | [(-> & Q0 & Q1 & Q2 & Q3) |
        [(-> & Q0 & Q1 & Q2 & Q3) | (-> & Q0 & Q1 & Q2 & Q3)]]].
  2, 3, 4: cbn [bind]; finish_stage.
  rewrite bind_Ok_eq.
  destruct (seqlen_stage kv_seqlen (dim_B query)
              "kv_seqlen must have int32 datatype"
              "kv_seq_rank must have a rank of 1"
              "kv_seqlen must have same batch as Q")
    as [(-> & K0 & K1 & K2 & K3) | [(-> & K0 & K1 & K2 & K3) |
        [(-> & K0 & K1 & K2 & K3) | (-> & K0 & K1 & K2 & K3)]]];
    finish_stage.
Qed.

Lemma check_layout_spec_witness :
  check_layout (sample_query float16)
    (mkArray [2; 32; 8; 64] float16 (Input "key")) (sample_value float16)
    None None None (LEnum BTNH)
  = Err (ValueError "QKV batch must be same").
Proof.
  pose proof (check_layout_spec BTNH (sample_query float16)
                (mkArray [2; 32; 8; 64] float16 (Input "key"))
                (sample_value float16) None None None) as W.
  cbv zeta in W.
  destruct W as (_ & _ & _ & _ & _ & _ & _ & [_ W] & _).
  apply W.
  repeat split; try reflexivity.
  - right. reflexivity.
  - intros [C _]. discriminate C.
Defined.

(** Head counts need not agree across all three operands, and matching
    trailing axes do not suffice for a bias: a query with 8 heads is
    accepted with key and value of 2 heads, and a bias of rank 5 whose
    trailing axes are (query length, key length) is rejected. *)
Lemma check_layout_head_counts_and_bias_rank :
  check_layout (sample_query float16)
    (mkArray [4; 32; 2; 64] float16 (Input "key"))
    (mkArray [4; 32; 2; 64] float16 (Input "value"))
    None None None (LEnum BTNH) = Ok tt /\
  check_layout (sample_query float16) (sample_key float16)
    (sample_value float16)
    (Some (mkArray [1; 1; 1; 16; 32] float16 (Input "bias")))
    None None (LEnum BTNH)
  = Err (ValueError "too many values to unpack (expected 4)").
Proof. split; reflexivity. Qed.

Example check_layout_batch_mismatch :
  check_layout (sample_query float16)
    (mkArray [2; 32; 8; 64] float16 (Input "key")) (sample_value float16)
    None None None (LEnum BTNH) = Err (ValueError "QKV batch must be same").
Proof. reflexivity. Qed.

Example check_layout_float32 :
  check_layout (sample_query float32) (sample_key float32)
    (sample_value float32) None None None (LEnum BNTH)
  = Err (NotImplementedError "Q must be fp16 or bf16").
Proof. reflexivity. Qed.

Example check_layout_seqlen_dtype :
  check_layout (sample_query float16) (sample_key float16)
    (sample_value float16) None
    (Some (mkArray [4] int64 (Input "q_seqlen"))) None (LEnum BTNH)
  = Err (ValueError "q_seqlen must have int32 datatype").
Proof. reflexivity. Qed.


(** ** Sharding partitioner *)

Lemma list_eqb_eq {A : Type} (eqb : A -> A -> bool) :
  (forall x y, eqb x y = true <-> x = y) ->
  forall l1 l2, list_eqb eqb l1 l2 = true <-> l1 = l2.
Proof.
  intros Heqb. induction l1 as [| x l1 IH]; intros [| y l2]; simpl;
    try (split; intros E; [discriminate E || reflexivity | discriminate E || reflexivity]).
  rewrite andb_true_iff, Heqb, IH. split.
  - intros [-> ->]. reflexivity.
  - intros E. injection E as -> ->. auto.
Qed.

Lemma PEntry_eqb_eq (a b : PEntry) : PEntry_eqb a b = true <-> a = b.
Proof.
  destruct a as [| x | x], b as [| y | y]; simpl;
    try (split; intros E; [discriminate E || reflexivity | discriminate E || reflexivity]).
  - rewrite String.eqb_eq. split; [intros -> | intros E; injection E as ->];
      reflexivity.
  - rewrite (list_eqb_eq String.eqb String.eqb_eq).
    split; [intros -> | intros E; injection E as ->]; reflexivity.
Qed.

Lemma spec_eqb_eq (a b : spec_t) : spec_eqb a b = true <-> a = b.
Proof. apply list_eqb_eq. exact PEntry_eqb_eq. Qed.

Lemma is_not_None_false (e : PEntry) : is_not_None e = false <-> e = Unsharded.
Proof. destruct e; simpl; split; intros E; try reflexivity; discriminate E. Qed.

Lemma any_truthy_iff (l : spec_t) :
  existsb truthy l = true <-> exists e, In e l /\ names_an_axis e.
Proof.
  rewrite existsb_exists.
  assert (T : forall e, truthy e = true <-> names_an_axis e).
  { intros [| name | names]; simpl.
    - split; [discriminate | contradiction].
    - rewrite negb_true_iff. destruct (String.eqb_spec name "") as [-> | N];
        split; intros X; try discriminate X; try reflexivity;
        try assumption; contradiction X; reflexivity.
    - destruct names; split; intros X; try discriminate X; try reflexivity;
        try contradiction; discriminate. }
  split; intros (e & Hin & He); exists e; (split; [exact Hin |]);
    apply T; exact He.
Qed.

Lemma check_qkv_bias_mask_spec_iff (query_spec key_spec value_spec : spec_t)
    (bias_spec : option spec_t) :
  _check_qkv_bias_mask_spec query_spec key_spec value_spec bias_spec = Ok tt
  <->
  query_spec = key_spec /\ key_spec = value_spec /\
  exists batch_spec num_head_spec,
    query_spec = batch_spec ++ [Unsharded; num_head_spec; Unsharded] /\
    bias_spec_ok bias_spec batch_spec num_head_spec.
Proof.
  unfold _check_qkv_bias_mask_spec. split.
  - intros H. inv_raise H as G1.
    apply bind_Ok_inv in H. destruct H as [[[[batch qs] nh] hs] [Eu H]].
    inv_raise H as G2. inv_raise H as G3.
    apply negb_false_iff, andb_true_iff in G1. destruct G1 as [E1 E2].
    apply spec_eqb_eq in E1, E2. apply is_not_None_false in G2, G3. subst qs hs.
    apply unpack_star3_Ok in Eu.
    split; [exact E1 |]. split; [exact E2 |].
    exists batch, nh. split; [exact Eu |].
    destruct bias_spec as [[| e es] |]; simpl; try exact I.
    apply bind_Ok_inv in H. destruct H as [[[[bb bn] bq] bk] [Eb H]].
    inv_raise H as G4. apply raise_if_Ok in H.
    apply unpack_star3_Ok in Eb.
    apply orb_false_iff in G4, H. destruct G4 as [G4 G5], H as [H1 H2].
    apply is_not_None_false in H1, H2. subst bq bk.
    exists bb, bn. split; [exact Eb |]. split.
    + intros Hany. apply any_truthy_iff in Hany.
      rewrite Hany in G4. simpl in G4.
      apply negb_false_iff, spec_eqb_eq in G4. exact G4.
    + destruct (is_not_None bn) eqn:Nb.
      * right. cbn [andb] in G5.
        apply negb_false_iff, PEntry_eqb_eq in G5. exact G5.
      * left. apply is_not_None_false. exact Nb.
  - intros (E1 & E2 & batch & nh & Eq & Hb). subst key_spec value_spec.
    assert (R : spec_eqb query_spec query_spec = true)
      by (apply spec_eqb_eq; reflexivity).
    rewrite R. simpl negb. rewrite raise_if_false, bind_Ok_eq.
    assert (Eu : unpack_star3 query_spec = Ok (batch, Unsharded, nh, Unsharded))
      by (apply unpack_star3_Ok; exact Eq).
    rewrite Eu, bind_Ok_eq. simpl is_not_None.
    rewrite !raise_if_false, !bind_Ok_eq.
    destruct bias_spec as [[| e es] |]; try reflexivity.
    simpl in Hb. destruct Hb as (bb & bn & Eb & Hbb & Hbn).
    apply unpack_star3_Ok in Eb. rewrite Eb, bind_Ok_eq. simpl is_not_None.
    simpl orb at 2. rewrite raise_if_false.
    assert (C1 : existsb truthy bb && negb (spec_eqb bb batch) = false).
    { destruct (existsb truthy bb) eqn:Hany; [| reflexivity].
      rewrite (Hbb (proj1 (any_truthy_iff bb) Hany)).
      assert (R' : spec_eqb batch batch = true)
        by (apply spec_eqb_eq; reflexivity).
      rewrite R'. reflexivity. }
    assert (C2 : is_not_None bn && negb (PEntry_eqb bn nh) = false).
    { destruct Hbn as [-> | ->]; [reflexivity |].
      assert (R' : PEntry_eqb nh nh = true)
        by (apply PEntry_eqb_eq; reflexivity).
      rewrite R'. apply andb_false_r. }
    rewrite C1, C2. reflexivity.
Qed.

Lemma getitem_Ok {A : Type} (l : list A) (i : nat) (x : A) :
  getitem l i = Ok x <-> nth_error l i = Some x.
Proof.
  unfold getitem. destruct (nth_error l i); split; intros E;
    try discriminate E; injection E as ->; reflexivity.
Qed.

Lemma infer_fwd_output_sharding_Ok mesh arg_shapes variadic_args is_training
    outs :
  _infer_fwd_output_sharding mesh arg_shapes variadic_args is_training
    = Ok outs ->
  exists query_spec key_spec value_spec bias_spec,
    padded_operand_specs arg_shapes (fst variadic_args)
      = Ok (query_spec, key_spec, value_spec, bias_spec) /\
    _check_qkv_bias_mask_spec query_spec key_spec value_spec bias_spec
      = Ok tt /\
    nth_error outs 0 = Some (mkNamedSharding mesh query_spec) /\
    List.length outs = (if is_training then 2 else 1)%nat.
Proof.
  unfold _infer_fwd_output_sharding. destruct variadic_args as [has_bias hd].
  intros H. apply bind_Ok_inv in H.
  destruct H as [[[[q k] v] b] [Ep H]]. inv_check H as Ec.
  exists q, k, v, b. split; [exact Ep |]. split; [exact Ec |].
  destruct is_training.
  - apply bind_Ok_inv in H. destruct H as [[[[bs qs] nh] hs] [_ H]].
    injection H as <-. split; reflexivity.
  - injection H as <-. split; reflexivity.
Qed.

Lemma infer_bwd_output_sharding_Ok mesh arg_shapes has_bias has_dbias outs :
  _infer_bwd_output_sharding mesh arg_shapes (has_bias, has_dbias) = Ok outs ->
  exists query_spec key_spec value_spec bias_spec,
    padded_operand_specs arg_shapes has_bias
      = Ok (query_spec, key_spec, value_spec, bias_spec) /\
    _check_qkv_bias_mask_spec query_spec key_spec value_spec bias_spec
      = Ok tt /\
    outs = [ mkNamedSharding mesh query_spec; mkNamedSharding mesh key_spec;
             mkNamedSharding mesh key_spec ]
           ++ (if has_dbias
               then match bias_spec with
                    | Some bs => [mkNamedSharding mesh bs]
                    | None => []
                    end
               else []) /\
    (has_dbias = true -> bias_spec <> None).
Proof.
  unfold _infer_bwd_output_sharding.
  intros H. apply bind_Ok_inv in H.
  destruct H as [[[[q k] v] b] [Ep H]]. inv_check H as Ec.
  exists q, k, v, b. split; [exact Ep |]. split; [exact Ec |].
  destruct has_dbias.
  - destruct b as [bs |]; [| discriminate H]. injection H as <-.
    split; [reflexivity |]. intros _. discriminate.
  - injection H as <-. split; [reflexivity |]. intros E. discriminate E.
Qed.

Lemma get_padded_spec_Ok (a : ArgInfo) (s : spec_t) :
  _get_padded_spec a = Ok s -> s = padded a.
Proof.
  unfold _get_padded_spec, padded. destruct (sharding a) as [sh |].
  - intros H. inv_raise H as G. injection H as <-. reflexivity.
  - intros H. injection H as <-. reflexivity.
Qed.

(** The specs both inference functions check are the padded specs of the
    first three operands, and of the fourth when there is a bias. *)
Lemma padded_operand_specs_Ok arg_shapes has_bias query_spec key_spec
    value_spec bias_spec :
  padded_operand_specs arg_shapes has_bias
    = Ok (query_spec, key_spec, value_spec, bias_spec) ->
  exists query key value,
    nth_error arg_shapes 0 = Some query /\
    nth_error arg_shapes 1 = Some key /\
    nth_error arg_shapes 2 = Some value /\
    query_spec = padded query /\ key_spec = padded key /\
    value_spec = padded value /\
    (if has_bias
     then exists bias,
            nth_error arg_shapes 3 = Some bias /\
            bias_spec = Some (padded bias)
     else bias_spec = None).
Proof.
  unfold padded_operand_specs. intros H.
  inv_bind H as a0 E0. inv_bind H as q Eq. inv_bind H as a1 E1.
  inv_bind H as k Ek. inv_bind H as a2 E2. inv_bind H as v Ev.
  inv_bind H as b Eb. injection H as <- <- <- <-.
  apply getitem_Ok in E0, E1, E2.
  apply get_padded_spec_Ok in Eq, Ek, Ev.
  exists a0, a1, a2. repeat (split; [assumption |]).
  destruct has_bias.
  - inv_bind Eb as a3 E3. inv_bind Eb as sb Esb. injection Eb as <-.
    apply getitem_Ok in E3. apply get_padded_spec_Ok in Esb. subst sb.
    exists a3. split; [assumption | reflexivity].
  - injection Eb as <-. reflexivity.
Qed.

(** The shardings do not depend on the layout the rules receive. *)
Lemma fwd_partition_layout_blind variadic_args layout is_training mesh
    arg_shapes :
  _dot_product_attention_fwd_partition variadic_args layout is_training mesh
    arg_shapes =
  _dot_product_attention_fwd_partition variadic_args
    (LInt (layout_value BTNH)) is_training mesh arg_shapes.
Proof. reflexivity. Qed.

(** C2 (amended).  For operands in the layout BTNH, the partitioner accepts
    exactly when query, key and value have the same spec, unsharded on the
    sequence axis and on the head-size axis, and a non-empty bias spec has
    its two sequence axes unsharded, a batch part that is either without
    any sharded entry or equal to the batch part of the query, and a head
    entry that is either unsharded or equal to that of the query.  The specs
    compared are those of the operands, padded with unsharded entries to
    their ranks.  When the forward rule accepts, the output takes the spec
    of the query.  When the backward rule accepts, the gradients of query,
    key and value take the specs of query, key and key, followed by the spec
    of the bias when [has_dbias]; without [has_dbias] the partitioned
    implementation is the local one; with [has_dbias], whenever the sharding
    of the query records a first entry over which [psum] is defined, the
    partitioned implementation returns the first three local gradients
    followed by the [psum] of the fourth over that entry. *)
Theorem partitioner_spec :
  (forall query_spec key_spec value_spec bias_spec,
     _check_qkv_bias_mask_spec query_spec key_spec value_spec bias_spec
       = Ok tt <->
     query_spec = key_spec /\ key_spec = value_spec /\
     exists batch_spec num_head_spec,
       query_spec
         = spec_by_layout BTNH batch_spec num_head_spec Unsharded Unsharded /\
       bias_spec_ok bias_spec batch_spec num_head_spec) /\
  (forall has_bias has_dbias layout is_training mesh arg_shapes m outs shs,
     _dot_product_attention_fwd_partition (has_bias, has_dbias) layout
       is_training mesh arg_shapes = Ok (m, outs, shs) ->
     exists query key value bias_spec,
       nth_error arg_shapes 0 = Some query /\
       nth_error arg_shapes 1 = Some key /\
       nth_error arg_shapes 2 = Some value /\
       (if has_bias
        then exists bias,
               nth_error arg_shapes 3 = Some bias /\
               bias_spec = Some (padded bias)
        else bias_spec = None) /\
       _check_qkv_bias_mask_spec (padded query) (padded key) (padded value)
         bias_spec = Ok tt /\
       nth_error outs 0 = Some (mkNamedSharding mesh (padded query)) /\
       m = mesh /\ shs = map sharding arg_shapes) /\
  (forall (Operand Grad : Type)
          (impl : layout_arg -> list Operand -> result (list Grad))
          (psum : Grad -> PEntry -> result Grad)
          has_bias has_dbias layout mesh arg_shapes m f outs shs,
     _dot_product_attention_bwd_partition Operand Grad impl psum
       (has_bias, has_dbias) layout mesh arg_shapes = Ok (m, f, outs, shs) ->
     exists query key value bias_spec,
       nth_error arg_shapes 0 = Some query /\
       nth_error arg_shapes 1 = Some key /\
       nth_error arg_shapes 2 = Some value /\
       (if has_bias
        then exists bias,
               nth_error arg_shapes 3 = Some bias /\
               bias_spec = Some (padded bias)
        else bias_spec = None) /\
       _check_qkv_bias_mask_spec (padded query) (padded key) (padded value)
         bias_spec = Ok tt /\
       outs = [ mkNamedSharding mesh (padded query);
                mkNamedSharding mesh (padded key);
                mkNamedSharding mesh (padded key) ]
              ++ (if has_dbias
                  then match bias_spec with
                       | Some bs => [mkNamedSharding mesh bs]
                       | None => []
                       end
                  else []) /\
       (has_dbias = true -> bias_spec <> None) /\
       m = mesh /\ shs = map sharding arg_shapes /\
       (has_dbias = false -> forall args, f args = impl layout args) /\
       (has_dbias = true ->
        forall args grads sh batch_axis rest local_dbias global_dbias,
          impl layout args = Ok grads ->
          sharding query = Some sh ->
          spec sh = batch_axis :: rest ->
          nth_error grads 3 = Some local_dbias ->
          psum local_dbias batch_axis = Ok global_dbias ->
          f args = Ok (firstn 3 grads ++ [global_dbias]))).
Proof.
  split; [exact check_qkv_bias_mask_spec_iff |].
  split.
  { intros has_bias has_dbias layout is_training mesh arg_shapes m outs shs H.
    unfold _dot_product_attention_fwd_partition in H.
    inv_bind H as o Eo. injection H as <- <- <-.
    apply infer_fwd_output_sharding_Ok in Eo.
    destruct Eo as (q & k & v & b & Hp & Hc & Ho & _).
    apply padded_operand_specs_Ok in Hp.
    destruct Hp as (a0 & a1 & a2 & E0 & E1 & E2 & -> & -> & -> & Hb).
    exists a0, a1, a2, b. cbn [fst] in Hb. auto 10. }
  intros Operand Grad impl psum has_bias has_dbias layout mesh arg_shapes
    m f outs shs H.
  unfold _dot_product_attention_bwd_partition in H.
  inv_bind H as o Eo. injection H as <- <- <- <-.
  apply infer_bwd_output_sharding_Ok in Eo.
  destruct Eo as (q & k & v & b & Hp & Hc & Ho & Hd).
  apply padded_operand_specs_Ok in Hp.
  destruct Hp as (a0 & a1 & a2 & E0 & E1 & E2 & -> & -> & -> & Hb).
  exists a0, a1, a2, b.
  repeat (split; [assumption || reflexivity |]).
  split.
  - intros ->. intros args. unfold sharded_impl.
    destruct (impl layout args); reflexivity.
  - intros ->. intros args grads sh batch_axis rest local_dbias global_dbias
      Hi Hs Hspec Hl Hpsum.
    unfold sharded_impl. rewrite Hi, bind_Ok_eq.
    assert (Es : getitem (map sharding arg_shapes) 0 = Ok (Some sh)).
    { apply getitem_Ok. rewrite nth_error_map, E0. simpl. rewrite Hs.
      reflexivity. }
    apply getitem_Ok in Hl.
    rewrite Es, bind_Ok_eq, bind_Ok_eq, Hspec. cbn [getitem nth_error].
    rewrite bind_Ok_eq, Hl, bind_Ok_eq, Hpsum. reflexivity.
Qed.

Lemma partitioner_spec_witness :
  sharded_impl unit (list Z)
    (fun _ _ => Ok [[1; 2]; [3; 4]; [5; 6]; [10; 20]])
    (psum_all_shards [("dp", 2); ("tp", 1)]) (true, true) (LInt 0)
    [ Some (mkNamedSharding [("dp", 2); ("tp", 1)] sample_spec);
      Some (mkNamedSharding [("dp", 2); ("tp", 1)] sample_spec);
      Some (mkNamedSharding [("dp", 2); ("tp", 1)] sample_spec);
      None ] []
  = Ok [[1; 2]; [3; 4]; [5; 6]; [30; 30]].
Proof.
  destruct (proj2 (proj2 partitioner_spec) unit (list Z)
              (fun _ _ => Ok [[1; 2]; [3; 4]; [5; 6]; [10; 20]])
              (psum_all_shards [("dp", 2); ("tp", 1)]) true true (LInt 0)
              [("dp", 2); ("tp", 1)]
              [ mkArgInfo (Some (mkNamedSharding [("dp", 2); ("tp", 1)] sample_spec)) 4;
                mkArgInfo (Some (mkNamedSharding [("dp", 2); ("tp", 1)] sample_spec)) 4;
                mkArgInfo (Some (mkNamedSharding [("dp", 2); ("tp", 1)] sample_spec)) 4;
                mkArgInfo None 4 ]
              _ _ _ _ eq_refl)
    as (query & key & value & bias_spec & Hq & _ & _ & _ & _ & _ & _ & _ & _
        & _ & Hpsum).
  injection Hq as <-.
  exact (Hpsum eq_refl [] _ _ (AxisName "dp")
           [Unsharded; AxisName "tp"; Unsharded] [10; 20] [30; 30]
           eq_refl eq_refl eq_refl eq_refl eq_refl).
Defined.

(** The bias need not be sharded like the query: a bias that is sharded on
    no axis is accepted next to a query sharded on batch and heads, although
    its batch and head entries differ from those of the query.  And
    acceptance does not secure the reduction: operands whose shardings carry
    the empty spec are accepted with [has_dbias], yet the partitioned
    implementation fails on the spec of the query, before any [psum]. *)
Lemma unsharded_bias_accepted :
  _check_qkv_bias_mask_spec sample_spec sample_spec sample_spec
    (Some [Unsharded; Unsharded; Unsharded; Unsharded]) = Ok tt /\
  is_ok (_infer_bwd_output_sharding [("dp", 2); ("tp", 1)]
           [ mkArgInfo (Some (mkNamedSharding [("dp", 2); ("tp", 1)] sample_spec)) 4;
             mkArgInfo (Some (mkNamedSharding [("dp", 2); ("tp", 1)] sample_spec)) 4;
             mkArgInfo (Some (mkNamedSharding [("dp", 2); ("tp", 1)] sample_spec)) 4;
             mkArgInfo None 4 ]
           (true, true)) = true /\
  nth 0 [Unsharded; Unsharded; Unsharded; Unsharded] Unsharded
    <> nth 0 sample_spec Unsharded /\
  nth 1 [Unsharded; Unsharded; Unsharded; Unsharded] Unsharded
    <> nth 2 sample_spec Unsharded /\
  exists f outs shs,
    _dot_product_attention_bwd_partition unit (list Z)
      (fun _ _ => Ok [[1; 2]; [3; 4]; [5; 6]; [10; 20]])
      (psum_all_shards [("dp", 2)]) (true, true) (LInt 0) [("dp", 2)]
      [ mkArgInfo (Some (mkNamedSharding [("dp", 2)] [])) 4;
        mkArgInfo (Some (mkNamedSharding [("dp", 2)] [])) 4;
        mkArgInfo (Some (mkNamedSharding [("dp", 2)] [])) 4;
        mkArgInfo (Some (mkNamedSharding [("dp", 2)] [])) 4 ]
    = Ok ([("dp", 2)], f, outs, shs) /\
    f [] = Err IndexError.
Proof.
  split; [reflexivity |]. split; [reflexivity |].
  split; [simpl; intros E; discriminate E |].
  split; [simpl; intros E; discriminate E |].
  eexists. eexists. eexists. split; reflexivity.
Qed.

(** A query sharded on heads only is accepted as well, and the reduction
    over its first entry, which names no mesh axis, is not defined. *)
Example head_only_sharding_has_no_batch_axis :
  is_ok (_infer_bwd_output_sharding [("tp", 2)]
           [ mkArgInfo (Some (mkNamedSharding [("tp", 2)]
                                [Unsharded; Unsharded; AxisName "tp"])) 4;
             mkArgInfo (Some (mkNamedSharding [("tp", 2)]
                                [Unsharded; Unsharded; AxisName "tp"])) 4;
             mkArgInfo (Some (mkNamedSharding [("tp", 2)]
                                [Unsharded; Unsharded; AxisName "tp"])) 4;
             mkArgInfo None 4 ]
           (true, true)) = true /\
  sharded_impl unit (list Z)
    (fun _ _ => Ok [[1; 2]; [3; 4]; [5; 6]; [10; 20]])
    (psum_all_shards [("tp", 2)]) (true, true) (LInt 0)
    [ Some (mkNamedSharding [("tp", 2)]
              [Unsharded; Unsharded; AxisName "tp"]) ] []
  = Err (NameError "unbound axis name").
Proof. split; reflexivity. Qed.

(** The check is positional and the rules drop the layout they receive: for
    operands in the layout BNTH it is the head axis that must be unsharded,
    and a sharded sequence axis passes. *)
Example partitioner_reads_BNTH_heads_as_sequence :
  _check_qkv_bias_mask_spec
    (spec_by_layout BNTH [AxisName "dp"] (AxisName "tp") Unsharded Unsharded)
    (spec_by_layout BNTH [AxisName "dp"] (AxisName "tp") Unsharded Unsharded)
    (spec_by_layout BNTH [AxisName "dp"] (AxisName "tp") Unsharded Unsharded)
    None
  = Err (ValueError "Sharding on sequence dim is not allowed.") /\
  _check_qkv_bias_mask_spec
    (spec_by_layout BNTH [AxisName "dp"] Unsharded (AxisName "sp") Unsharded)
    (spec_by_layout BNTH [AxisName "dp"] Unsharded (AxisName "sp") Unsharded)
    (spec_by_layout BNTH [AxisName "dp"] Unsharded (AxisName "sp") Unsharded)
    None
  = Ok tt.
Proof. split; reflexivity. Qed.

Example sharded_sequence_axis_rejected :
  _check_qkv_bias_mask_spec
    [AxisName "dp"; AxisName "sp"; Unsharded; Unsharded]
    [AxisName "dp"; AxisName "sp"; Unsharded; Unsharded]
    [AxisName "dp"; AxisName "sp"; Unsharded; Unsharded] None
  = Err (ValueError "Sharding on sequence dim is not allowed.").
Proof. reflexivity. Qed.

Example mismatched_bias_batch_rejected :
  _check_qkv_bias_mask_spec sample_spec sample_spec sample_spec
    (Some [AxisName "tp"; Unsharded; Unsharded; Unsharded])
  = Err (ValueError
           "Query and bias should have same sharding on batch and num_head dim.").
Proof. reflexivity. Qed.

Example forward_activation_sharding :
  _infer_fwd_output_sharding [("dp", 2); ("tp", 1)]
    [ mkArgInfo (Some (mkNamedSharding [("dp", 2); ("tp", 1)] sample_spec)) 4;
      mkArgInfo (Some (mkNamedSharding [("dp", 2); ("tp", 1)] sample_spec)) 4;
      mkArgInfo (Some (mkNamedSharding [("dp", 2); ("tp", 1)] sample_spec)) 4 ]
    (false, false) true
  = Ok [ mkNamedSharding [("dp", 2); ("tp", 1)] sample_spec;
         mkNamedSharding [("dp", 2); ("tp", 1)]
           [AxisName "dp"; AxisName "tp"; Unsharded; Unsharded] ].
Proof. reflexivity. Qed.


(** ** Batching rule (forward) *)

Lemma check_valid_batch_dims_spec (bdims : list bdim) :
  (_check_valid_batch_dims bdims = Ok tt <->
   Forall (fun d => d = None \/ d = Some 0) bdims) /\
  (_check_valid_batch_dims bdims = Ok tt \/
   _check_valid_batch_dims bdims =
     Err (NotImplementedError "Currently only support batch_dim in [0, None]")).
Proof.
  induction bdims as [| d bdims [IH1 IH2]]; simpl.
  - split; [split; auto | left; reflexivity].
  - destruct d as [d |]; simpl.
    + destruct (Z.eqb_spec d 0) as [-> | N]; simpl.
      * split; [| exact IH2]. rewrite IH1. split.
        -- intros F. constructor; auto.
        -- intros F. inversion F; assumption.
      * split; [| right; reflexivity]. split; [discriminate |].
        intros F. inversion F as [| ? ? [C | C] ?]; [discriminate C |].
        injection C as C. contradiction.
    + split; [| exact IH2]. rewrite IH1. split.
      * intros F. constructor; auto.
      * intros F. inversion F; assumption.
Qed.

(** The bind written in the batcher passes seven keyword parameters; the
    window length is not among them. *)
Lemma fwd_batcher_call_site_Ok query key value bias q_seqlen kv_seqlen
    batch_dims scale seed dropout_rate variadic_args mask_type layout
    sliding_window_length is_training site :
  fwd_batcher_call_site query key value bias q_seqlen kv_seqlen batch_dims
    scale seed dropout_rate variadic_args mask_type layout
    sliding_window_length is_training = Ok site ->
  Forall (fun d => d = None \/ d = Some 0) batch_dims /\
  primitive (site_bind site) = fwd_wrapper_name /\
  kwargs (site_bind site) =
    [ ("scale", PFloat scale); ("seed", PInt seed);
      ("dropout_rate", PFloat dropout_rate);
      ("variadic_args", PBools (fst variadic_args) (snd variadic_args));
      ("mask_type", PMaskType mask_type); ("layout", PLayout layout);
      ("is_training", PBool is_training) ] /\
  site_original_shape site = shape query /\
  exists q k v b qs ks,
    args (site_bind site) = [q; k; v; b; qs; ks] /\
    shape q = prod (site_Bs site) :: last3 (shape query) /\
    shape k = prod (site_Bs site) :: last3 (shape key) /\
    prod (shape q) = prod (shape query) /\
    prod (shape k) = prod (shape key) /\
    prod (shape v) = prod (shape value).
Proof.
  unfold fwd_batcher_call_site. intros H.
  inv_check H as Ev. inv_bind H as query_bdim Eq.
  apply bind_Ok_inv in H. destruct H as [[[[Bs N] T] S_] [Ed H]].
  destruct variadic_args as [has_bias has_dbias].
  inv_bind H as q Erq. inv_bind H as k Erk. inv_bind H as v Erv.
  inv_bind H as bias_bdim Ebd. inv_bind H as b Erb.
  apply bind_Ok_inv in H. destruct H as [[qs ks] [Es H]].
  injection H as <-. cbn [site_bind site_original_shape site_Bs primitive kwargs args].
  split; [apply check_valid_batch_dims_spec; exact Ev |].
  split; [reflexivity |]. split; [reflexivity |]. split; [reflexivity |].
  exists q, k, v, b, qs, ks. split; [reflexivity |].
  unfold jnp_reshape in Erq, Erk, Erv.
  destruct (prod (shape query) =? prod ([prod Bs] ++ last3 (shape query)))
    eqn:Pq; [| discriminate Erq].
  destruct (prod (shape key) =? prod ([prod Bs] ++ last3 (shape key)))
    eqn:Pk; [| discriminate Erk].
  injection Erq as <-. injection Erk as <-.
  cbn [shape] in *.
  destruct (prod (shape value) =? _) eqn:Pv; [| discriminate Erv].
  injection Erv as <-. cbn [shape].
  apply Z.eqb_eq in Pq, Pk, Pv.
  repeat split; try reflexivity; symmetry; assumption.
Qed.

(** Whatever it is given, the batcher does not complete a dispatch: the
    abstract evaluation rule of the wrapper primitive requires the keyword
    [sliding_window_length], which the bind does not pass. *)
Lemma fwd_batcher_never_dispatches query key value bias q_seqlen kv_seqlen
    batch_dims scale seed dropout_rate variadic_args mask_type layout
    sliding_window_length is_training :
  is_ok (_dot_product_attention_fwd_batcher query key value bias q_seqlen
           kv_seqlen batch_dims scale seed dropout_rate variadic_args
           mask_type layout sliding_window_length is_training) = false.
Proof.
  unfold _dot_product_attention_fwd_batcher.
  destruct (fwd_batcher_call_site query key value bias q_seqlen kv_seqlen
              batch_dims scale seed dropout_rate variadic_args mask_type
              layout sliding_window_length is_training) as [site |] eqn:Es;
    [| reflexivity].
  apply fwd_batcher_call_site_Ok in Es.
  destruct Es as (_ & _ & Hk & _ & q & k & v & b & qs & ks & Ha & _).
  rewrite bind_Ok_eq.
  unfold _dot_product_attention_fwd_p_wrapper_bind. rewrite Ha, Hk.
  reflexivity.
Qed.

(** C7, at a failing input.  Query, key and value carry two leading batch
    axes (3 and 2) and the window length is 3.  The batcher flattens the
    operands to batch size 6 and builds its bind without the keyword
    [sliding_window_length], whereas the unbatched operator passes it; the
    abstract evaluation rule then rejects the bind. *)
Theorem fwd_batcher_drops_sliding_window_length :
  (exists site,
     fwd_batcher_call_site batched_query batched_key batched_value
       placeholder placeholder placeholder
       [Some 0; Some 0; Some 0; None; None; None]
       1 42 0 (false, false) NO_MASK (LInt 0) (Some 3) false = Ok site /\
     map shape (args (site_bind site)) =
       [[6; 16; 8; 64]; [6; 32; 8; 64]; [6; 32; 8; 64]; [0]; [0]; [0]] /\
     map fst (kwargs (site_bind site)) = batcher_keywords /\
     kwargs_get (kwargs (site_bind site)) "sliding_window_length" = None) /\
  _dot_product_attention_fwd_batcher batched_query batched_key batched_value
    placeholder placeholder placeholder
    [Some 0; Some 0; Some 0; None; None; None]
    1 42 0 (false, false) NO_MASK (LInt 0) (Some 3) false
  = Err (TypeError "missing required keyword-only argument") /\
  (exists b out,
     _dot_product_attention_fwd
       (mkArray [6; 16; 8; 64] float16 (Input "query"))
       (mkArray [6; 32; 8; 64] float16 (Input "key"))
       (mkArray [6; 32; 8; 64] float16 (Input "value"))
       placeholder placeholder placeholder
       1 42 0 (false, false) NO_MASK (LInt 0) (Some 3) 8904 = Ok (b, out) /\
     kwargs_get (kwargs b) "sliding_window_length" = Some (PInt 3)).
Proof.
  split; [| split].
  - eexists. split; [vm_compute; reflexivity |].
    repeat split; reflexivity.
  - vm_compute. reflexivity.
  - eexists. eexists. split; [vm_compute; reflexivity | reflexivity].
Qed.

Example fwd_batcher_rejects_batch_dim_1 :
  _dot_product_attention_fwd_batcher batched_query batched_key batched_value
    placeholder placeholder placeholder
    [Some 1; Some 0; Some 0; None; None; None]
    1 42 0 (false, false) NO_MASK (LInt 0) None false
  = Err (NotImplementedError "Currently only support batch_dim in [0, None]").
Proof. reflexivity. Qed.


(** * Further properties *)

(** ** Padded specs and inferred shardings *)

(** X1.  [_get_padded_spec] succeeds exactly when the spec is not longer
    than the rank; the result then has one entry per axis, starts with the
    given spec and is unsharded on every further axis.  The only error is
    the failed assertion. *)
Theorem get_padded_spec_spec (a : ArgInfo) :
  (is_ok (_get_padded_spec a) = true <->
   match sharding a with
   | None => True
   | Some sh => (List.length (spec sh) <= ndim a)%nat
   end) /\
  (forall s,
     _get_padded_spec a = Ok s ->
     List.length s = ndim a /\
     exists k,
       s = match sharding a with None => [] | Some sh => spec sh end
           ++ repeat Unsharded k) /\
  (forall e, _get_padded_spec a = Err e -> e = AssertionError).
Proof.
  unfold _get_padded_spec. destruct (sharding a) as [sh |].
  - destruct (Nat.leb_spec (List.length (spec sh)) (ndim a)) as [L | L];
      cbn [negb raise_if bind is_ok].
    + split; [tauto |]. split; [| intros e E; discriminate E].
      intros s E. injection E as <-. split.
      * rewrite length_app, repeat_length. lia.
      * eexists. reflexivity.
    + split; [split; [discriminate | lia] |].
      split; [intros s E; discriminate E |].
      intros e E. injection E as <-. reflexivity.
  - cbn [is_ok]. split; [tauto |]. split; [| intros e E; discriminate E].
    intros s E. injection E as <-. split.
    + apply repeat_length.
    + exists (ndim a). reflexivity.
Qed.

Lemma get_padded_spec_spec_witness :
  List.length
    [AxisName "dp"; Unsharded; Unsharded; Unsharded] = 4%nat /\
  exists k,
    [AxisName "dp"; Unsharded; Unsharded; Unsharded]
    = [AxisName "dp"] ++ repeat Unsharded k.
Proof.
  exact (proj1 (proj2 (get_padded_spec_spec
                         (mkArgInfo
                            (Some (mkNamedSharding [("dp", 2)]
                                     [AxisName "dp"])) 4)))
           _ eq_refl).
Defined.

(** X2.  For operands in the layout BTNH, in training mode, an accepted
    forward partition returns two shardings: the padded spec of the query,
    which is unsharded on the sequence and head-size axes, for the output;
    and, for the softmax statistics of shape (batch, heads, length), the
    batch entries and the head entry of the query followed by an unsharded
    entry, and one more unsharded entry. *)
Theorem fwd_training_activation_sharding has_bias has_dbias mesh arg_shapes
    m outs shs :
  _dot_product_attention_fwd_partition (has_bias, has_dbias) (LInt 0) true
    mesh arg_shapes = Ok (m, outs, shs) ->
  exists query batch_spec num_head_spec,
    nth_error arg_shapes 0 = Some query /\
    padded query
      = spec_by_layout BTNH batch_spec num_head_spec Unsharded Unsharded /\
    outs =
      [ mkNamedSharding mesh (padded query);
        mkNamedSharding mesh
          (batch_spec ++ [num_head_spec; Unsharded; Unsharded]) ].
Proof.
  unfold _dot_product_attention_fwd_partition, _infer_fwd_output_sharding.
  intros H. inv_bind H as o Eo. injection H as <- <- <-.
  apply bind_Ok_inv in Eo.
  destruct Eo as [[[[q k] v] b] [Ep H]]. inv_check H as Ec.
  apply padded_operand_specs_Ok in Ep.
  destruct Ep as (a0 & a1 & a2 & E0 & _ & _ & -> & _ & _ & _).
  apply check_qkv_bias_mask_spec_iff in Ec.
  destruct Ec as (_ & _ & batch & nh & Eq & _).
  apply bind_Ok_inv in H. destruct H as [[[[bs qs] nh'] hs] [Eu H]].
  apply unpack_star3_Ok in Eu.
  injection H as <-.
  exists a0, batch, nh.
  split; [exact E0 |]. split; [exact Eq |].
  assert (E3 : batch = bs /\ Unsharded = qs /\ nh = nh').
  { rewrite Eq in Eu.
    assert (L : rev (batch ++ [Unsharded; nh; Unsharded])
                = rev (bs ++ [qs; nh'; hs])) by (f_equal; exact Eu).
    rewrite !rev_app_distr in L. simpl in L.
    injection L as _ E1 E2 E3. apply (f_equal (@rev PEntry)) in E3.
    rewrite !rev_involutive in E3. auto. }
  destruct E3 as (<- & <- & <-). reflexivity.
Qed.

Lemma fwd_training_activation_sharding_witness :
  exists query batch_spec num_head_spec,
    nth_error
      [ mkArgInfo (Some (mkNamedSharding [("dp", 2); ("tp", 1)]
                           [AxisName "dp"; Unsharded; AxisName "tp"])) 4;
        mkArgInfo (Some (mkNamedSharding [("dp", 2); ("tp", 1)] sample_spec)) 4;
        mkArgInfo (Some (mkNamedSharding [("dp", 2); ("tp", 1)] sample_spec)) 4 ]
      0 = Some query /\
    padded query
      = spec_by_layout BTNH batch_spec num_head_spec Unsharded Unsharded /\
    [ mkNamedSharding [("dp", 2); ("tp", 1)] sample_spec;
      mkNamedSharding [("dp", 2); ("tp", 1)]
        [AxisName "dp"; AxisName "tp"; Unsharded; Unsharded] ] =
    [ mkNamedSharding [("dp", 2); ("tp", 1)] (padded query);
      mkNamedSharding [("dp", 2); ("tp", 1)]
        (batch_spec ++ [num_head_spec; Unsharded; Unsharded]) ].
Proof.
  exact (fwd_training_activation_sharding false false [("dp", 2); ("tp", 1)]
           [ mkArgInfo (Some (mkNamedSharding [("dp", 2); ("tp", 1)]
                                [AxisName "dp"; Unsharded; AxisName "tp"])) 4;
             mkArgInfo (Some (mkNamedSharding [("dp", 2); ("tp", 1)] sample_spec)) 4;
             mkArgInfo (Some (mkNamedSharding [("dp", 2); ("tp", 1)] sample_spec)) 4 ]
           _ _ _ eq_refl).
Defined.

(** X3.  With [has_dbias], the partitioned backward implementation succeeds
    exactly when the local implementation returns at least four gradients,
    the sharding of the query is present with a non-empty spec, and [psum]
    of the fourth gradient over the first entry of that spec succeeds; it
    then returns exactly four gradients, the last being the reduced one.  An
    error of [psum] is the error of the call.  A query whose sharding
    carries the empty spec makes it fail with an index error, a query
    without sharding with an attribute error. *)
Theorem sharded_impl_dbias_outcome (Operand Grad : Type)
    (impl : layout_arg -> list Operand -> result (list Grad))
    (psum : Grad -> PEntry -> result Grad) (has_bias : bool)
    (layout : layout_arg)
    (arg_shardings : list (option NamedSharding)) (args : list Operand) :
  (forall r,
     sharded_impl Operand Grad impl psum (has_bias, true) layout arg_shardings
       args = Ok r <->
     exists grads sh batch_spec local_dbias global_dbias,
       impl layout args = Ok grads /\
       nth_error arg_shardings 0 = Some (Some sh) /\
       nth_error (spec sh) 0 = Some batch_spec /\
       nth_error grads 3 = Some local_dbias /\
       psum local_dbias batch_spec = Ok global_dbias /\
       r = firstn 3 grads ++ [global_dbias] /\
       List.length r = 4%nat) /\
  (forall grads sh batch_spec local_dbias e,
     impl layout args = Ok grads ->
     nth_error arg_shardings 0 = Some (Some sh) ->
     nth_error (spec sh) 0 = Some batch_spec ->
     nth_error grads 3 = Some local_dbias ->
     psum local_dbias batch_spec = Err e ->
     sharded_impl Operand Grad impl psum (has_bias, true) layout arg_shardings
       args = Err e) /\
  (forall grads mesh rest,
     impl layout args = Ok grads ->
     arg_shardings = Some (mkNamedSharding mesh []) :: rest ->
     sharded_impl Operand Grad impl psum (has_bias, true) layout arg_shardings
       args = Err IndexError) /\
  (forall grads rest,
     impl layout args = Ok grads ->
     arg_shardings = None :: rest ->
     sharded_impl Operand Grad impl psum (has_bias, true) layout arg_shardings
       args = Err AttributeError).
Proof.
  split; [| split; [| split]].
  - intros r. unfold sharded_impl. split.
    + intros H. inv_bind H as grads Eg. inv_bind H as osh Es.
      inv_bind H as qs Eqs. inv_bind H as bs Eb. inv_bind H as ld El.
      inv_bind H as gd Ep.
      injection H as <-.
      destruct osh as [sh |]; [| discriminate Eqs]. injection Eqs as <-.
      apply getitem_Ok in Es, Eb, El.
      exists grads, sh, bs, ld, gd.
      split; [exact Eg |]. split; [exact Es |]. split; [exact Eb |].
      split; [exact El |]. split; [exact Ep |]. split; [reflexivity |].
      destruct grads as [| g0 [| g1 [| g2 [| g3 rest]]]]; try discriminate El.
      reflexivity.
    + intros (grads & sh & bs & ld & gd & Eg & Es & Eb & El & Ep & -> & _).
      apply getitem_Ok in Es, Eb, El.
      rewrite Eg, bind_Ok_eq, Es, bind_Ok_eq, bind_Ok_eq, Eb, bind_Ok_eq,
        El, bind_Ok_eq, Ep.
      reflexivity.
  - intros grads sh bs ld e Eg Es Eb El Ep. unfold sharded_impl.
    apply getitem_Ok in Es, Eb, El.
    rewrite Eg, bind_Ok_eq, Es, bind_Ok_eq, bind_Ok_eq, Eb, bind_Ok_eq,
      El, bind_Ok_eq, Ep.
    reflexivity.
  - intros grads mesh rest Eg ->. unfold sharded_impl.
    rewrite Eg. reflexivity.
  - intros grads rest Eg ->. unfold sharded_impl. rewrite Eg. reflexivity.
Qed.

Lemma sharded_impl_dbias_outcome_witness :
  sharded_impl unit (list Z)
    (fun _ _ => Ok [[1; 2]; [3; 4]; [5; 6]; [10; 20]])
    (psum_all_shards [("tp", 2)]) (true, true) (LInt 0)
    [Some (mkNamedSharding [("tp", 2)] [Unsharded; Unsharded; AxisName "tp"])]
    []
  = Err (NameError "unbound axis name").
Proof.
  exact (proj1 (proj2 (sharded_impl_dbias_outcome unit (list Z)
                         (fun _ _ => Ok [[1; 2]; [3; 4]; [5; 6]; [10; 20]])
                         (psum_all_shards [("tp", 2)]) true (LInt 0)
                         [Some (mkNamedSharding [("tp", 2)]
                                  [Unsharded; Unsharded; AxisName "tp"])] []))
           _ _ _ _ _ eq_refl eq_refl eq_refl eq_refl eq_refl).
Defined.

(** X4.  Whenever the backward inference accepts, the gradients of query,
    key and value all take one and the same sharding, on the given mesh;
    there are three or four output shardings according to [has_dbias]; and
    the forward inference accepts the same operands and returns that
    sharding for the output. *)
Theorem bwd_gradient_shardings_coincide mesh arg_shapes has_bias has_dbias
    outs :
  _infer_bwd_output_sharding mesh arg_shapes (has_bias, has_dbias) = Ok outs ->
  exists s,
    nth_error outs 0 = Some s /\ nth_error outs 1 = Some s /\
    nth_error outs 2 = Some s /\ ns_mesh s = mesh /\
    List.length outs = (if has_dbias then 4 else 3)%nat /\
    _infer_fwd_output_sharding mesh arg_shapes (has_bias, has_dbias) false
      = Ok [s].
Proof.
  intros H. apply infer_bwd_output_sharding_Ok in H.
  destruct H as (q & k & v & b & Ep & Ec & -> & Hb).
  pose proof Ec as Ec'. apply check_qkv_bias_mask_spec_iff in Ec'.
  destruct Ec' as (<- & _ & _).
  exists (mkNamedSharding mesh q).
  repeat split; try reflexivity.
  - destruct has_dbias; [| reflexivity].
    destruct b as [bs |]; [reflexivity |].
    exfalso. apply Hb; reflexivity.
  - unfold _infer_fwd_output_sharding. rewrite Ep, bind_Ok_eq.
    cbv beta iota. rewrite Ec. reflexivity.
Qed.

Lemma bwd_gradient_shardings_coincide_witness :
  exists s,
    nth_error
      [ mkNamedSharding [("dp", 2); ("tp", 1)] sample_spec;
        mkNamedSharding [("dp", 2); ("tp", 1)] sample_spec;
        mkNamedSharding [("dp", 2); ("tp", 1)] sample_spec ] 1 = Some s /\
    ns_mesh s = [("dp", 2); ("tp", 1)].
Proof.
  destruct (bwd_gradient_shardings_coincide [("dp", 2); ("tp", 1)]
              [ mkArgInfo (Some (mkNamedSharding [("dp", 2); ("tp", 1)] sample_spec)) 4;
                mkArgInfo (Some (mkNamedSharding [("dp", 2); ("tp", 1)] sample_spec)) 4;
                mkArgInfo (Some (mkNamedSharding [("dp", 2); ("tp", 1)] sample_spec)) 4 ]
              false false _ eq_refl)
    as (s & _ & H1 & _ & Hm & _).
  exists s. split; [exact H1 | exact Hm].
Defined.


(** ** Custom-call emitter (backward) and declared types *)

(** X5.  No two triples share a call target, and the backward target of a
    pair (bias, dropout) is its forward target followed by [Backward]. *)
Theorem custom_call_names_distinct :
  (forall b d w b' d' w',
     get_custom_call_name b d w = get_custom_call_name b' d' w' ->
     b = b' /\ d = d' /\ w = w') /\
  (forall b d fwd,
     get_custom_call_name b d false = Ok fwd ->
     get_custom_call_name b d true = Ok (fwd ++ "Backward")%string).
Proof.
  split.
  - intros [] [] [] [] [] [] E; try (repeat split; reflexivity);
      vm_compute in E; discriminate E.
  - intros [] [] fwd E; vm_compute in E; injection E as <-; reflexivity.
Qed.

Lemma custom_call_names_distinct_witness :
  get_custom_call_name true false true
  = Ok "__cudnn$fmhaScaleBiasSoftmaxBackward".
Proof.
  exact (proj2 custom_call_names_distinct true false _ eq_refl).
Defined.

(** The backward lowering in closed form, for rank-4 query and key. *)
Lemma bwd_lowering_eq (l : AttentionLayout) (B N T H kB kN S_ kH : Z)
    (dt kdt : DType) (tq tk : Term)
    (value bias q_seqlen kv_seqlen activation fwd_output grad_output : Array)
    (scale : Q) (seed : Z) (dropout_rate : Q) (has_bias has_dbias : bool)
    (mask_type : MaskType) (sliding_window_length : option Z)
    (cfg : json) (name : string) :
  let query := mkArray (by_layout l B N T H) dt tq in
  let key := mkArray (by_layout l kB kN S_ kH) kdt tk in
  let operands :=
    [query; key; value; activation; grad_output]
      ++ (if has_bias then [bias] else []) ++ [fwd_output]
      ++ (if has_padding mask_type then [q_seqlen; kv_seqlen] else []) in
  let perm := match l with BTNH => [0; 2; 1; 3] | BNTH => [0; 1; 2; 3] end in
  let grad_layout :=
    match l with BTNH => [3; 1; 2; 0] | BNTH => [3; 2; 1; 0] end in
  create_dot_product_attention_backend_config B N T S_ dt scale seed
    dropout_rate mask_type (LInt (layout_value l)) sliding_window_length
    true = Ok cfg ->
  name_map_lookup _custom_name_maps (true, Qgtb0 dropout_rate, has_bias)
    = Ok name ->
  _dot_product_attention_bwd_cuda_lowering query key value bias q_seqlen
    kv_seqlen activation fwd_output grad_output scale seed dropout_rate
    (has_bias, has_dbias) mask_type (LInt (layout_value l))
    sliding_window_length =
  Ok (mkCustomCall name
        ([ mkTensorType [B; N; T; H] dt;
           mkTensorType [B; kN; S_; H] kdt;
           mkTensorType [B; kN; S_; H] (dtype value) ]
           ++ (if has_dbias
               then [mkTensorType (shape bias) (dtype bias)] else [])
           ++ [mkTensorType [0] uint8])
        operands cfg
        (default_layouts (map shape operands))
        ([grad_layout; grad_layout; grad_layout]
           ++ (if has_dbias
               then [descending (List.length (shape bias))] else [])
           ++ [[0]]),
      [ Transpose (CallResult 0) perm; Transpose (CallResult 1) perm;
        Transpose (CallResult 2) perm ]
        ++ (if has_dbias then [CallResult 3] else [])).
Proof.
  intros query key operands perm grad_layout Hcfg Hname.
  unfold _dot_product_attention_bwd_cuda_lowering, get_custom_call_name.
  subst query key operands perm grad_layout. cbn [shape dtype].
  destruct l; cbn [layout_value] in *;
    cbn [layout_arg_eqb Z.eqb Pos.eqb by_layout unpack4];
    rewrite !bind_Ok_eq; cbv beta iota;
    rewrite Hcfg, !bind_Ok_eq; cbv beta iota; rewrite Hname, !bind_Ok_eq;
    cbv beta iota;
    destruct has_bias, (has_padding mask_type), has_dbias; reflexivity.
Qed.

(** X6.  For rank-4 query and key of a supported element type the backward
    emitter always succeeds.  It calls the backward target for its bias flag
    and for whether the dropout rate is positive.  Its operands are query,
    key, value, the saved activation and the output gradient, then the bias
    only when [has_bias], then the forward output, then both
    sequence-length vectors only when the mask type is one of the two
    padding types.  It declares the three gradients in native shape (the key
    and value gradients with the batch and head size of the query), the
    bias gradient only when [has_dbias], and the workspace.  It returns
    results 0, 1 and 2, the gradients of query, key and value, each
    transposed back to the requested layout, followed when [has_dbias] by
    result 3, the bias gradient, as it is. *)
Theorem bwd_lowering_spec (l : AttentionLayout) (B N T H kB kN S_ kH : Z)
    (dt kdt : DType) (tq tk : Term)
    (value bias q_seqlen kv_seqlen activation fwd_output grad_output : Array)
    (scale : Q) (seed : Z) (dropout_rate : Q) (has_bias has_dbias : bool)
    (mask_type : MaskType) (sliding_window_length : option Z) :
  dt = bfloat16 \/ dt = float16 ->
  let layout := match l with BTNH => LInt 0 | BNTH => LInt 1 end in
  let query :=
    mkArray (match l with BTNH => [B; T; N; H] | BNTH => [B; N; T; H] end)
      dt tq in
  let key :=
    mkArray (match l with BTNH => [kB; S_; kN; kH] | BNTH => [kB; kN; S_; kH] end)
      kdt tk in
  let operands :=
    [query; key; value; activation; grad_output]
      ++ (if has_bias then [bias] else []) ++ [fwd_output]
      ++ (match mask_type with
          | PADDING | PADDING_CAUSAL => [q_seqlen; kv_seqlen]
          | _ => []
          end) in
  let minor_to_major (a : list Z) :=
    rev (map Z.of_nat (seq 0 (List.length a))) in
  let perm := match l with BTNH => [0; 2; 1; 3] | BNTH => [0; 1; 2; 3] end in
  let grad_layout :=
    match l with BTNH => [3; 1; 2; 0] | BNTH => [3; 2; 1; 0] end in
  exists cfg name,
    create_dot_product_attention_backend_config B N T S_ dt scale seed
      dropout_rate mask_type layout sliding_window_length true = Ok cfg /\
    ((0 < dropout_rate)%Q ->
     name = if has_bias then "__cudnn$fmhaScaleBiasSoftmaxDropoutBackward"
            else "__cudnn$fmhaSoftmaxDropoutBackward") /\
    ((dropout_rate <= 0)%Q ->
     name = if has_bias then "__cudnn$fmhaScaleBiasSoftmaxBackward"
            else "__cudnn$fmhaSoftmaxBackward") /\
    _dot_product_attention_bwd_cuda_lowering query key value bias q_seqlen
      kv_seqlen activation fwd_output grad_output scale seed dropout_rate
      (has_bias, has_dbias) mask_type layout sliding_window_length =
    Ok (mkCustomCall name
          ([ mkTensorType [B; N; T; H] dt;
             mkTensorType [B; kN; S_; H] kdt;
             mkTensorType [B; kN; S_; H] (dtype value) ]
             ++ (if has_dbias
                 then [mkTensorType (shape bias) (dtype bias)] else [])
             ++ [mkTensorType [0] uint8])
          operands cfg
          (map (fun a : Array => minor_to_major (shape a)) operands)
          ([grad_layout; grad_layout; grad_layout]
             ++ (if has_dbias then [minor_to_major (shape bias)] else [])
             ++ [[0]]),
        [ Transpose (CallResult 0) perm; Transpose (CallResult 1) perm;
          Transpose (CallResult 2) perm ]
          ++ (if has_dbias then [CallResult 3] else [])) /\
    map (fun p => nth (Z.to_nat p) [B; N; T; H] 0) perm = shape query /\
    map (fun p => nth (Z.to_nat p) [B; kN; S_; H] 0) perm =
      match l with BTNH => [B; S_; kN; H] | BNTH => [B; kN; S_; H] end.
Proof.
  intros Hdt layout query key operands minor_to_major perm grad_layout.
  assert (Hcfg : exists cfg,
             create_dot_product_attention_backend_config B N T S_ dt scale
               seed dropout_rate mask_type layout
               sliding_window_length true = Ok cfg).
  { rewrite backend_config_eq.
    destruct Hdt as [-> | ->]; eexists; reflexivity. }
  destruct Hcfg as [cfg Hcfg]. exists cfg.
  assert (Hname : exists name,
             name_map_lookup _custom_name_maps
               (true, Qgtb0 dropout_rate, has_bias) = Ok name /\
             ((0 < dropout_rate)%Q ->
              name = if has_bias
                     then "__cudnn$fmhaScaleBiasSoftmaxDropoutBackward"
                     else "__cudnn$fmhaSoftmaxDropoutBackward") /\
             ((dropout_rate <= 0)%Q ->
              name = if has_bias then "__cudnn$fmhaScaleBiasSoftmaxBackward"
                     else "__cudnn$fmhaSoftmaxBackward")).
  { destruct (Qgtb0_spec dropout_rate) as [Ht Hf].
    destruct (Qgtb0 dropout_rate).
    - destruct has_bias; eexists; (split; [reflexivity |]);
        (split; [reflexivity |]);
        intros C; apply Hf in C; discriminate C.
    - destruct has_bias; eexists; (split; [reflexivity |]);
        (split; [| reflexivity]);
        intros C; apply Ht in C; discriminate C. }
  destruct Hname as (name & Hname & Hpos & Hzero). exists name.
  split; [exact Hcfg |]. split; [exact Hpos |]. split; [exact Hzero |].
  split; [| split].
  - unfold _dot_product_attention_bwd_cuda_lowering, get_custom_call_name.
    subst layout query key operands minor_to_major perm grad_layout.
    cbn [shape dtype].
    destruct l;
      cbn [layout_value layout_arg_eqb Z.eqb Pos.eqb unpack4] in *;
      rewrite !bind_Ok_eq; cbv beta iota;
      rewrite Hcfg, !bind_Ok_eq; cbv beta iota; rewrite Hname, !bind_Ok_eq;
      cbv beta iota;
      destruct has_bias, mask_type, has_dbias; reflexivity.
  - subst perm query. destruct l; reflexivity.
  - subst perm. destruct l; reflexivity.
Qed.

Lemma bwd_lowering_spec_witness :
  exists cfg,
    _dot_product_attention_bwd_cuda_lowering
      (mkArray [4; 16; 8; 64] float16 (Input "query"))
      (mkArray [4; 32; 8; 64] float16 (Input "key"))
      (sample_value float16)
      (mkArray [1; 8; 16; 32] float16 (Input "bias"))
      placeholder placeholder
      (mkArray [4; 8; 16] float32 (Input "activation"))
      (sample_query float16) (sample_query float16)
      1 42 0 (true, true) NO_MASK (LInt 0) None
    = Ok (mkCustomCall "__cudnn$fmhaScaleBiasSoftmaxBackward"
            [ mkTensorType [4; 8; 16; 64] float16;
              mkTensorType [4; 8; 32; 64] float16;
              mkTensorType [4; 8; 32; 64] float16;
              mkTensorType [1; 8; 16; 32] float16;
              mkTensorType [0] uint8 ]
            [ mkArray [4; 16; 8; 64] float16 (Input "query");
              mkArray [4; 32; 8; 64] float16 (Input "key");
              sample_value float16;
              mkArray [4; 8; 16] float32 (Input "activation");
              sample_query float16;
              mkArray [1; 8; 16; 32] float16 (Input "bias");
              sample_query float16 ]
            cfg
            [ [3; 2; 1; 0]; [3; 2; 1; 0]; [3; 2; 1; 0]; [2; 1; 0];
              [3; 2; 1; 0]; [3; 2; 1; 0]; [3; 2; 1; 0] ]
            [ [3; 1; 2; 0]; [3; 1; 2; 0]; [3; 1; 2; 0]; [3; 2; 1; 0]; [0] ],
          [ Transpose (CallResult 0) [0; 2; 1; 3];
            Transpose (CallResult 1) [0; 2; 1; 3];
            Transpose (CallResult 2) [0; 2; 1; 3];
            CallResult 3 ]).
Proof.
  destruct (bwd_lowering_spec BTNH 4 8 16 64 4 8 32 64 float16 float16
              (Input "query") (Input "key") (sample_value float16)
              (mkArray [1; 8; 16; 32] float16 (Input "bias"))
              placeholder placeholder
              (mkArray [4; 8; 16] float32 (Input "activation"))
              (sample_query float16) (sample_query float16)
              1%Q 42 0%Q true true NO_MASK None (or_intror eq_refl))
    as (cfg & name & _ & _ & Hz & Hl & _).
  exists cfg. rewrite (Hz (Qle_refl 0)) in Hl. exact Hl.
Defined.

(** The forward lowering in closed form, for rank-4 query and key. *)
Lemma fwd_lowering_eq (l : AttentionLayout) (B N T H kB kN S_ kH : Z)
    (dt kdt : DType) (tq tk : Term) (value bias q_seqlen kv_seqlen : Array)
    (scale : Q) (seed : Z) (dropout_rate : Q) (has_bias has_dbias : bool)
    (mask_type : MaskType) (sliding_window_length : option Z)
    (is_training : bool) (cfg : json) (name : string) :
  let query := mkArray (by_layout l B N T H) dt tq in
  let key := mkArray (by_layout l kB kN S_ kH) kdt tk in
  let operands :=
    [query; key; value] ++ (if has_bias then [bias] else [])
      ++ (if has_padding mask_type then [q_seqlen; kv_seqlen] else []) in
  let perm := match l with BTNH => [0; 2; 1; 3] | BNTH => [0; 1; 2; 3] end in
  create_dot_product_attention_backend_config B N T S_ dt scale seed
    dropout_rate mask_type (LInt (layout_value l)) sliding_window_length
    false = Ok cfg ->
  name_map_lookup _custom_name_maps (false, Qgtb0 dropout_rate, has_bias)
    = Ok name ->
  _dot_product_attention_fwd_cuda_lowering query key value bias q_seqlen
    kv_seqlen scale seed dropout_rate (has_bias, has_dbias) mask_type
    (LInt (layout_value l)) sliding_window_length is_training =
  Ok (mkCustomCall name
        ([mkTensorType [B; N; T; H] dt]
           ++ (if is_training then [mkTensorType [B; N; T] float32] else [])
           ++ [mkTensorType [0] uint8])
        operands cfg
        (default_layouts (map shape operands))
        ([match l with BTNH => [3; 1; 2; 0] | BNTH => [3; 2; 1; 0] end]
           ++ (if is_training then [[2; 1; 0]] else []) ++ [[0]]),
      [Transpose (CallResult 0) perm]
        ++ (if is_training then [CallResult 1] else [])).
Proof.
  intros query key operands perm Hcfg Hname.
  unfold _dot_product_attention_fwd_cuda_lowering, get_custom_call_name.
  subst query key operands perm. cbn [shape dtype].
  destruct l; cbn [layout_value] in *;
    cbn [layout_arg_eqb Z.eqb Pos.eqb by_layout unpack4];
    rewrite !bind_Ok_eq; cbv beta iota;
    rewrite Hcfg, !bind_Ok_eq; cbv beta iota; rewrite Hname, !bind_Ok_eq;
    cbv beta iota;
    destruct has_bias, (has_padding mask_type), is_training; reflexivity.
Qed.

(** X7.  The values returned by the forward lowering have exactly the types
    that the abstract evaluation rule declares for the same operands and
    parameters: the output in the shape and element type of the query and,
    when training, the softmax statistics of shape (B, N, T) in float32. *)
Theorem fwd_lowering_matches_abstract (l : AttentionLayout)
    (B N T H kB kN S_ kH : Z) (dt kdt : DType) (tq tk : Term)
    (value bias q_seqlen kv_seqlen : Array)
    (scale : Q) (seed : Z) (dropout_rate : Q) (variadic_args : bool * bool)
    (mask_type : MaskType) (sliding_window_length : option Z)
    (is_training : bool) :
  dt = bfloat16 \/ dt = float16 ->
  let query := mkArray (by_layout l B N T H) dt tq in
  let key := mkArray (by_layout l kB kN S_ kH) kdt tk in
  let kw :=
    [ ("scale", PFloat scale); ("seed", PInt seed);
      ("dropout_rate", PFloat dropout_rate);
      ("variadic_args", PBools (fst variadic_args) (snd variadic_args));
      ("mask_type", PMaskType mask_type);
      ("layout", PLayout (LInt (layout_value l)));
      ("sliding_window_length", of_optional sliding_window_length);
      ("is_training", PBool is_training) ] in
  exists call outs avals,
    _dot_product_attention_fwd_cuda_lowering query key value bias q_seqlen
      kv_seqlen scale seed dropout_rate variadic_args mask_type
      (LInt (layout_value l)) sliding_window_length is_training
      = Ok (call, outs) /\
    _dot_product_attention_fwd_abstract query key value bias q_seqlen
      kv_seqlen kw = Ok avals /\
    map (lowered_type call) outs = map (fun a => Some (aval_type a)) avals /\
    avals = mkShapedArray (shape query) dt
            :: (if is_training then [mkShapedArray [B; N; T] float32] else []).
Proof.
  intros Hdt query key kw. destruct variadic_args as [has_bias has_dbias].
  assert (Hcfg : exists cfg,
             create_dot_product_attention_backend_config B N T S_ dt scale
               seed dropout_rate mask_type (LInt (layout_value l))
               sliding_window_length false = Ok cfg).
  { rewrite backend_config_eq.
    destruct Hdt as [-> | ->]; eexists; reflexivity. }
  destruct Hcfg as [cfg Hcfg].
  assert (Hname : exists name,
             name_map_lookup _custom_name_maps
               (false, Qgtb0 dropout_rate, has_bias) = Ok name).
  { destruct (Qgtb0 dropout_rate), has_bias; eexists; reflexivity. }
  destruct Hname as [name Hname].
  subst query key kw.
  rewrite (fwd_lowering_eq l B N T H kB kN S_ kH dt kdt tq tk value bias
             q_seqlen kv_seqlen scale seed dropout_rate has_bias has_dbias
             mask_type sliding_window_length is_training cfg name Hcfg Hname).
  destruct l, is_training;
    (eexists; eexists; eexists; split; [reflexivity |]);
    (split; [reflexivity |]); split; reflexivity.
Qed.

Lemma fwd_lowering_matches_abstract_witness :
  exists call outs avals,
    _dot_product_attention_fwd_cuda_lowering
      (mkArray (by_layout BTNH 4 8 16 64) float16 (Input "query"))
      (mkArray (by_layout BTNH 4 8 32 64) float16 (Input "key"))
      (sample_value float16) placeholder placeholder placeholder
      1 42 0 (false, false) NO_MASK (LInt (layout_value BTNH)) None true
    = Ok (call, outs) /\
    map (lowered_type call) outs = map (fun a => Some (aval_type a)) avals /\
    avals = [ mkShapedArray [4; 16; 8; 64] float16;
              mkShapedArray [4; 8; 16] float32 ].
Proof.
  destruct (fwd_lowering_matches_abstract BTNH 4 8 16 64 4 8 32 64 float16
              float16 (Input "query") (Input "key") (sample_value float16)
              placeholder placeholder placeholder 1%Q 42 0%Q (false, false)
              NO_MASK None true (or_intror eq_refl))
    as (call & outs & avals & Hl & _ & Hm & Ha).
  exists call, outs, avals. auto.
Defined.

(** X8.  When key and value have the batch size and head size of the query
    and one common shape, the values returned by the backward lowering have
    exactly the types that the backward abstract evaluation rule declares:
    the shapes and element types of query, key and value, followed by those
    of the bias when [has_dbias]. *)
Theorem bwd_lowering_matches_abstract (l : AttentionLayout)
    (B N T H kN S_ : Z) (dt kdt : DType) (tq tk : Term)
    (value bias q_seqlen kv_seqlen activation fwd_output grad_output : Array)
    (scale : Q) (seed : Z) (dropout_rate : Q) (has_bias has_dbias : bool)
    (mask_type : MaskType) (sliding_window_length : option Z) :
  dt = bfloat16 \/ dt = float16 ->
  shape value = by_layout l B kN S_ H ->
  let query := mkArray (by_layout l B N T H) dt tq in
  let key := mkArray (by_layout l B kN S_ H) kdt tk in
  let kw :=
    [ ("scale", PFloat scale); ("seed", PInt seed);
      ("dropout_rate", PFloat dropout_rate);
      ("variadic_args", PBools has_bias has_dbias);
      ("mask_type", PMaskType mask_type);
      ("layout", PLayout (LInt (layout_value l)));
      ("sliding_window_length", of_optional sliding_window_length) ] in
  exists call outs avals,
    _dot_product_attention_bwd_cuda_lowering query key value bias q_seqlen
      kv_seqlen activation fwd_output grad_output scale seed dropout_rate
      (has_bias, has_dbias) mask_type (LInt (layout_value l))
      sliding_window_length = Ok (call, outs) /\
    _dot_product_attention_bwd_abstract query key value bias q_seqlen
      kv_seqlen activation fwd_output grad_output kw = Ok avals /\
    map (lowered_type call) outs = map (fun a => Some (aval_type a)) avals /\
    avals = [ mkShapedArray (shape query) dt; mkShapedArray (shape key) kdt;
              mkShapedArray (shape value) (dtype value) ]
            ++ (if has_dbias
                then [mkShapedArray (shape bias) (dtype bias)] else []).
Proof.
  intros Hdt Hv query key kw.
  assert (Hcfg : exists cfg,
             create_dot_product_attention_backend_config B N T S_ dt scale
               seed dropout_rate mask_type (LInt (layout_value l))
               sliding_window_length true = Ok cfg).
  { rewrite backend_config_eq.
    destruct Hdt as [-> | ->]; eexists; reflexivity. }
  destruct Hcfg as [cfg Hcfg].
  assert (Hname : exists name,
             name_map_lookup _custom_name_maps
               (true, Qgtb0 dropout_rate, has_bias) = Ok name).
  { destruct (Qgtb0 dropout_rate), has_bias; eexists; reflexivity. }
  destruct Hname as [name Hname].
  subst query key kw.
  rewrite (bwd_lowering_eq l B N T H B kN S_ H dt kdt tq tk value bias
             q_seqlen kv_seqlen activation fwd_output grad_output scale seed
             dropout_rate has_bias has_dbias mask_type sliding_window_length
             cfg name Hcfg Hname).
  unfold _dot_product_attention_bwd_abstract.
  change (check_keywords bwd_keywords _) with (Ok (A := unit) tt).
  rewrite bind_Ok_eq.
  cbn [kwargs_get String.eqb Ascii.eqb Bool.eqb shape dtype].
  destruct has_dbias;
    (eexists; eexists; eexists; split; [reflexivity |]);
    (split; [reflexivity |]); (split; [| reflexivity]);
    cbn [map app lowered_type nth_error result_types tt_shape
         tt_element_type aval_type aval_shape aval_dtype];
    rewrite Hv; destruct l; reflexivity.
Qed.

Lemma bwd_lowering_matches_abstract_witness :
  exists call outs avals,
    _dot_product_attention_bwd_cuda_lowering
      (mkArray (by_layout BTNH 4 8 16 64) float16 (Input "query"))
      (mkArray (by_layout BTNH 4 8 32 64) float16 (Input "key"))
      (sample_value float16)
      (mkArray [1; 8; 16; 32] float16 (Input "bias"))
      placeholder placeholder
      (mkArray [4; 8; 16] float32 (Input "activation"))
      (sample_query float16) (sample_query float16)
      1 42 0 (true, true) NO_MASK (LInt (layout_value BTNH)) None
    = Ok (call, outs) /\
    map (lowered_type call) outs = map (fun a => Some (aval_type a)) avals /\
    List.length avals = 4%nat.
Proof.
  destruct (bwd_lowering_matches_abstract BTNH 4 8 16 64 8 32 float16
              float16 (Input "query") (Input "key") (sample_value float16)
              (mkArray [1; 8; 16; 32] float16 (Input "bias"))
              placeholder placeholder
              (mkArray [4; 8; 16] float32 (Input "activation"))
              (sample_query float16) (sample_query float16)
              1%Q 42 0%Q true true NO_MASK None (or_intror eq_refl) eq_refl)
    as (call & outs & avals & Hl & _ & Hm & Ha).
  exists call, outs, avals. split; [exact Hl |]. split; [exact Hm |].
  rewrite Ha. reflexivity.
Defined.


(** ** Differentiation rule *)

(** The backward rule in closed form. *)
Lemma bwd_rule_eq (scale : Q) (seed : Z) (dropout_rate : Q)
    (has_bias has_dbias : bool) (mask_type : MaskType) (layout : layout_arg)
    (sliding_window_length : option Z) (is_training : Z)
    (query key value bias q_seqlen kv_seqlen activation fwd_output
       grad_output : Array) :
  _dot_product_attention_bwd_rule scale seed dropout_rate
    (has_bias, has_dbias) mask_type layout sliding_window_length is_training
    (query, key, value, bias, q_seqlen, kv_seqlen, activation, fwd_output)
    grad_output =
  Ok (mkBind bwd_wrapper_name
        [ query; key; value; bias; q_seqlen; kv_seqlen; activation;
          fwd_output; grad_output ]
        [ ("scale", PFloat scale); ("seed", PInt seed);
          ("dropout_rate", PFloat dropout_rate);
          ("variadic_args", PBools has_bias has_dbias);
          ("mask_type", PMaskType mask_type); ("layout", PLayout layout);
          ("sliding_window_length", of_optional sliding_window_length) ],
      [ Some (mkArray (shape query) (dtype query)
                (PrimOutput bwd_wrapper_name 0));
        Some (mkArray (shape key) (dtype key)
                (PrimOutput bwd_wrapper_name 1));
        Some (mkArray (shape value) (dtype value)
                (PrimOutput bwd_wrapper_name 2));
        (if has_dbias
         then Some (mkArray (shape bias) (dtype bias)
                      (PrimOutput bwd_wrapper_name 3))
         else None);
        None; None ]).
Proof.
  unfold _dot_product_attention_bwd_rule,
    _dot_product_attention_bwd_p_wrapper_bind. cbn [args kwargs primitive].
  unfold _dot_product_attention_bwd_abstract.
  change (check_keywords bwd_keywords _) with (Ok (A := unit) tt).
  rewrite bind_Ok_eq.
  cbn [kwargs_get String.eqb Ascii.eqb Bool.eqb fst snd].
  destruct has_dbias; reflexivity.
Qed.

(** X9.  The backward rule always dispatches, whatever the residuals, and
    returns exactly six cotangents, one per array argument of the operator:
    gradients with the shapes and element types of query, key and value, a
    gradient with those of the bias exactly when [has_dbias], and no
    gradient for the remaining arguments. *)
Theorem bwd_rule_six_cotangents (scale : Q) (seed : Z) (dropout_rate : Q)
    (has_bias has_dbias : bool) (mask_type : MaskType) (layout : layout_arg)
    (sliding_window_length : option Z) (is_training : Z)
    (query key value bias q_seqlen kv_seqlen activation fwd_output
       grad_output : Array) :
  exists b grads,
    _dot_product_attention_bwd_rule scale seed dropout_rate
      (has_bias, has_dbias) mask_type layout sliding_window_length
      is_training
      (query, key, value, bias, q_seqlen, kv_seqlen, activation, fwd_output)
      grad_output = Ok (b, grads) /\
    List.length grads = 6%nat /\
    map (option_map (fun a : Array => (shape a, dtype a))) grads =
      [ Some (shape query, dtype query); Some (shape key, dtype key);
        Some (shape value, dtype value);
        (if has_dbias then Some (shape bias, dtype bias) else None);
        None; None ] /\
    args b = [ query; key; value; bias; q_seqlen; kv_seqlen; activation;
               fwd_output; grad_output ] /\
    kwargs_get (kwargs b) "sliding_window_length"
      = Some (of_optional sliding_window_length).
Proof.
  rewrite bwd_rule_eq. eexists. eexists. split; [reflexivity |].
  destruct has_dbias; repeat split; reflexivity.
Qed.

Lemma odd_not_supported (T S_ H : Z) (has_bias : bool) :
  T mod 2 <> 0 \/ S_ mod 2 <> 0 ->
  flash_attention_supported T S_ H true true = false.
Proof.
  intros Hodd. unfold flash_attention_supported. cbn [negb orb].
  destruct (Z.eqb_spec (T mod 2) 0) as [E1 | E1];
    destruct (Z.eqb_spec (S_ mod 2) 0) as [E2 | E2];
    cbn [andb]; try apply andb_false_r; tauto.
Qed.

(** X10.  The forward rule used under differentiation rejects every query or
    key of odd sequence length as unsupported, whether or not a bias was
    supplied, whereas the plain forward pass accepts the same operands when
    the head size and the cuDNN version are supported. *)
Theorem fwd_rule_requires_even_lengths (l : AttentionLayout)
    (B N T H kB kN S_ kH : Z) (dt kdt : DType) (tq tk : Term)
    (value bias q_seqlen kv_seqlen : Array)
    (scale : Q) (seed : Z) (dropout_rate : Q) (variadic_args : bool * bool)
    (mask_type : MaskType) (sliding_window_length : option Z)
    (cudnn_version : Z) :
  T mod 2 <> 0 \/ S_ mod 2 <> 0 ->
  H <= 128 -> H mod 8 = 0 -> 8904 <= cudnn_version ->
  let query := mkArray (by_layout l B N T H) dt tq in
  let key := mkArray (by_layout l kB kN S_ kH) kdt tk in
  _dot_product_attention_fwd_rule query key value bias q_seqlen kv_seqlen
    scale seed dropout_rate variadic_args mask_type (LInt (layout_value l))
    sliding_window_length cudnn_version
  = Err (NotImplementedError "Unsupported sequence length Q, KV and head dim")
  /\
  is_ok (_dot_product_attention_fwd query key value bias q_seqlen kv_seqlen
           scale seed dropout_rate variadic_args mask_type
           (LInt (layout_value l)) sliding_window_length cudnn_version)
  = true.
Proof.
  intros Hodd H1 H2 Hv query key. subst query key. split.
  - unfold _dot_product_attention_fwd_rule.
    rewrite check_is_flash_attention_eq, (odd_not_supported T S_ H true Hodd).
    reflexivity.
  - unfold _dot_product_attention_fwd.
    rewrite check_is_flash_attention_eq.
    assert (Hs : flash_attention_supported T S_ H true false = true).
    { apply flash_attention_supported_iff. split; [auto |]. discriminate. }
    rewrite Hs. cbn [negb].
    assert (Hlt : (cudnn_version <? 8904) = false) by (apply Z.ltb_ge; lia).
    rewrite Hlt, bind_Ok_eq.
    unfold _dot_product_attention_fwd_p_wrapper_bind. cbn [args kwargs].
    unfold _dot_product_attention_fwd_abstract.
    change (check_keywords fwd_keywords _) with (Ok (A := unit) tt).
    rewrite bind_Ok_eq.
    cbn [kwargs_get String.eqb Ascii.eqb Bool.eqb shape].
    destruct l; reflexivity.
Qed.

Lemma fwd_rule_requires_even_lengths_witness :
  _dot_product_attention_fwd_rule
    (mkArray (by_layout BTNH 4 8 15 64) float16 (Input "query"))
    (mkArray (by_layout BTNH 4 8 32 64) float16 (Input "key"))
    (sample_value float16) placeholder placeholder placeholder
    1 42 0 (false, false) NO_MASK (LInt (layout_value BTNH)) None 8904
  = Err (NotImplementedError "Unsupported sequence length Q, KV and head dim").
Proof.
  refine (proj1 (fwd_rule_requires_even_lengths BTNH 4 8 15 64 4 8 32 64
                   float16 float16 (Input "query") (Input "key")
                   (sample_value float16) placeholder placeholder placeholder
                   1%Q 42 0%Q (false, false) NO_MASK None 8904 _ _ _ _)).
  - left. vm_compute. discriminate.
  - lia.
  - reflexivity.
  - lia.
Defined.

(** X11.  What the forward rule saves is what the backward rule dispatches:
    if the forward rule succeeds, its residuals are the six operands, the
    softmax statistics (rank 3, float32) and the output (shape and element
    type of the query); the backward rule applied to these residuals
    succeeds, binds the operands of the forward bind followed by the
    statistics, the output and the output gradient, with the keyword
    parameters of the forward bind except [is_training], and returns six
    cotangents. *)
Theorem fwd_rule_feeds_bwd_rule
    (query key value bias q_seqlen kv_seqlen : Array)
    (scale : Q) (seed : Z) (dropout_rate : Q) (variadic_args : bool * bool)
    (mask_type : MaskType) (layout : layout_arg)
    (sliding_window_length : option Z) (cudnn_version : Z)
    (bf : Bind) (out : Array) (res : Residuals) :
  _dot_product_attention_fwd_rule query key value bias q_seqlen kv_seqlen
    scale seed dropout_rate variadic_args mask_type layout
    sliding_window_length cudnn_version = Ok (bf, (out, res)) ->
  exists activation,
    res = (query, key, value, bias, q_seqlen, kv_seqlen, activation, out) /\
    shape out = shape query /\ dtype out = dtype query /\
    List.length (shape activation) = 3%nat /\ dtype activation = float32 /\
    forall (is_training : Z) (grad_output : Array),
    exists bb grads,
      _dot_product_attention_bwd_rule scale seed dropout_rate variadic_args
        mask_type layout sliding_window_length is_training res grad_output
        = Ok (bb, grads) /\
      args bb = args bf ++ [activation; out; grad_output] /\
      kwargs bf = kwargs bb ++ [("is_training", PBool true)] /\
      List.length grads = 6%nat.
Proof.
  unfold _dot_product_attention_fwd_rule. intros H.
  inv_check H as Ef. inv_bind H as outputs Eo.
  inv_bind H as act Ea. inv_bind H as o Eout.
  injection H as <- <- <-.
  unfold _dot_product_attention_fwd_p_wrapper_bind in Eo.
  cbn [args kwargs primitive] in Eo. inv_bind Eo as avals Eav.
  injection Eo as <-.
  unfold _dot_product_attention_fwd_abstract in Eav.
  change (check_keywords fwd_keywords _) with (Ok (A := unit) tt) in Eav.
  rewrite bind_Ok_eq in Eav.
  cbn [kwargs_get String.eqb Ascii.eqb Bool.eqb] in Eav.
  apply bind_Ok_inv in Eav. destruct Eav as [[[[B N] T] S_] [_ Eav]].
  injection Eav as <-. cbn in Ea, Eout.
  injection Ea as <-. injection Eout as <-.
  exists (mkArray [B; N; T] float32 (PrimOutput fwd_wrapper_name 1)).
  split; [reflexivity |]. split; [reflexivity |]. split; [reflexivity |].
  split; [reflexivity |]. split; [reflexivity |].
  intros is_training grad_output. destruct variadic_args as [hb hd].
  rewrite bwd_rule_eq. eexists. eexists. split; [reflexivity |].
  repeat split; reflexivity.
Qed.

Lemma fwd_rule_feeds_bwd_rule_witness :
  exists activation,
    List.length (shape activation) = 3%nat /\ dtype activation = float32.
Proof.
  destruct (fwd_rule_feeds_bwd_rule
              (sample_query float16) (sample_key float16)
              (sample_value float16) placeholder placeholder placeholder
              1%Q 42 0%Q (false, false) NO_MASK (LInt 0) None 8904
              _ _ _ eq_refl)
    as (act & _ & _ & _ & Hr & Hd & _).
  exists act. split; [exact Hr | exact Hd].
Defined.


(** ** Batching rules *)

Lemma prod_app (l1 l2 : list Z) : prod (l1 ++ l2) = prod l1 * prod l2.
Proof.
  unfold prod. induction l1 as [| x l1 IH]; simpl.
  - destruct (fold_right Z.mul 1 l2); reflexivity.
  - rewrite IH. ring.
Qed.

Lemma last3_app {A : Type} (front : list A) (a b c : A) :
  last3 (front ++ [a; b; c]) = [a; b; c].
Proof.
  unfold last3. rewrite length_app. simpl.
  replace (List.length front + 3 - 3)%nat with (List.length front + 0)%nat
    by lia.
  rewrite skipn_app, Nat.add_0_r, skipn_all, Nat.sub_diag. reflexivity.
Qed.

Lemma jnp_reshape_Ok (a : Array) (s : list Z) (r : Array) :
  jnp_reshape a s = Ok r <->
  prod (shape a) = prod s /\ r = mkArray s (dtype a) (Reshape (term a) s).
Proof.
  unfold jnp_reshape. destruct (Z.eqb_spec (prod (shape a)) (prod s)) as [E | E].
  - split; [intros H; injection H as <-; auto | intros [_ ->]; reflexivity].
  - split; [discriminate | intros [C _]; contradiction].
Qed.

(** X12.  Without bias operand and without padding, the forward batcher
    reaches its bind exactly when every batch dimension is 0 or absent,
    there is at least one, query and key have rank at least three, and key
    and value each hold as many elements as the flattened batch size of the
    query times the last three extents of the key.  The operands bound are
    then query, key and value flattened to that batch size, and the other
    three operands unchanged.  In particular a key without the leading
    batch axes of the query is rejected unless those axes have extent one. *)
Theorem fwd_batcher_flattening
    (query key value bias q_seqlen kv_seqlen : Array)
    (batch_dims : list bdim) (scale : Q) (seed : Z) (dropout_rate : Q)
    (has_dbias : bool) (mask_type : MaskType) (layout : layout_arg)
    (sliding_window_length : option Z) (is_training : bool) :
  has_padding mask_type = false ->
  forall site,
    fwd_batcher_call_site query key value bias q_seqlen kv_seqlen batch_dims
      scale seed dropout_rate (false, has_dbias) mask_type layout
      sliding_window_length is_training = Ok site
    <->
    Forall (fun d => d = None \/ d = Some 0) batch_dims /\
    exists query_bdim Bs a b c Ks d e f,
      nth_error batch_dims 0 = Some query_bdim /\
      shape query = Bs ++ [a; b; c] /\ shape key = Ks ++ [d; e; f] /\
      prod (shape key) = prod Bs * (d * e * f) /\
      prod (shape value) = prod Bs * (d * e * f) /\
      site =
        mkBatcherCallSite
          (mkBind fwd_wrapper_name
             [ mkArray [prod Bs; a; b; c] (dtype query)
                 (Reshape (term query) [prod Bs; a; b; c]);
               mkArray [prod Bs; d; e; f] (dtype key)
                 (Reshape (term key) [prod Bs; d; e; f]);
               mkArray [prod Bs; d; e; f] (dtype value)
                 (Reshape (term value) [prod Bs; d; e; f]);
               bias; q_seqlen; kv_seqlen ]
             [ ("scale", PFloat scale); ("seed", PInt seed);
               ("dropout_rate", PFloat dropout_rate);
               ("variadic_args", PBools false has_dbias);
               ("mask_type", PMaskType mask_type); ("layout", PLayout layout);
               ("is_training", PBool is_training) ])
          (if is_training then [query_bdim; query_bdim] else [query_bdim])
          (shape query) Bs
          (if layout_arg_eqb layout (LInt (layout_value BNTH)) then a else b)
          (if layout_arg_eqb layout (LInt (layout_value BNTH)) then b else a).
Proof.
  intros Hpad site. unfold fwd_batcher_call_site. rewrite Hpad.
  cbn [andb]. split.
  - intros H. inv_check H as Ev. inv_bind H as qb Eq.
    apply bind_Ok_inv in H. destruct H as [[[[Bs N] T] S_] [Ed H]].
    inv_bind H as q' Erq. inv_bind H as k' Erk. inv_bind H as v' Erv.
    repeat (rewrite bind_Ok_eq in H; cbv beta iota in H).
    injection H as <-.
    apply check_valid_batch_dims_spec in Ev. apply getitem_Ok in Eq.
    apply jnp_reshape_Ok in Erq, Erk. destruct Erq as [Pq ->], Erk as [Pk ->].
    cbn [shape] in Erv. apply jnp_reshape_Ok in Erv. destruct Erv as [Pv ->].
    split; [exact Ev |].
    assert (Hsh : exists a b c Ks d e f,
               shape query = Bs ++ [a; b; c] /\ shape key = Ks ++ [d; e; f] /\
               N = (if layout_arg_eqb layout (LInt (layout_value BNTH))
                    then a else b) /\
               T = (if layout_arg_eqb layout (LInt (layout_value BNTH))
                    then b else a)).
    { destruct (layout_arg_eqb layout (LInt (layout_value BNTH)));
        apply bind_Ok_inv in Ed; destruct Ed as [[[[Bs' x] y] z] [Eu Ed]];
        apply bind_Ok_inv in Ed; destruct Ed as [[[[Ks u] w] t] [Ek Ed]];
        injection Ed as <- <- <- <-;
        apply unpack_star3_Ok in Eu, Ek;
        exists x, y, z, Ks, u, w, t; auto. }
    destruct Hsh as (a & b & c & Ks & d & e & f & Hq & Hk & -> & ->).
    exists qb, Bs, a, b, c, Ks, d, e, f.
    rewrite Hq, Hk, !last3_app in *. cbn [app] in *.
    rewrite last3_app in Pv || idtac.
    split; [exact Eq |]. split; [reflexivity |]. split; [reflexivity |].
    assert (P4 : forall x y z : Z, prod [prod Bs; x; y; z]
                                   = prod Bs * (x * y * z))
      by (intros; unfold prod at 1; simpl; ring).
    rewrite P4 in Pk.
    replace (last3 [prod Bs; d; e; f]) with [d; e; f] in * by reflexivity.
    rewrite P4 in Pv.
    split; [exact Pk |]. split; [exact Pv |]. reflexivity.
  - intros (Ev & qb & Bs & a & b & c & Ks & d & e & f &
            Eq & Hq & Hk & Pk & Pv & ->).
    apply check_valid_batch_dims_spec in Ev. apply getitem_Ok in Eq.
    rewrite Ev, bind_Ok_eq, Eq, bind_Ok_eq. cbv beta.
    assert (Eu : unpack_star3 (shape query) = Ok (Bs, a, b, c))
      by (apply unpack_star3_Ok; exact Hq).
    assert (Ek : unpack_star3 (shape key) = Ok (Ks, d, e, f))
      by (apply unpack_star3_Ok; exact Hk).
    assert (P4 : forall x y z : Z, prod [prod Bs; x; y; z]
                                   = prod Bs * (x * y * z))
      by (intros; unfold prod at 1; simpl; ring).
    assert (Rq : jnp_reshape query ([prod Bs] ++ last3 (shape query))
                 = Ok (mkArray [prod Bs; a; b; c] (dtype query)
                         (Reshape (term query) [prod Bs; a; b; c]))).
    { apply jnp_reshape_Ok. rewrite Hq, last3_app. split; [| reflexivity].
      cbn [app]. rewrite P4, prod_app. unfold prod. simpl. ring. }
    assert (Rk : jnp_reshape key ([prod Bs] ++ last3 (shape key))
                 = Ok (mkArray [prod Bs; d; e; f] (dtype key)
                         (Reshape (term key) [prod Bs; d; e; f]))).
    { apply jnp_reshape_Ok. rewrite Hk, last3_app. split; [| reflexivity].
      cbn [app]. rewrite P4, <- Hk. exact Pk. }
    assert (Rv : jnp_reshape value ([prod Bs] ++ last3 [prod Bs; d; e; f])
                 = Ok (mkArray [prod Bs; d; e; f] (dtype value)
                         (Reshape (term value) [prod Bs; d; e; f]))).
    { apply jnp_reshape_Ok. split; [| reflexivity].
      change (last3 [prod Bs; d; e; f]) with [d; e; f]. cbn [app].
      rewrite P4. exact Pv. }
    destruct (layout_arg_eqb layout (LInt (layout_value BNTH)));
      rewrite Eu, bind_Ok_eq; cbv beta iota; rewrite Ek, !bind_Ok_eq;
      cbv beta iota; rewrite Rq, bind_Ok_eq, Rk, bind_Ok_eq; cbn [shape];
      rewrite Rv; repeat (rewrite bind_Ok_eq; cbv beta iota); reflexivity.
Qed.

Lemma fwd_batcher_flattening_witness :
  Forall (fun d : bdim => d = None \/ d = Some 0)
    [Some 0; Some 0; Some 0; None; None; None].
Proof.
  refine (proj1 (proj1 (fwd_batcher_flattening batched_query batched_key
                          batched_value placeholder placeholder placeholder
                          [Some 0; Some 0; Some 0; None; None; None]
                          1%Q 42 0%Q false NO_MASK (LInt 0) (Some 3) false
                          eq_refl _) _)).
  vm_compute. reflexivity.
Defined.

Example fwd_batcher_unbatched_key_rejected :
  fwd_batcher_call_site
    (mkArray [3; 4; 16; 8; 64] float16 (Input "query"))
    (sample_key float16) (sample_value float16)
    placeholder placeholder placeholder
    [Some 0; None; None; None; None; None]
    1 42 0 (false, false) NO_MASK (LInt 0) None false
  = Err (TypeError "cannot reshape array").
Proof. reflexivity. Qed.

(** The bind written in the backward batcher passes six keyword
    parameters. *)
Lemma bwd_batcher_call_site_Ok query key value bias q_seqlen kv_seqlen
    activation fwd_output grad_output batch_dims scale seed dropout_rate
    variadic_args mask_type layout sliding_window_length site :
  bwd_batcher_call_site query key value bias q_seqlen kv_seqlen activation
    fwd_output grad_output batch_dims scale seed dropout_rate variadic_args
    mask_type layout sliding_window_length = Ok site ->
  Forall (fun d => d = None \/ d = Some 0) batch_dims /\
  kwargs (bsite_bind site) =
    [ ("scale", PFloat scale); ("seed", PInt seed);
      ("dropout_rate", PFloat dropout_rate);
      ("variadic_args", PBools (fst variadic_args) (snd variadic_args));
      ("mask_type", PMaskType mask_type); ("layout", PLayout layout) ] /\
  exists q k v b qs ks act out dout,
    args (bsite_bind site) = [q; k; v; b; qs; ks; act; out; dout].
Proof.
  unfold bwd_batcher_call_site. intros H.
  inv_check H as Ev. inv_bind H as query_bdim Eq.
  apply bind_Ok_inv in H. destruct H as [[[[Bs N] T] S_] [Ed H]].
  destruct variadic_args as [has_bias has_dbias].
  inv_bind H as q Erq. inv_bind H as k Erk. inv_bind H as v Erv.
  inv_bind H as bias_bdim Ebd. inv_bind H as b Erb.
  apply bind_Ok_inv in H. destruct H as [[qs ks] [Es H]].
  inv_bind H as act Ea. inv_bind H as out Eo. inv_bind H as dout Eg.
  injection H as <-. cbn [bsite_bind kwargs args].
  split; [apply check_valid_batch_dims_spec; exact Ev |].
  split; [reflexivity |].
  exists q, k, v, b, qs, ks, act, out, dout. reflexivity.
Qed.

(** X13.  The backward batcher has the defect of the forward one: its bind
    passes neither [sliding_window_length] nor any other seventh keyword, so
    the backward rules, which require it, reject the bind and the batcher
    never returns gradients.  A batch dimension other than 0 or absent is
    reported first, as a not-implemented error. *)
Theorem bwd_batcher_never_dispatches
    (query key value bias q_seqlen kv_seqlen activation fwd_output
       grad_output : Array) (batch_dims : list bdim)
    (scale : Q) (seed : Z) (dropout_rate : Q) (variadic_args : bool * bool)
    (mask_type : MaskType) (layout : layout_arg)
    (sliding_window_length : option Z) :
  is_ok (_dot_product_attention_bwd_batcher query key value bias q_seqlen
           kv_seqlen activation fwd_output grad_output batch_dims scale seed
           dropout_rate variadic_args mask_type layout sliding_window_length)
    = false /\
  (forall site,
     bwd_batcher_call_site query key value bias q_seqlen kv_seqlen
       activation fwd_output grad_output batch_dims scale seed dropout_rate
       variadic_args mask_type layout sliding_window_length = Ok site ->
     kwargs_get (kwargs (bsite_bind site)) "sliding_window_length" = None /\
     _dot_product_attention_bwd_p_wrapper_bind (bsite_bind site)
       = Err (TypeError "missing required keyword-only argument")) /\
  (~ Forall (fun d => d = None \/ d = Some 0) batch_dims ->
   _dot_product_attention_bwd_batcher query key value bias q_seqlen
     kv_seqlen activation fwd_output grad_output batch_dims scale seed
     dropout_rate variadic_args mask_type layout sliding_window_length
   = Err (NotImplementedError "Currently only support batch_dim in [0, None]")).
Proof.
  assert (Hsite : forall site,
     bwd_batcher_call_site query key value bias q_seqlen kv_seqlen
       activation fwd_output grad_output batch_dims scale seed dropout_rate
       variadic_args mask_type layout sliding_window_length = Ok site ->
     kwargs_get (kwargs (bsite_bind site)) "sliding_window_length" = None /\
     _dot_product_attention_bwd_p_wrapper_bind (bsite_bind site)
       = Err (TypeError "missing required keyword-only argument")).
  { intros site Es. apply bwd_batcher_call_site_Ok in Es.
    destruct Es as (_ & Hk & q & k & v & b & qs & ks & act & out & dout & Ha).
    unfold _dot_product_attention_bwd_p_wrapper_bind.
    rewrite Ha, Hk. split; reflexivity. }
  split; [| split; [exact Hsite |]].
  - unfold _dot_product_attention_bwd_batcher.
    destruct (bwd_batcher_call_site query key value bias q_seqlen kv_seqlen
                activation fwd_output grad_output batch_dims scale seed
                dropout_rate variadic_args mask_type layout
                sliding_window_length) as [site |] eqn:Es; [| reflexivity].
    rewrite bind_Ok_eq. destruct (Hsite site eq_refl) as [_ ->]. reflexivity.
  - intros Hbad.
    destruct (check_valid_batch_dims_spec batch_dims) as [Hiff [Hok | Herr]].
    + exfalso. apply Hbad, Hiff, Hok.
    + unfold _dot_product_attention_bwd_batcher, bwd_batcher_call_site.
      rewrite Herr. reflexivity.
Qed.

Lemma bwd_batcher_never_dispatches_witness :
  _dot_product_attention_bwd_batcher batched_query batched_key batched_value
    placeholder placeholder placeholder
    (mkArray [3; 2; 8; 16] float32 (Input "activation"))
    batched_query batched_query
    [Some 1; Some 0; Some 0; None; None; None; Some 0; Some 0; Some 0]
    1 42 0 (false, false) NO_MASK (LInt 0) None
  = Err (NotImplementedError "Currently only support batch_dim in [0, None]").
Proof.
  apply (proj2 (proj2 (bwd_batcher_never_dispatches batched_query batched_key
                         batched_value placeholder placeholder placeholder
                         (mkArray [3; 2; 8; 16] float32 (Input "activation"))
                         batched_query batched_query
                         [Some 1; Some 0; Some 0; None; None; None;
                          Some 0; Some 0; Some 0]
                         1%Q 42 0%Q (false, false) NO_MASK (LInt 0) None))).
  intros F. inversion F as [| ? ? [C | C] ?]; discriminate C.
Defined.


(** ** Backend configuration as a wire format *)

Lemma str_injective (x y : Z) : str x = str y -> x = y.
Proof.
  unfold str. intros E.
  apply (f_equal NilEmpty.int_of_string) in E.
  rewrite !NilEmpty.isi in E. injection E as E.
  apply (f_equal Z.of_int) in E. rewrite !DecimalZ.of_to in E. exact E.
Qed.

Lemma convert_mask_type_to_string_injective (m1 m2 : MaskType) :
  convert_mask_type_to_string m1 = convert_mask_type_to_string m2 -> m1 = m2.
Proof. destruct m1, m2; simpl; intros E; try reflexivity; discriminate E. Qed.

(** X14.  The configuration is a faithful record of its inputs: two calls of
    the builder that return the same configuration agree on batch size, head
    count, both sequence lengths, element type, scale, seed, dropout rate,
    mask type and direction, on the dimension table selected by the layout,
    and on the window length up to the identification of an absent window
    with 0. *)
Theorem backend_config_injective
    (b1 n1 q1 k1 : Z) (dt1 : DType) (s1 : Q) (seed1 : Z) (d1 : Q)
    (m1 : MaskType) (l1 : layout_arg) (w1 : option Z) (bwd1 : bool)
    (b2 n2 q2 k2 : Z) (dt2 : DType) (s2 : Q) (seed2 : Z) (d2 : Q)
    (m2 : MaskType) (l2 : layout_arg) (w2 : option Z) (bwd2 : bool)
    (cfg : json) :
  create_dot_product_attention_backend_config b1 n1 q1 k1 dt1 s1 seed1 d1 m1
    l1 w1 bwd1 = Ok cfg ->
  create_dot_product_attention_backend_config b2 n2 q2 k2 dt2 s2 seed2 d2 m2
    l2 w2 bwd2 = Ok cfg ->
  b1 = b2 /\ n1 = n2 /\ q1 = q2 /\ k1 = k2 /\ dt1 = dt2 /\ s1 = s2 /\
  seed1 = seed2 /\ d1 = d2 /\ m1 = m2 /\ bwd1 = bwd2 /\
  layout_arg_eqb l1 (LInt (layout_value BNTH))
    = layout_arg_eqb l2 (LInt (layout_value BNTH)) /\
  match w1 with None => 0 | Some n => n end
    = match w2 with None => 0 | Some n => n end.
Proof.
  rewrite !backend_config_eq. intros H1 H2.
  destruct dt1; try discriminate H1; destruct dt2; try discriminate H2;
    cbn [element_type_to_backend_config_type_mapping] in H1, H2;
    rewrite bind_Ok_eq in H1, H2; cbv beta zeta in H1, H2;
    rewrite <- H1 in H2; clear H1;
    destruct (layout_arg_eqb l1 (LInt (layout_value BNTH))),
             (layout_arg_eqb l2 (LInt (layout_value BNTH))), bwd1, bwd2;
    try discriminate H2;
    injection H2; intros;
    repeat match goal with
           | E : str _ = str _ |- _ => apply str_injective in E
           | E : convert_mask_type_to_string _ = _ |- _ =>
               apply convert_mask_type_to_string_injective in E
           end;
    subst; repeat split; reflexivity || (symmetry; assumption) || assumption.
Qed.

Lemma backend_config_injective_witness :
  layout_arg_eqb (LInt 0) (LInt (layout_value BNTH))
    = layout_arg_eqb (LEnum BTNH) (LInt (layout_value BNTH)) /\
  match @None Z with None => 0 | Some n => n end
    = match Some 0 with None => 0 | Some n => n end.
Proof.
  destruct (backend_config_injective
              4 8 16 32 float16 1%Q 42 0%Q CAUSAL (LInt 0) None false
              4 8 16 32 float16 1%Q 42 0%Q CAUSAL (LEnum BTNH) (Some 0) false
              _ eq_refl eq_refl)
    as (_ & _ & _ & _ & _ & _ & _ & _ & _ & _ & Hl & Hw).
  split; [exact Hl | exact Hw].
Defined.

(** X15.  The builder succeeds exactly for the element types bfloat16 and
    float16; for any other element type the lookup of its name fails with a
    key error, and both lowering rules, which build the configuration after
    reading the shapes, fail with that error on rank-4 operands. *)
Theorem backend_config_unsupported_dtype (l : AttentionLayout)
    (B N T H kB kN S_ kH : Z) (dt kdt : DType) (tq tk : Term)
    (value bias q_seqlen kv_seqlen activation fwd_output grad_output : Array)
    (scale : Q) (seed : Z) (dropout_rate : Q) (variadic_args : bool * bool)
    (mask_type : MaskType) (layout : layout_arg)
    (sliding_window_length : option Z) (is_bwd is_training : bool) :
  (is_ok (create_dot_product_attention_backend_config B N T S_ dt scale seed
            dropout_rate mask_type layout sliding_window_length is_bwd)
     = true <-> dt = bfloat16 \/ dt = float16) /\
  (dt <> bfloat16 /\ dt <> float16 ->
   create_dot_product_attention_backend_config B N T S_ dt scale seed
     dropout_rate mask_type layout sliding_window_length is_bwd
     = Err (KeyError "element type") /\
   _dot_product_attention_fwd_cuda_lowering
     (mkArray (by_layout l B N T H) dt tq)
     (mkArray (by_layout l kB kN S_ kH) kdt tk)
     value bias q_seqlen kv_seqlen scale seed dropout_rate variadic_args
     mask_type (LInt (layout_value l)) sliding_window_length is_training
     = Err (KeyError "element type") /\
   _dot_product_attention_bwd_cuda_lowering
     (mkArray (by_layout l B N T H) dt tq)
     (mkArray (by_layout l kB kN S_ kH) kdt tk)
     value bias q_seqlen kv_seqlen activation fwd_output grad_output
     scale seed dropout_rate variadic_args mask_type
     (LInt (layout_value l)) sliding_window_length
     = Err (KeyError "element type")).
Proof.
  split.
  - rewrite backend_config_eq.
    destruct dt; cbn; split; intros E; try discriminate E; try reflexivity;
      try tauto; destruct E as [E | E]; discriminate E.
  - intros [N1 N2].
    assert (Hc : forall lay bwd,
               create_dot_product_attention_backend_config B N T S_ dt scale
                 seed dropout_rate mask_type lay sliding_window_length bwd
               = Err (KeyError "element type")).
    { intros lay bwd. rewrite backend_config_eq.
      destruct dt; try reflexivity; contradiction. }
    split; [apply Hc |]. split.
    + unfold _dot_product_attention_fwd_cuda_lowering. cbn [shape dtype].
      destruct l; cbn [layout_value layout_arg_eqb Z.eqb Pos.eqb by_layout
                       unpack4];
        rewrite !bind_Ok_eq; cbv beta iota; rewrite Hc; reflexivity.
    + unfold _dot_product_attention_bwd_cuda_lowering. cbn [shape dtype].
      destruct l; cbn [layout_value layout_arg_eqb Z.eqb Pos.eqb by_layout
                       unpack4];
        rewrite !bind_Ok_eq; cbv beta iota; rewrite Hc; reflexivity.
Qed.

Lemma backend_config_unsupported_dtype_witness :
  create_dot_product_attention_backend_config 4 8 16 32 float32 1 42 0
    NO_MASK (LInt 0) None false = Err (KeyError "element type").
Proof.
  refine (proj1 (proj2 (backend_config_unsupported_dtype BTNH 4 8 16 64 4 8
                          32 64 float32 float32 (Input "query") (Input "key")
                          (sample_value float32) placeholder placeholder
                          placeholder placeholder placeholder placeholder
                          1%Q 42 0%Q (false, false) NO_MASK (LInt 0) None
                          false false) _)).
  split; discriminate.
Defined.


(** ** The user-facing operator *)

(** Everything a successful call of the operator has passed through. *)
Lemma operator_Ok_inv upper env query key value bias mask q_seqlen kv_seqlen
    scale mask_type seed dropout_rate qkv_layout sliding_window_length b out :
  dot_product_attention upper env query key value bias mask q_seqlen
    kv_seqlen scale mask_type seed dropout_rate qkv_layout
    sliding_window_length = Ok (b, out) ->
  exists (v : Z) (layout : AttentionLayout) (combined : option Array)
         (has_dbias : bool) (qB qN qT qH kN kS : Z),
    cuda_versions env = Some v /\
    check_compute_capability env [8; 0] = true /\
    _normalize_layout upper qkv_layout = Ok layout /\
    (has_padding mask_type = true ->
     q_seqlen <> None /\ kv_seqlen <> None) /\
    check_layout query key value combined q_seqlen kv_seqlen (LEnum layout)
      = Ok tt /\
    shape query = by_layout layout qB qN qT qH /\
    shape key = by_layout layout qB kN kS qH /\
    flash_attention_supported qT kS qH true (under_vjp env) = true /\
    8904 <= v /\
    let placeholder := mkArray [0] (dtype query) (Zeros 0 (dtype query)) in
    b = mkBind fwd_wrapper_name
          [ query; key; value;
            match combined with Some c => c | None => placeholder end;
            match q_seqlen with Some a => a | None => placeholder end;
            match kv_seqlen with Some a => a | None => placeholder end ]
          [ ("scale", PFloat scale); ("seed", PInt seed);
            ("dropout_rate", PFloat dropout_rate);
            ("variadic_args",
             PBools (match combined with Some _ => true | None => false end)
               has_dbias);
            ("mask_type", PMaskType mask_type);
            ("layout", PLayout (LInt (layout_value layout)));
            ("sliding_window_length", of_optional sliding_window_length);
            ("is_training", PBool (under_vjp env)) ] /\
    out = mkArray (shape query) (dtype query) (PrimOutput fwd_wrapper_name 0).
Proof.
  unfold dot_product_attention. intros H.
  inv_bind H as v Ev. inv_raise H as Gcap.
  inv_bind H as layout El.
  inv_raise H as Gpad. inv_raise H as Gwin.
  inv_bind H as folded Ef. inv_bind H as combined Ec.
  inv_check H as Echk.
  inv_bind H as has_dbias Ed.
  apply custom_vjp_Ok_inv in H.
  destruct H as (Gflash & -> & outputs & Eo & Eout).
  pose proof Echk as Hsh. apply check_layout_accepts_iff in Hsh.
  destruct Hsh as (qB & qN & qT & qH & kN & kS & Hq & Hk & _).
  exists v, layout, combined, has_dbias, qB, qN, qT, qH, kN, kS.
  unfold check_cudnn_version in Ev.
  destruct (cuda_versions env) as [v' |]; [| discriminate Ev].
  injection Ev as ->.
  split; [reflexivity |]. split; [apply negb_false_iff; exact Gcap |].
  split; [exact El |].
  split.
  { intros Hp. rewrite Hp in Gpad. cbn [andb] in Gpad.
    apply orb_false_iff in Gpad. destruct Gpad as [G1 G2].
    destruct q_seqlen, kv_seqlen; try discriminate G1; try discriminate G2.
    split; discriminate. }
  split; [exact Echk |]. split; [exact Hq |]. split; [exact Hk |].
  destruct query as [qs qd qt], key as [ks kd kt]. cbn [shape dtype] in *.
  subst qs ks.
  rewrite check_is_flash_attention_eq in Gflash.
  destruct (flash_attention_supported qT kS qH true (under_vjp env));
    [| discriminate Gflash].
  cbn [negb] in Gflash.
  destruct (Z.ltb_spec v 8904) as [Hv | Hv]; [discriminate Gflash |].
  split; [reflexivity |]. split; [exact Hv |].
  split; [reflexivity |].
  unfold _dot_product_attention_fwd_p_wrapper_bind in Eo.
  cbn [args kwargs primitive] in Eo. inv_bind Eo as avals Eav.
  injection Eo as <-.
  unfold _dot_product_attention_fwd_abstract in Eav.
  change (check_keywords fwd_keywords _) with (Ok (A := unit) tt) in Eav.
  rewrite bind_Ok_eq in Eav.
  cbn [kwargs_get String.eqb Ascii.eqb Bool.eqb] in Eav.
  apply bind_Ok_inv in Eav. destruct Eav as [[[[B N] T] S_] [_ Eav]].
  destruct (under_vjp env);
    injection Eav as <-; cbn in Eout; injection Eout as <-; reflexivity.
Qed.

(** X16.  Whenever the operator succeeds, its result has the shape and the
    element type of the query; exactly one bind of the forward wrapper
    primitive was made, with query, key and value passed unchanged as the
    first three operands and the layout passed as the integer value of the
    normalized layout.  The bind is in training mode exactly when the call
    is being differentiated, since the forward rule then stands in for the
    body; otherwise it is in inference mode. *)
Theorem operator_output_like_query upper env query key value bias mask
    q_seqlen kv_seqlen scale mask_type seed dropout_rate qkv_layout
    sliding_window_length b out :
  dot_product_attention upper env query key value bias mask q_seqlen
    kv_seqlen scale mask_type seed dropout_rate qkv_layout
    sliding_window_length = Ok (b, out) ->
  shape out = shape query /\ dtype out = dtype query /\
  (dtype query = bfloat16 \/ dtype query = float16) /\
  List.length (shape query) = 4%nat /\
  primitive b = "dot_product_attention_fwd_wrapper" /\
  firstn 3 (args b) = [query; key; value] /\
  List.length (args b) = 6%nat /\
  kwargs_get (kwargs b) "is_training" = Some (PBool (under_vjp env)) /\
  exists layout,
    _normalize_layout upper qkv_layout = Ok layout /\
    kwargs_get (kwargs b) "layout"
      = Some (PLayout (LInt (match layout with BTNH => 0 | BNTH => 1 end))).
Proof.
  intros H. apply operator_Ok_inv in H.
  destruct H as (v & layout & combined & has_dbias & qB & qN & qT & qH & kN
                 & kS & _ & _ & El & _ & Echk & Hq & _ & _ & _ & -> & ->).
  apply check_layout_accepts_iff in Echk.
  destruct Echk as (_ & _ & _ & _ & _ & _ & _ & _ & _ & Hd & _).
  repeat split; try reflexivity.
  - exact Hd.
  - rewrite Hq. destruct layout; reflexivity.
  - exists layout. split; [exact El | destruct layout; reflexivity].
Qed.

Lemma operator_output_like_query_witness :
  shape (mkArray [4; 16; 8; 64] float16
           (PrimOutput fwd_wrapper_name 0)) = shape (sample_query float16).
Proof.
  exact (proj1 (operator_output_like_query ascii_upper sample_env
                  (sample_query float16) (sample_key float16)
                  (sample_value float16) None None None None 1%Q NO_MASK 42
                  0%Q "BTNH" None _ _ eq_refl)).
Defined.

Example operator_differentiated_call_trains :
  exists b out,
    dot_product_attention ascii_upper (mkEnv (Some 8904) true [8; 0] true)
      (sample_query float16) (sample_key float16) (sample_value float16)
      None None None None 1 NO_MASK 42 0 "BTNH" None = Ok (b, out) /\
    kwargs_get (kwargs b) "is_training" = Some (PBool true) /\
    shape out = [4; 16; 8; 64].
Proof. eexists. eexists. split; [reflexivity |]. split; reflexivity. Qed.

(** X17.  The operator never dispatches on an unsupported configuration:
    whenever it succeeds, cuDNN was detected in a version of at least 8904,
    the platform is CUDA with compute capability at least 8.0, the head size
    is at most 128 and a multiple of 8, a given window length is positive,
    and with a padding mask type both sequence-length vectors were
    supplied. *)
Theorem operator_success_preconditions upper env query key value bias mask
    q_seqlen kv_seqlen scale mask_type seed dropout_rate qkv_layout
    sliding_window_length b out :
  dot_product_attention upper env query key value bias mask q_seqlen
    kv_seqlen scale mask_type seed dropout_rate qkv_layout
    sliding_window_length = Ok (b, out) ->
  (exists v, cuda_versions env = Some v /\ 8904 <= v) /\
  platform_is_cuda env = true /\
  tuple_geb (compute_capability env) [8; 0] = true /\
  (exists layout B N T H,
     _normalize_layout upper qkv_layout = Ok layout /\
     shape query = by_layout layout B N T H /\ H <= 128 /\ H mod 8 = 0) /\
  (has_padding mask_type = true ->
   exists a c, q_seqlen = Some a /\ kv_seqlen = Some c /\
               nth_error (args b) 4 = Some a /\
               nth_error (args b) 5 = Some c) /\
  (forall n, sliding_window_length = Some n -> 0 < n).
Proof.
  intros H. pose proof H as H'. apply operator_Ok_inv in H.
  destruct H as (v & layout & combined & has_dbias & qB & qN & qT & qH & kN
                 & kS & Hv & Hcap & El & Hpad & _ & Hq & _ & Hs & Hver
                 & -> & _).
  split; [exists v; auto |].
  unfold check_compute_capability in Hcap.
  destruct (platform_is_cuda env); [| discriminate Hcap].
  cbn [negb] in Hcap.
  split; [reflexivity |]. split; [exact Hcap |].
  apply flash_attention_supported_iff in Hs. destruct Hs as [[H1 H2] _].
  split; [exists layout, qB, qN, qT, qH; auto |].
  split.
  - intros Hp. destruct (Hpad Hp) as [N1 N2].
    destruct q_seqlen as [a |]; [| contradiction N1; reflexivity].
    destruct kv_seqlen as [c |]; [| contradiction N2; reflexivity].
    exists a, c. repeat split; reflexivity.
  - intros n ->. apply dispatched_operands in H'.
    destruct H' as (? & ? & ? & ? & _ & _ & _ & _ & _ & _ & _ & Hw).
    exact Hw.
Qed.

Lemma operator_success_preconditions_witness :
  exists v, cuda_versions sample_env = Some v /\ 8904 <= v.
Proof.
  exact (proj1 (operator_success_preconditions ascii_upper sample_env
                  (sample_query float16) (sample_key float16)
                  (sample_value float16) None None None None 1%Q NO_MASK 42
                  0%Q "BTNH" None _ _ eq_refl)).
Defined.

Lemma tuple_geb_8_0 (major minor : Z) :
  0 <= minor -> (tuple_geb [major; minor] [8; 0] = true <-> 8 <= major).
Proof.
  intros Hm. cbn [tuple_geb].
  destruct (Z.ltb_spec major 8) as [L | L]; [split; [discriminate | lia] |].
  destruct (Z.ltb_spec 8 major) as [G | G]; [split; [lia | reflexivity] |].
  destruct (Z.ltb_spec minor 0) as [M | M]; [lia |].
  destruct (Z.ltb_spec 0 minor); split; (lia || reflexivity).
Qed.

(** X18.  Errors of the environment come first and do not depend on the
    operands: without cuDNN the operator raises the not-detected error; with
    cuDNN but off CUDA or on a device below capability 8.0 it raises the
    architecture error; only then is the layout string examined.  For a
    two-component capability with non-negative minor part, capability 8.0
    is reached exactly when the major part is at least 8. *)
Theorem operator_environment_errors upper env query key value bias mask
    q_seqlen kv_seqlen scale mask_type seed dropout_rate qkv_layout
    sliding_window_length :
  (cuda_versions env = None ->
   dot_product_attention upper env query key value bias mask q_seqlen
     kv_seqlen scale mask_type seed dropout_rate qkv_layout
     sliding_window_length = Err (RuntimeError "cuDNN is not detected.")) /\
  (cuda_versions env <> None ->
   platform_is_cuda env = false \/
   tuple_geb (compute_capability env) [8; 0] = false ->
   dot_product_attention upper env query key value bias mask q_seqlen
     kv_seqlen scale mask_type seed dropout_rate qkv_layout
     sliding_window_length
   = Err (RuntimeError "Require at least Ampere arch to run")) /\
  (cuda_versions env <> None ->
   check_compute_capability env [8; 0] = true ->
   ~ In (upper qkv_layout) ["BSNH"; "BNSH"; "BTNH"; "BNTH"] ->
   dot_product_attention upper env query key value bias mask q_seqlen
     kv_seqlen scale mask_type seed dropout_rate qkv_layout
     sliding_window_length = Err (ValueError "Unsupported qkv_layout")) /\
  (forall major minor,
     compute_capability env = [major; minor] -> 0 <= minor ->
     (check_compute_capability env [8; 0] = true <->
      platform_is_cuda env = true /\ 8 <= major)).
Proof.
  unfold dot_product_attention, check_cudnn_version, check_compute_capability.
  split; [| split; [| split]].
  - intros ->. reflexivity.
  - intros Hv Hc. destruct (cuda_versions env) as [v |];
      [| contradiction Hv; reflexivity].
    rewrite bind_Ok_eq.
    destruct Hc as [-> | Hc]; [reflexivity |].
    rewrite Hc. destruct (platform_is_cuda env); reflexivity.
  - intros Hv Hc Hin. destruct (cuda_versions env) as [v |];
      [| contradiction Hv; reflexivity].
    rewrite bind_Ok_eq, Hc. cbn [negb raise_if]. rewrite bind_Ok_eq.
    unfold _normalize_layout, string_in. cbn [existsb].
    destruct (String.eqb_spec (upper qkv_layout) "BSNH") as [E | _];
      [exfalso; apply Hin; rewrite E; simpl; tauto |].
    destruct (String.eqb_spec (upper qkv_layout) "BNSH") as [E | _];
      [exfalso; apply Hin; rewrite E; simpl; tauto |].
    destruct (String.eqb_spec (upper qkv_layout) "BTNH") as [E | _];
      [exfalso; apply Hin; rewrite E; simpl; tauto |].
    destruct (String.eqb_spec (upper qkv_layout) "BNTH") as [E | _];
      [exfalso; apply Hin; rewrite E; simpl; tauto |].
    reflexivity.
  - intros major minor -> Hm.
    destruct (platform_is_cuda env); cbn [negb].
    + rewrite (tuple_geb_8_0 major minor Hm). tauto.
    + split; [discriminate | intros [C _]; discriminate C].
Qed.

Lemma operator_environment_errors_witness :
  dot_product_attention ascii_upper (mkEnv (Some 8904) true [7; 5] false)
    (sample_query float16) (sample_key float16) (sample_value float16)
    None None None None 1 NO_MASK 42 0 "BTNH" None
  = Err (RuntimeError "Require at least Ampere arch to run").
Proof.
  apply (proj1 (proj2 (operator_environment_errors ascii_upper
                         (mkEnv (Some 8904) true [7; 5] false)
                         (sample_query float16) (sample_key float16)
                         (sample_value float16) None None None None 1%Q
                         NO_MASK 42 0%Q "BTNH" None))).
  - discriminate.
  - right. reflexivity.
Defined.

(** X19.  With a padding mask type, a call that lacks one of the two
    sequence-length vectors is rejected before the window length, the bias,
    the mask or any shape is looked at. *)
Theorem operator_padding_requires_seqlens upper env query key value bias mask
    q_seqlen kv_seqlen scale mask_type seed dropout_rate qkv_layout
    sliding_window_length :
  has_padding mask_type = true ->
  q_seqlen = None \/ kv_seqlen = None ->
  is_ok (dot_product_attention upper env query key value bias mask q_seqlen
           kv_seqlen scale mask_type seed dropout_rate qkv_layout
           sliding_window_length) = false /\
  (cuda_versions env <> None ->
   check_compute_capability env [8; 0] = true ->
   is_ok (_normalize_layout upper qkv_layout) = true ->
   dot_product_attention upper env query key value bias mask q_seqlen
     kv_seqlen scale mask_type seed dropout_rate qkv_layout
     sliding_window_length
   = Err (ValueError "Require q_seqlen and kv_seqlen to generate padding mask")).
Proof.
  intros Hp Hnone.
  assert (Hg : has_padding mask_type &&
               (match q_seqlen with None => true | Some _ => false end ||
                match kv_seqlen with None => true | Some _ => false end)
               = true).
  { rewrite Hp. destruct Hnone as [-> | ->]; [reflexivity |].
    apply orb_true_r. }
  unfold dot_product_attention. rewrite Hg. split.
  - destruct (check_cudnn_version env); [| reflexivity]. rewrite bind_Ok_eq.
    destruct (raise_if _ _) as [[] |]; [| reflexivity]. rewrite bind_Ok_eq.
    destruct (_normalize_layout upper qkv_layout); reflexivity.
  - intros Hv Hc Hl. unfold check_cudnn_version.
    destruct (cuda_versions env) as [v |]; [| contradiction Hv; reflexivity].
    rewrite bind_Ok_eq, Hc. cbn [negb raise_if]. rewrite bind_Ok_eq.
    apply is_ok_true in Hl. destruct Hl as [l ->]. reflexivity.
Qed.

Lemma operator_padding_requires_seqlens_witness :
  is_ok (dot_product_attention ascii_upper sample_env
           (sample_query float16) (sample_key float16) (sample_value float16)
           None None (Some (mkArray [4] int32 (Input "q_seqlen"))) None
           1 PADDING_CAUSAL 42 0 "BTNH" None) = false.
Proof.
  apply (operator_padding_requires_seqlens ascii_upper sample_env
           (sample_query float16) (sample_key float16) (sample_value float16)
           None None (Some (mkArray [4] int32 (Input "q_seqlen"))) None
           1%Q PADDING_CAUSAL 42 0%Q "BTNH" None eq_refl).
  right. reflexivity.
Defined.

Lemma broadcast_rev_length (a b r : list Z) :
  broadcast_rev a b = Ok r ->
  List.length r = Nat.max (List.length a) (List.length b).
Proof.
  revert b r. induction a as [| x a IH]; intros b r.
  - simpl. intros E. injection E as <-. reflexivity.
  - destruct b as [| y b]; simpl.
    + intros E. injection E as <-. reflexivity.
    + intros E. inv_bind E as r' Er. apply IH in Er.
      destruct (x =? y); [injection E as <-; simpl; lia |].
      destruct (x =? 1); [injection E as <-; simpl; lia |].
      destruct (y =? 1); [injection E as <-; simpl; lia |].
      discriminate E.
Qed.

Lemma reshape_to_4D_rank (a : Array) :
  rank (reshape_to_4D a) = Z.max 4 (rank a).
Proof.
  unfold reshape_to_4D, rank. cbn [shape].
  rewrite length_app, repeat_length. lia.
Qed.

Lemma array_add_rank (a b s : Array) :
  array_add a b = Ok s -> rank s = Z.max (rank a) (rank b).
Proof.
  unfold array_add, broadcast_shapes. intros E.
  inv_bind E as sh Es. inv_bind Es as r Er. injection Es as <-.
  injection E as <-. apply broadcast_rev_length in Er.
  unfold rank. cbn [shape]. rewrite length_rev, Er, !length_rev. lia.
Qed.

(** X20.  A bias or mask of rank at most 4 is given leading axes of extent
    one up to rank 4, without changing its number of elements; one of
    higher rank is left as it is, and the operator then always rejects the
    call. *)
Theorem operator_bias_mask_rank upper env query key value bias mask q_seqlen
    kv_seqlen scale mask_type seed dropout_rate qkv_layout
    sliding_window_length :
  (forall a, rank (reshape_to_4D a) = Z.max 4 (rank a) /\
             prod (shape (reshape_to_4D a)) = prod (shape a) /\
             (4 <= rank a -> shape (reshape_to_4D a) = shape a)) /\
  ((exists a, bias = Some a /\ 4 < rank a) \/
   (exists m, mask = Some m /\ 4 < rank m) ->
   is_ok (dot_product_attention upper env query key value bias mask q_seqlen
            kv_seqlen scale mask_type seed dropout_rate qkv_layout
            sliding_window_length) = false).
Proof.
  split.
  - intros a. split; [apply reshape_to_4D_rank |]. split.
    + unfold reshape_to_4D. cbn [shape]. rewrite prod_app.
      assert (R : forall k, prod (repeat 1 k) = 1).
      { induction k as [| k IH]; [reflexivity |].
        simpl. unfold prod in *. simpl. rewrite IH. reflexivity. }
      rewrite R. lia.
    + intros Hr. unfold reshape_to_4D. cbn [shape].
      replace (Z.to_nat (4 - rank a)) with 0%nat by lia. reflexivity.
  - intros Hbig.
    destruct (dot_product_attention upper env query key value bias mask
                q_seqlen kv_seqlen scale mask_type seed dropout_rate
                qkv_layout sliding_window_length) as [[b out] |] eqn:E;
      [| reflexivity].
    exfalso. apply dispatched_operands in E.
    destruct E as (fo & co & l & hd & _ & Hf & Hc & Hchk & _).
    apply check_layout_accepts_iff in Hchk.
    destruct Hchk as (qB & qN & qT & qH & kN & kS & _ & _ & _ & _ & _ & _
                      & Hb & _).
    assert (Hr4 : forall c, co = Some c -> rank c = 4).
    { intros c ->. destruct Hb as (b0 & b1 & Hs). unfold rank.
      rewrite Hs. reflexivity. }
    assert (Hfo : forall m f, mask = Some m -> fo = Some f ->
                              rank f = Z.max 4 (rank m)).
    { intros m f -> ->. destruct Hf as (f' & Hf' & Ef). injection Ef as <-.
      unfold fold_mask in Hf'. inv_bind Hf' as m' Em. injection Hf' as <-.
      rewrite reshape_to_4D_rank.
      destruct (DType_eqb (dtype m) bool_).
      - inv_bind Em as lnn Elnn. injection Em as <-. reflexivity.
      - injection Em as <-. reflexivity. }
    destruct bias as [bb |]; cbn [option_map] in Hc.
    + pose proof (reshape_to_4D_rank bb) as Rb.
      destruct fo as [f |].
      * destruct Hc as (s & Hs & ->). apply array_add_rank in Hs.
        specialize (Hr4 s eq_refl).
        destruct Hbig as [(a & Ea & Ha) | (m & Em & Hm)].
        -- injection Ea as <-. lia.
        -- specialize (Hfo m f Em eq_refl). lia.
      * subst co. specialize (Hr4 _ eq_refl).
        destruct Hbig as [(a & Ea & Ha) | (m & Em & Hm)].
        -- injection Ea as <-. lia.
        -- subst mask. destruct Hf as (f' & _ & C). discriminate C.
    + subst co.
      destruct Hbig as [(a & Ea & _) | (m & Em & Hm)]; [discriminate Ea |].
      subst mask. destruct Hf as (f & Hf' & ->).
      specialize (Hr4 f eq_refl).
      specialize (Hfo m f eq_refl eq_refl). lia.
Qed.

Lemma operator_bias_mask_rank_witness :
  is_ok (dot_product_attention ascii_upper sample_env
           (sample_query float16) (sample_key float16) (sample_value float16)
           (Some (mkArray [1; 1; 1; 16; 32] float16 (Input "bias")))
           None None None 1 NO_MASK 42 0 "BTNH" None) = false.
Proof.
  apply (proj2 (operator_bias_mask_rank ascii_upper sample_env
                  (sample_query float16) (sample_key float16)
                  (sample_value float16)
                  (Some (mkArray [1; 1; 1; 16; 32] float16 (Input "bias")))
                  None None None 1%Q NO_MASK 42 0%Q "BTNH" None)).
  left. eexists. split; [reflexivity |]. vm_compute. reflexivity.
Defined.
